(** * Marketing record store: segmentation, campaigns and funnel metrics

    A shallow embedding of [marketing/segmentation.py],
    [marketing/campaigns.py] and [marketing/analytics.py], and the
    properties of the rule engine, the campaign life cycle and the
    metrics aggregator that the specification states about them.

    Conventions of the embedding.
    - A CSV file is a list of rows; a file that does not exist is [None].
      The text of the CSV and JSON serialisation is not modelled: a row
      read back is the row that was written.
    - Python [int] is [Z], [len] is [nat], [float] is the kernel's
      binary64 [float], [str] is [string]. A [string] holds ASCII text,
      one character per code point below 128; [lower] and [strip] are
      the built-ins of Python on such text, and the theorem on letter
      case names this condition ([isascii]).
    - [random.random()] and [datetime.now().isoformat()] read an
      environment [env]; the state counts how many values were read. *)

From Stdlib Require Import ZArith List String Ascii Bool Lia FinFun.
From Stdlib Require Import Numbers.DecimalString Numbers.DecimalNat Numbers.DecimalZ.
From Stdlib Require Import Floats.PrimFloat Floats.FloatOps Floats.SpecFloat.
From Stdlib Require Import QArith Qabs Qpower Lqa.
Import ListNotations.

Close Scope Q_scope.

Set Implicit Arguments.
Set Warnings "-inexact-float".
Open Scope string_scope.
Open Scope list_scope.

(** ** Python built-ins used by the three modules *)

Module Py.

(** A value that reaches [str(...)]: the routes pass strings, other
    callers may pass integers. *)
Inductive value :=
| VStr (s : string)
| VInt (z : Z).

(** [str(n)] for a length-derived number. *)
Definition str_nat (n : nat) : string :=
  NilEmpty.string_of_uint (Nat.to_uint n).

(** [str(z)] for an integer. *)
Definition str_int (z : Z) : string :=
  NilZero.string_of_int (Z.to_int z).

(** [str(v)]: a string is returned as it is. *)
Definition str (v : value) : string :=
  match v with
  | VStr s => s
  | VInt z => str_int z
  end.

(** [ch.lower()] for an ASCII character: the letters A-Z move to a-z,
    every other character stays. *)
Definition lower_ascii (ch : ascii) : ascii :=
  let n := nat_of_ascii ch in
  if (65 <=? n)%nat && (n <=? 90)%nat then ascii_of_nat (n + 32) else ch.

(** [s.lower()] for ASCII text, character by character. *)
Fixpoint lower (s : string) : string :=
  match s with
  | EmptyString => EmptyString
  | String ch rest => String (lower_ascii ch) (lower rest)
  end.

(** [needle in haystack] on strings: some suffix of [haystack] starts
    with [needle]. *)
Fixpoint contains (needle haystack : string) : bool :=
  if String.prefix needle haystack then true
  else match haystack with
       | EmptyString => false
       | String _ rest => contains needle rest
       end.

(** The result of an arithmetic expression that is an [int] on one
    branch and a [float] on the other. *)
Inductive num :=
| NInt (z : Z)
| NFloat (f : float).

(** [bool(f)] for a float: every value but the two zeros is true. *)
Definition truthy_float (f : float) : bool := negb (PrimFloat.is_zero f).

(** [bool(z)] for an integer. *)
Definition truthy_int (z : Z) : bool := negb (z =? 0)%Z.

(** [bool(s)] for a string. *)
Definition truthy_str (s : string) : bool :=
  match s with
  | EmptyString => false
  | String _ _ => true
  end.

(** [a / b] on two non-negative integers: the quotient rounded once to
    the nearest binary64 value. The callers test [b > 0] before they
    divide. *)
Definition truediv (a b : nat) : float :=
  match Z.of_nat a, Z.of_nat b with
  | Zpos pa, Zpos pb =>
      SF2Prim (SFdiv prec emax (S754_finite false pa 0) (S754_finite false pb 0))
  | _, _ => PrimFloat.zero
  end.

(** The integer nearest to [m * 100 * 2^e], ties to the even one. *)
Definition scale100_half_even (m : positive) (e : Z) : Z :=
  let q := (Zpos m * 100)%Z in
  match e with
  | Zneg p =>
      let d := Z.pow 2 (Zpos p) in
      let (k, r) := Z.div_eucl q d in
      match (2 * r ?= d)%Z with
      | Lt => k
      | Gt => (k + 1)%Z
      | Eq => if Z.even k then k else (k + 1)%Z
      end
  | _ => (q * Z.pow 2 e)%Z
  end.

(** [round(f, 2)] on a float: the decimal with two fractional digits
    nearest to the exact value of [f] (ties to even), read back as the
    nearest binary64 value; the sign is kept, and a NaN, an infinity or
    a zero is returned as it is. *)
Definition round2_float (f : float) : float :=
  match Prim2SF f with
  | S754_finite s m e =>
      match scale100_half_even m e with
      | Zpos n =>
          SF2Prim (SFdiv prec emax (S754_finite s n 0) (S754_finite false 100 0))
      | _ => SF2Prim (S754_zero s)
      end
  | _ => f
  end.

(** [round(x, 2)]: an [int] is returned unchanged. *)
Definition round2 (x : num) : num :=
  match x with
  | NInt z => NInt z
  | NFloat f => NFloat (round2_float f)
  end.

End Py.

(** ** Records of the four collections *)

(** A row of [customers.csv] after [load_customers] converted [age] and
    [total_spent]. [location] is [None] when the row has no such key. *)
Record customer := mkCustomer {
  customer_id : string;
  customer_name : string;
  email : string;
  age : Z;
  location : option string;
  total_spent : float;
  last_purchase_date : string
}.

(** The [rules] dictionary of a segment: [None] is a key that is not in
    the dictionary. The values have the types the segment form stores
    (an [int] for the two ages, a [str], a [float]), on which the
    conversions [int(...)] and [float(...)] of [match_customer_rules] do
    nothing. *)
Record rules := mkRules {
  min_age : option Z;
  max_age : option Z;
  rule_location : option string;
  min_total_spent : option float
}.

(** A row of [segments.csv] with its parsed [rules]. *)
Record segment := mkSegment {
  segment_id : string;
  segment_name : string;
  segment_rules : rules
}.

(** A row of [campaigns.csv]. *)
Record campaign := mkCampaign {
  campaign_id : string;
  name : string;
  campaign_segment_id : string;
  start_date : string;
  status : string;
  subject : string;
  body : string
}.

(** A row of [events.csv]. *)
Record event := mkEvent {
  event_id : string;
  event_campaign_id : string;
  event_customer_id : string;
  event_type : string;
  timestamp : string
}.

(** The four files, and how many random numbers and clock readings were
    consumed so far. *)
Record state := mkState {
  customers_csv : option (list customer);
  segments_csv : option (list segment);
  campaigns_csv : option (list campaign);
  events_csv : option (list event);
  random_pos : nat;
  clock_pos : nat
}.

(** The sources of randomness and time. *)
Record env := mkEnv {
  random : nat -> float;
  now_isoformat : nat -> string
}.

(** ** A reader and state monad for the file operations *)

Definition M (A : Type) : Type := env -> state -> A * state.

Definition ret {A} (a : A) : M A := fun _ s => (a, s).

Definition bind {A B} (m : M A) (k : A -> M B) : M B :=
  fun e s => let (a, s') := m e s in k a e s'.

Definition get_state : M state := fun _ s => (s, s).

Definition put_state (s : state) : M unit := fun _ _ => (tt, s).

Declare Scope monad_scope.
Delimit Scope monad_scope with monad.
Notation "x <- m ;; k" := (bind m (fun x => k))
  (at level 61, m at next level, right associativity) : monad_scope.
Notation "m ;;; k" := (bind m (fun _ => k))
  (at level 61, right associativity) : monad_scope.
Open Scope monad_scope.

(** [for x in xs: body(x)]. *)
Fixpoint for_each {A} (xs : list A) (body : A -> M unit) : M unit :=
  match xs with
  | [] => ret tt
  | x :: rest => body x ;;; for_each rest body
  end.

(** ** marketing/segmentation.py *)

Definition load_customers (s : state) : list customer :=
  match customers_csv s with
  | None => []
  | Some rows => rows
  end.

Definition load_segments (s : state) : list segment :=
  match segments_csv s with
  | None => []
  | Some rows => rows
  end.

Definition get_segment_by_id (s : state) (sid : Py.value) : option segment :=
  find (fun seg => String.eqb (segment_id seg) (Py.str sid)) (load_segments s).

(** [customer.get('location', '')]. *)
Definition customer_location (c : customer) : string :=
  match location c with
  | Some l => l
  | None => EmptyString
  end.

(** The four guarded tests of [match_customer_rules], in the order of the
    source, each the condition under which the function returns [False]:
    the key is in [rules], its value is true, and the comparison rejects
    the customer. *)
Definition fails_min_age (c : customer) (r : rules) : bool :=
  match min_age r with
  | Some a => Py.truthy_int a && (age c <? a)%Z
  | None => false
  end.

Definition fails_max_age (c : customer) (r : rules) : bool :=
  match max_age r with
  | Some a => Py.truthy_int a && (age c >? a)%Z
  | None => false
  end.

Definition fails_location (c : customer) (r : rules) : bool :=
  match rule_location r with
  | Some l =>
      Py.truthy_str l && negb (Py.contains (Py.lower l) (Py.lower (customer_location c)))
  | None => false
  end.

Definition fails_min_total_spent (c : customer) (r : rules) : bool :=
  match min_total_spent r with
  | Some a => Py.truthy_float a && (total_spent c <? a)%float
  | None => false
  end.

Definition match_customer_rules (c : customer) (r : rules) : bool :=
  if fails_min_age c r then false
  else if fails_max_age c r then false
  else if fails_location c r then false
  else if fails_min_total_spent c r then false
  else true.

(** The loop of [filter_customers_by_segment]: [filtered] grows by
    [append] for each customer that is not skipped. *)
Definition filter_customers_by_segment (customers : list customer) (r : rules)
  : list customer :=
  fold_left
    (fun filtered c =>
       if negb (match_customer_rules c r) then filtered else filtered ++ [c])
    customers [].

Definition create_segment (seg_name : string) (r : rules) : M string :=
  s <- get_state ;;
  let segments := load_segments s in
  let new_id := Py.str_nat (List.length segments + 1) in
  let row := mkSegment new_id seg_name r in
  put_state (mkState (customers_csv s) (Some (segments ++ [row]))
               (campaigns_csv s) (events_csv s) (random_pos s) (clock_pos s)) ;;;
  ret new_id.

Definition count_customers_in_segment (s : state) (seg : segment) : nat :=
  List.length (filter_customers_by_segment (load_customers s) (segment_rules seg)).

(** ** marketing/campaigns.py *)

Definition load_campaigns (s : state) : list campaign :=
  match campaigns_csv s with
  | None => []
  | Some rows => rows
  end.

Definition get_campaign_by_id (s : state) (cid : Py.value) : option campaign :=
  find (fun c => String.eqb (campaign_id c) (Py.str cid)) (load_campaigns s).

Definition create_campaign (cname seg_id date subj text : string) : M string :=
  s <- get_state ;;
  let campaigns := load_campaigns s in
  let new_id := Py.str_nat (List.length campaigns + 1) in
  let row := mkCampaign new_id cname seg_id date "draft" subj text in
  put_state (mkState (customers_csv s) (segments_csv s)
               (Some (campaigns ++ [row])) (events_csv s)
               (random_pos s) (clock_pos s)) ;;;
  ret new_id.

Definition get_campaign_customers (s : state) (cid : Py.value) : list customer :=
  match get_campaign_by_id s cid with
  | None => []
  | Some c =>
      match get_segment_by_id s (Py.VStr (campaign_segment_id c)) with
      | None => []
      | Some seg => filter_customers_by_segment (load_customers s) (segment_rules seg)
      end
  end.

Definition generate_event_id (s : state) : string :=
  match events_csv s with
  | None => "1"
  | Some rows =>
      match rows with
      | _ :: _ => Py.str_nat (List.length rows + 1)
      | [] => "1"
      end
  end.

(** [datetime.now().isoformat()]. *)
Definition now : M string :=
  fun e s =>
    (now_isoformat e (clock_pos s),
     mkState (customers_csv s) (segments_csv s) (campaigns_csv s) (events_csv s)
       (random_pos s) (S (clock_pos s))).

(** [random.random()]. *)
Definition random_random : M float :=
  fun e s =>
    (random e (random_pos s),
     mkState (customers_csv s) (segments_csv s) (campaigns_csv s) (events_csv s)
       (S (random_pos s)) (clock_pos s)).

(** The rows of [events.csv], empty when the file is new. *)
Definition load_events (s : state) : list event :=
  match events_csv s with
  | None => []
  | Some rows => rows
  end.

Definition create_event (cid : Py.value) (cust_id ev_type : string) : M unit :=
  s0 <- get_state ;;
  let new_event_id := generate_event_id s0 in
  ts <- now ;;
  s <- get_state ;;
  let row := mkEvent new_event_id (Py.str cid) cust_id ev_type ts in
  put_state (mkState (customers_csv s) (segments_csv s) (campaigns_csv s)
               (Some (load_events s ++ [row])) (random_pos s) (clock_pos s)).

Definition set_status (c : campaign) (new_status : string) : campaign :=
  mkCampaign (campaign_id c) (name c) (campaign_segment_id c) (start_date c)
    new_status (subject c) (body c).

(** The reading loop of [update_campaign_status]: each row is appended,
    with its status replaced when its id is [str(campaign_id)]. *)
Definition rewrite_status (rows : list campaign) (cid : Py.value)
  (new_status : string) : list campaign :=
  fold_left
    (fun campaigns row =>
       campaigns ++
       [if String.eqb (campaign_id row) (Py.str cid)
        then set_status row new_status else row])
    rows [].

Definition update_campaign_status (cid : Py.value) (new_status : string) : M unit :=
  s <- get_state ;;
  match campaigns_csv s with
  | None => ret tt
  | Some rows =>
      put_state (mkState (customers_csv s) (segments_csv s)
                   (Some (rewrite_status rows cid new_status)) (events_csv s)
                   (random_pos s) (clock_pos s))
  end.

(** The body of the loop of [send_campaign] for one customer. *)
Definition send_to_customer (cid : Py.value) (c : customer) : M unit :=
  create_event cid (customer_id c) "sent" ;;;
  r1 <- random_random ;;
  if (r1 <? 0.7)%float then
    create_event cid (customer_id c) "opened" ;;;
    r2 <- random_random ;;
    if (r2 <? 0.4)%float then
      create_event cid (customer_id c) "clicked" ;;;
      r3 <- random_random ;;
      if (r3 <? 0.3)%float then
        create_event cid (customer_id c) "converted"
      else ret tt
    else ret tt
  else ret tt.

Definition send_campaign (cid : Py.value) : M nat :=
  s <- get_state ;;
  match get_campaign_by_id s cid with
  | None => ret 0
  | Some c =>
      if negb (String.eqb (status c) "draft") then ret 0
      else
        let customers := get_campaign_customers s cid in
        for_each customers (send_to_customer cid) ;;;
        update_campaign_status cid "sent" ;;;
        ret (List.length customers)
  end.

(** ** marketing/analytics.py *)

Record metrics := mkMetrics {
  metrics_campaign_id : Py.value;
  sent : nat;
  opened : nat;
  clicked : nat;
  converted : nat;
  open_rate : Py.num;
  click_rate : Py.num;
  conversion_rate : Py.num
}.

(** [len([e for e in events if e['event_type'] == t])]. *)
Definition count_type (events : list event) (t : string) : nat :=
  List.length (filter (fun e => String.eqb (event_type e) t) events).

(** [(count / sent_count * 100) if sent_count > 0 else 0]. *)
Definition rate (count sent_count : nat) : Py.num :=
  if (0 <? sent_count)%nat
  then Py.NFloat (Py.truediv count sent_count * 100)%float
  else Py.NInt 0.

Definition get_campaign_metrics (s : state) (cid : Py.value) : metrics :=
  let events := load_events s in
  let campaign_events :=
    filter (fun e => String.eqb (event_campaign_id e) (Py.str cid)) events in
  let sent_count := count_type campaign_events "sent" in
  let opened_count := count_type campaign_events "opened" in
  let clicked_count := count_type campaign_events "clicked" in
  let converted_count := count_type campaign_events "converted" in
  let open_rate := rate opened_count sent_count in
  let click_rate := rate clicked_count sent_count in
  let conversion_rate := rate converted_count sent_count in
  mkMetrics cid sent_count opened_count clicked_count converted_count
    (Py.round2 open_rate) (Py.round2 click_rate) (Py.round2 conversion_rate).

(** ** Vocabulary of the specification *)

(** [subseq xs ys]: [xs] is [ys] with some elements left out, the rest in
    the order of [ys]. *)
Inductive subseq {A : Type} : list A -> list A -> Prop :=
| subseq_nil : subseq [] []
| subseq_skip : forall x xs ys, subseq xs ys -> subseq xs (x :: ys)
| subseq_keep : forall x xs ys, subseq xs ys -> subseq (x :: xs) (x :: ys).

(** [needle] occurs in [haystack] as a block of consecutive characters. *)
Definition substring_of (needle haystack : string) : Prop :=
  exists pre post : string, haystack = (pre ++ needle ++ post)%string.

(** A rule-set with no key set. *)
Definition no_rules : rules := mkRules None None None None.

(** Rule-sets with a single key. *)
Definition only_min_age (a : Z) : rules := mkRules (Some a) None None None.
Definition only_max_age (a : Z) : rules := mkRules None (Some a) None None.
Definition only_location (l : string) : rules := mkRules None None (Some l) None.
Definition only_min_total_spent (a : float) : rules := mkRules None None None (Some a).

(** What the rule table of the specification asks of a customer, key by
    key: a key that is absent or whose value is falsy asks nothing. *)
Definition min_age_ok (c : customer) (r : rules) : Prop :=
  forall a, min_age r = Some a -> a <> 0%Z -> (age c >= a)%Z.

Definition max_age_ok (c : customer) (r : rules) : Prop :=
  forall a, max_age r = Some a -> a <> 0%Z -> (age c <= a)%Z.

Definition location_ok (c : customer) (r : rules) : Prop :=
  forall l, rule_location r = Some l -> l <> EmptyString ->
            substring_of (Py.lower l) (Py.lower (customer_location c)).

Definition min_total_spent_ok (c : customer) (r : rules) : Prop :=
  forall a, min_total_spent r = Some a -> Py.truthy_float a = true ->
            (total_spent c <? a)%float = false.

(** The stages of the funnel, in the order in which they are reached. *)
Definition funnel_chain : list string := ["sent"; "opened"; "clicked"; "converted"].

(** [xs] is an initial part of [ys]. *)
Definition prefix_of {A : Type} (xs ys : list A) : Prop :=
  exists rest, ys = xs ++ rest.

(** The stage that has to be recorded before [stage] is. *)
Definition previous_stage (stage : string) : option string :=
  if String.eqb stage "opened" then Some "sent"
  else if String.eqb stage "clicked" then Some "opened"
  else if String.eqb stage "converted" then Some "clicked"
  else None.

(** The events of a pair (campaign id, customer id). *)
Definition of_pair (camp cust : string) (ev : event) : bool :=
  String.eqb (event_campaign_id ev) camp && String.eqb (event_customer_id ev) cust.

(** In [events], every event of a later stage comes after an event of
    the stage before it for the same pair. *)
Definition funnel_ordered (events : list event) : Prop :=
  forall before ev after stage,
    events = before ++ ev :: after ->
    previous_stage (event_type ev) = Some stage ->
    exists ev0,
      In ev0 before
      /\ event_campaign_id ev0 = event_campaign_id ev
      /\ event_customer_id ev0 = event_customer_id ev
      /\ event_type ev0 = stage.

(** The identifiers ["1"], ["2"], ... of a collection of [n] records. *)
Definition sequential_ids (ids : list string) : Prop :=
  ids = map Py.str_nat (seq 1 (List.length ids)).

(** The number of [events] of campaign [camp] and type [ty]. *)
Definition count_events (camp ty : string) (events : list event) : nat :=
  List.length
    (filter (fun ev => String.eqb (event_campaign_id ev) camp
                       && String.eqb (event_type ev) ty) events).

(** The operations that write to the collections. *)
Inductive operation :=
| CreateSegment (seg_name : string) (r : rules)
| CreateCampaign (cname seg_id date subj text : string)
| CreateEvent (cid : Py.value) (cust_id ev_type : string)
| SendCampaign (cid : Py.value).

Definition run_operation (o : operation) : M unit :=
  match o with
  | CreateSegment seg_name r => create_segment seg_name r ;;; ret tt
  | CreateCampaign cname seg_id date subj text =>
      create_campaign cname seg_id date subj text ;;; ret tt
  | CreateEvent cid cust_id ev_type => create_event cid cust_id ev_type
  | SendCampaign cid => send_campaign cid ;;; ret tt
  end.

(** One writer running [ops] one after the other. *)
Definition run_operations (ops : list operation) : M unit :=
  for_each ops run_operation.

(** Sample customers, stores and environments. *)
Module Sample.
Definition user1 : customer :=
  mkCustomer "1" "Test User 1" "test1@example.com" 25 (Some "Ankara") 1000
    "2024-11-15".
Definition user2 : customer :=
  mkCustomer "2" "Test User 2" "test2@example.com" 35 (Some "Istanbul") 2500
    "2024-11-20".
Definition user3 : customer :=
  mkCustomer "3" "Test User 3" "test3@example.com" 45 (Some "Izmir") 500
    "2024-10-05".

Definition adults : segment := mkSegment "1" "Test Segment" (only_min_age 20).

Definition draft1 : campaign :=
  mkCampaign "1" "Test Campaign" "1" "2024-12-01" "draft" "Test Subject"
    "Test Body".

(** A campaign whose segment does not exist. *)
Definition bad_campaign : campaign :=
  mkCampaign "999" "Bad Campaign" "9999" "2024-12-01" "draft" "Test" "Test".

(** Every draw low: every stage of the funnel is reached. *)
Definition eager : env := mkEnv (fun _ => 0%float) Py.str_nat.

(** The first customer opens, the second opens and clicks. *)
Definition mixed : env :=
  mkEnv (fun n => match n with
                  | 0 => 0.5 | 1 => 0.9 | 2 => 0.1 | 3 => 0.2 | _ => 0.95
                  end)%float
        Py.str_nat.

Definition fresh : state :=
  mkState (Some [user1; user2]) (Some [adults]) None None 0 0.

Definition with_draft : state :=
  mkState (Some [user1; user2]) (Some [adults]) (Some [draft1]) None 0 0.

Definition dangling : state :=
  mkState (Some [user1; user2]) (Some [adults]) (Some [bad_campaign]) None 0 0.

Definition two_campaigns : list campaign :=
  [draft1; mkCampaign "2" "Second" "1" "2024-12-02" "draft" "B" "B"].

(** [n] events of type [ty] for campaign ["1"], numbered from [first]. *)
Definition events_of (ty : string) (first n : nat) : list event :=
  map (fun k => mkEvent (Py.str_nat (first + k)) "1" (Py.str_nat (S k)) ty
                  "2024-12-01T10:00:00")
      (seq 0 n).

(** 10 sent, 7 opened, 4 clicked, 2 converted. *)
Definition funnel_events : list event :=
  events_of "sent" 1 10 ++ events_of "opened" 11 7
  ++ events_of "clicked" 18 4 ++ events_of "converted" 22 2.

Definition reported : state :=
  mkState None None
    (Some [mkCampaign "1" "Test Campaign 1" "1" "2024-12-01" "sent" "Test" "Test"])
    (Some funnel_events) 0 0.
End Sample.

(** ** Relations between the state before and after an operation *)

(** [s'] is [s] with the events [new] appended, the other files as they
    were. *)
Definition appends (s s' : state) (new : list event) : Prop :=
  customers_csv s' = customers_csv s
  /\ segments_csv s' = segments_csv s
  /\ campaigns_csv s' = campaigns_csv s
  /\ load_events s' = load_events s ++ new.

(** The events one customer of the audience receives: an initial part of
    the funnel that has the [sent] stage at least, all for the pair of the
    campaign and this customer. *)
Definition funnel_block (cid : Py.value) (c : customer) (block : list event) : Prop :=
  (exists k, 1 <= k <= 4 /\ map event_type block = firstn k funnel_chain)
  /\ Forall (fun ev => event_campaign_id ev = Py.str cid
                       /\ event_customer_id ev = customer_id c) block.

(** [P] holds after [m] whenever it held before. *)
Definition preserves {A} (P : state -> Prop) (m : M A) : Prop :=
  forall e s, P s -> P (snd (m e s)).

(** Every collection that has a creation operation numbers its records
    ["1"], ["2"], ... *)
Definition ids_sequential (s : state) : Prop :=
  sequential_ids (map segment_id (load_segments s))
  /\ sequential_ids (map campaign_id (load_campaigns s))
  /\ sequential_ids (map event_id (load_events s)).

(** ** marketing/analytics.py, the two aggregate reports *)

(** The dictionary of [get_campaign_metrics] with the two keys
    [get_all_campaign_metrics] adds to it. *)
Record campaign_metrics := mkCampaignMetrics {
  campaign_counts : metrics;
  campaign_name : string;
  campaign_status : string
}.

Definition get_all_campaign_metrics (s : state) : list campaign_metrics :=
  fold_left
    (fun metrics_list c =>
       metrics_list
       ++ [mkCampaignMetrics (get_campaign_metrics s (Py.VStr (campaign_id c)))
             (name c) (status c)])
    (load_campaigns s) [].

Record overall_metrics := mkOverallMetrics {
  total_sent : nat;
  total_opened : nat;
  total_clicked : nat;
  total_converted : nat;
  overall_open_rate : Py.num;
  overall_click_rate : Py.num;
  overall_conversion_rate : Py.num
}.

Definition get_overall_metrics (s : state) : overall_metrics :=
  let events := load_events s in
  let sent_count := count_type events "sent" in
  let opened_count := count_type events "opened" in
  let clicked_count := count_type events "clicked" in
  let converted_count := count_type events "converted" in
  let open_rate := rate opened_count sent_count in
  let click_rate := rate clicked_count sent_count in
  let conversion_rate := rate converted_count sent_count in
  mkOverallMetrics sent_count opened_count clicked_count converted_count
    (Py.round2 open_rate) (Py.round2 click_rate) (Py.round2 conversion_rate).

(** ** Vocabulary for the simulation and for histories of the store *)

(** How many stages of the funnel a customer reaches when the random
    source is read from position [pos] on: the draws are compared with
    0.7, 0.4 and 0.3, each one only after the one before it passed. *)
Definition funnel_depth (e : env) (pos : nat) : nat :=
  if (random e pos <? 0.7)%float then
    if (random e (S pos) <? 0.4)%float then
      if (random e (S (S pos)) <? 0.3)%float then 4 else 3
    else 2
  else 1.

(** The first [k] events of the funnel for customer [c], numbered after
    the events [s] holds and stamped with the next readings of the
    clock. *)
Definition funnel_rows (cid : Py.value) (c : customer) (e : env) (s : state)
  (k : nat) : list event :=
  map (fun i =>
         mkEvent (Py.str_nat (List.length (load_events s) + i + 1)) (Py.str cid)
           (customer_id c) (nth i funnel_chain EmptyString)
           (now_isoformat e (clock_pos s + i)))
      (seq 0 k).

(** A campaign row and what a later state holds in its place: every
    field but the status is the same, and the status is the same or has
    become ["sent"]. *)
Definition same_campaign_or_sent (row row' : campaign) : Prop :=
  campaign_id row' = campaign_id row
  /\ name row' = name row
  /\ campaign_segment_id row' = campaign_segment_id row
  /\ start_date row' = start_date row
  /\ subject row' = subject row
  /\ body row' = body row
  /\ (status row' = status row \/ status row' = "sent").

(** [s'] continues [s]: the customers are the same, the segments and the
    events of [s] are the first segments and events of [s'], and the
    campaigns of [s] are the first campaigns of [s'] up to a status that
    became ["sent"]. *)
Definition continues (s s' : state) : Prop :=
  customers_csv s' = customers_csv s
  /\ prefix_of (load_segments s) (load_segments s')
  /\ prefix_of (load_events s) (load_events s')
  /\ (exists rows more,
        load_campaigns s' = rows ++ more
        /\ Forall2 same_campaign_or_sent (load_campaigns s) rows).

(** [m] takes every state to one that continues it. *)
Definition advances {A} (m : M A) : Prop :=
  forall e s, continues s (snd (m e s)).

(** The counters of the dashboard. *)
Record dashboard_stats := mkStats {
  total_customers : nat;
  total_segments : nat;
  total_campaigns : nat;
  active_campaigns : nat
}.

(** The [stats] dictionary of the [dashboard] view. *)
Definition dashboard_counters (s : state) : dashboard_stats :=
  let customers := load_customers s in
  let segments := load_segments s in
  let campaigns := load_campaigns s in
  mkStats (List.length customers) (List.length segments) (List.length campaigns)
    (List.length (filter (fun c => String.eqb (status c) "sent") campaigns)).

(** More sample environments and stores. *)
Module Fixture.

(** Every draw high: nobody opens. *)
Definition reluctant : env := mkEnv (fun _ => 0.9%float) Py.str_nat.

(** The store after campaign ["1"] of [Sample.reported] was sent, with a
    second campaign in draft. *)
Definition mid_history : state :=
  mkState (Some [Sample.user1; Sample.user2]) (Some [Sample.adults])
    (Some [mkCampaign "1" "Test Campaign 1" "1" "2024-12-01" "sent" "Test" "Test";
           mkCampaign "2" "Second" "1" "2024-12-02" "draft" "B" "B"])
    (Some Sample.funnel_events) 0 0.

End Fixture.

(** ** More Python built-ins: dictionaries and [str.strip] *)

(** A [dict] with string keys, as the list of its items in insertion
    order; a request's form and query arguments are read the same way
    ([get] returns the first value of a key). *)
Module Dict.

Definition t (V : Type) : Type := list (string * V).

(** [d.get(k)]: [None] when [k] is not a key. *)
Fixpoint get {V} (d : t V) (k : string) : option V :=
  match d with
  | [] => None
  | (k', v) :: rest => if String.eqb k' k then Some v else get rest k
  end.

(** [d.get(k, default)]. *)
Definition get_default {V} (d : t V) (k : string) (default : V) : V :=
  match get d k with
  | Some v => v
  | None => default
  end.

(** [k in d]. *)
Definition mem {V} (d : t V) (k : string) : bool :=
  match get d k with
  | Some _ => true
  | None => false
  end.

(** [d[k] = v]: the value of an existing key is replaced where it
    stands, a new key goes to the end. *)
Fixpoint set {V} (d : t V) (k : string) (v : V) : t V :=
  match d with
  | [] => [(k, v)]
  | (k', v') :: rest =>
      if String.eqb k' k then (k', v) :: rest else (k', v') :: set rest k v
  end.

End Dict.

Module Text.

(** [ch.isspace()] on ASCII: tab, line feed, vertical tab, form feed,
    carriage return, the four separators 28 to 31, and the space. *)
Definition isspace (ch : ascii) : bool :=
  let n := nat_of_ascii ch in
  ((9 <=? n)%nat && (n <=? 13)%nat) || ((28 <=? n)%nat && (n <=? 32)%nat).

(** [s.lstrip()] for ASCII text. *)
Fixpoint lstrip (s : string) : string :=
  match s with
  | EmptyString => EmptyString
  | String ch rest => if isspace ch then lstrip rest else s
  end.

(** [s.rstrip()] for ASCII text: a character is dropped when it is white
    space and nothing is left after it. *)
Fixpoint rstrip (s : string) : string :=
  match s with
  | EmptyString => EmptyString
  | String ch rest =>
      match rstrip rest with
      | EmptyString => if isspace ch then EmptyString else String ch EmptyString
      | kept => String ch kept
      end
  end.

(** [s.strip()] for ASCII text. *)
Definition strip (s : string) : string := rstrip (lstrip s).

(** [all(fields)] on a list of strings: none of them is empty. *)
Definition all_true (fields : list string) : bool := forallb Py.truthy_str fields.

End Text.

(** ** marketing/segmentation.py: reading the two files *)

(** A row of [customers.csv] as [csv.DictReader] yields it: every value
    is text, and a key the row does not have is [None]. *)
Record customer_row := mkCustomerRow {
  row_customer_id : string;
  row_name : string;
  row_email : string;
  row_age : option string;
  row_location : option string;
  row_total_spent : option string;
  row_last_purchase_date : string
}.

(** A row of [segments.csv] as [csv.DictReader] yields it. *)
Record segment_row := mkSegmentRow {
  row_segment_id : string;
  row_segment_name : string;
  rules_json : string
}.

Section Readers.

(** [int(text)], [float(text)] and [json.loads(text)] are not modelled:
    each is a function that returns [None] where Python raises. The value
    [json.loads] returns is taken to be a rule dictionary. *)
Variable py_int : string -> option Z.
Variable py_float : string -> option float.
Variable json_loads : string -> option rules.

(** [int(row['age']) if row.get('age') else 0]. *)
Definition convert_age (row : customer_row) : option Z :=
  match row_age row with
  | Some text => if Py.truthy_str text then py_int text else Some 0%Z
  | None => Some 0%Z
  end.

(** [float(row['total_spent']) if row.get('total_spent') else 0.0]. *)
Definition convert_total_spent (row : customer_row) : option float :=
  match row_total_spent row with
  | Some text => if Py.truthy_str text then py_float text else Some 0%float
  | None => Some 0%float
  end.

(** The body of the loop of [load_customers] up to [append]: [None] when
    a conversion raises. *)
Definition convert_customer (row : customer_row) : option customer :=
  match convert_age row with
  | None => None
  | Some a =>
      match convert_total_spent row with
      | None => None
      | Some spent =>
          Some (mkCustomer (row_customer_id row) (row_name row) (row_email row) a
                  (row_location row) spent (row_last_purchase_date row))
      end
  end.

(** The loop of [load_customers] inside its [try]: an exception leaves
    the loop, and the customers appended so far are returned. *)
Fixpoint read_customer_rows (rows : list customer_row) (customers : list customer)
  : list customer :=
  match rows with
  | [] => customers
  | row :: rest =>
      match convert_customer row with
      | None => customers
      | Some c => read_customer_rows rest (customers ++ [c])
      end
  end.

(** [load_customers] on the rows of the file, [None] a file that does
    not exist. *)
Definition load_customers_from (file : option (list customer_row)) : list customer :=
  match file with
  | None => []
  | Some rows => read_customer_rows rows []
  end.

(** The body of the loop of [load_segments]: an exception of
    [json.loads] is caught and the rules are the empty dictionary. *)
Definition convert_segment (row : segment_row) : segment :=
  mkSegment (row_segment_id row) (row_segment_name row)
    (match json_loads (rules_json row) with
     | Some r => r
     | None => no_rules
     end).

(** [load_segments] on the rows of the file. *)
Definition load_segments_from (file : option (list segment_row)) : list segment :=
  match file with
  | None => []
  | Some rows =>
      fold_left (fun segments row => segments ++ [convert_segment row]) rows []
  end.

End Readers.

(** ** config.py *)

Record config := mkConfig {
  DEFAULT_USERNAME : string;
  DEFAULT_PASSWORD : string
}.

(** The class [Config]. *)
Definition Config : config := mkConfig "admin" "password".

(** ** What a view receives and returns *)

(** The part of a Flask request the views read. *)
Record request := mkRequest {
  method : string;
  form : Dict.t string;
  args : Dict.t string;
  request_url : string
}.

(** Where a redirect leads: [url_for(endpoint, **values)], or a URL given
    as text. *)
Inductive target :=
| url_for (endpoint : string) (values : Dict.t string)
| url (text : string).

(** The keyword arguments of [render_template]. *)
Inductive context :=
| no_context
| context_segments (segments : list segment)
| context_campaign_detail (c : campaign) (seg : option segment)
    (customers : list customer) (shown_metrics : option metrics).

Inductive response :=
| redirect (to : target)
| render_template (template : string) (ctx : context).

(** A message of [flash(message, category)]. *)
Definition flashed : Type := (string * string)%type.

(** ** auth/routes.py and auth/forms.py *)

(** A row of [users.csv]. *)
Record user_row := mkUser {
  username : string;
  password : string
}.

(** The configuration of the application and its user file, [None] when
    the file does not exist. *)
Record app := mkApp {
  app_config : config;
  users_csv : option (list user_row)
}.

Definition authenticate_user (a : app) (uname pwd : string) : bool :=
  if String.eqb uname (DEFAULT_USERNAME (app_config a))
     && String.eqb pwd (DEFAULT_PASSWORD (app_config a))
  then true
  else
    match users_csv a with
    | Some rows =>
        existsb (fun row => String.eqb (username row) uname
                            && String.eqb (password row) pwd) rows
    | None => false
    end.

(** What an authentication view leaves behind: the response, the session
    and the messages flashed. The messages are kept apart from the
    session. *)
Record auth_reply := mkReply {
  reply_response : response;
  reply_session : Dict.t string;
  reply_flashes : list flashed
}.

Definition login (a : app) (req : request) (session : Dict.t string) : auth_reply :=
  if Dict.mem session "user_id" then
    mkReply (redirect (url_for "marketing.dashboard" [])) session []
  else if String.eqb (method req) "POST" then
    let uname := Text.strip (Dict.get_default (form req) "username" EmptyString) in
    let pwd := Dict.get_default (form req) "password" EmptyString in
    if authenticate_user a uname pwd then
      let session1 := Dict.set session "user_id" uname in
      let session2 := Dict.set session1 "username" uname in
      let next_page := Dict.get (args req) "next" in
      mkReply
        (redirect
           match next_page with
           | Some page =>
               if Py.truthy_str page then url page
               else url_for "marketing.dashboard" []
           | None => url_for "marketing.dashboard" []
           end)
        session2 [("Login successful!", "success")]
    else
      mkReply (render_template "login.html" no_context) session
        [("Invalid username or password", "error")]
  else mkReply (render_template "login.html" no_context) session [].

Definition logout (session : Dict.t string) : auth_reply :=
  mkReply (redirect (url_for "auth.login" [])) []
    [("You have been logged out.", "info")].

(** The decorator: the view [f] runs only with a [user_id] in the
    session; the result is the redirect of the decorator or what [f]
    returns. *)
Definition login_required {R : Type} (f : request -> Dict.t string -> R)
  (req : request) (session : Dict.t string) : response + R :=
  if negb (Dict.mem session "user_id") then
    inl (redirect (url_for "auth.login" [("next", request_url req)]))
  else inr (f req session).

(** ** marketing/routes.py *)

(** [{s['segment_id']: s['segment_name'] for s in segments}]. *)
Definition segment_lookup (segments : list segment) : Dict.t string :=
  fold_left (fun d seg => Dict.set d (segment_id seg) (segment_name seg)) segments [].

(** The [campaigns] view: every campaign with the [segment_name] key the
    view adds to it. *)
Definition campaigns_view (s : state) : list (campaign * string) :=
  let campaigns := load_campaigns s in
  let segments := load_segments s in
  let lookup := segment_lookup segments in
  fold_left
    (fun shown c =>
       shown ++ [(c, Dict.get_default lookup (campaign_segment_id c) "Unknown")])
    campaigns [].

(** The [send_campaign_route] view under its decorator. *)
Definition send_campaign_route (cid : string) : M (response * list flashed) :=
  s <- get_state ;;
  match get_campaign_by_id s (Py.VStr cid) with
  | None =>
      ret (redirect (url_for "marketing.campaigns" []),
           [("Campaign not found", "error")])
  | Some c =>
      if negb (String.eqb (status c) "draft") then
        ret (redirect (url_for "marketing.campaign_detail" [("campaign_id", cid)]),
             [("Campaign has already been sent", "warning")])
      else
        count <- send_campaign (Py.VStr cid) ;;
        ret (redirect (url_for "marketing.campaign_detail" [("campaign_id", cid)]),
             [(("Campaign sent to " ++ Py.str_nat count ++ " customers!")%string,
               "success")])
  end.

(** The [new_campaign] view under its decorator. *)
Definition new_campaign (req : request) : M (response * list flashed) :=
  s <- get_state ;;
  let segments := load_segments s in
  if String.eqb (method req) "POST" then
    let cname := Text.strip (Dict.get_default (form req) "name" EmptyString) in
    let seg_id := Text.strip (Dict.get_default (form req) "segment_id" EmptyString) in
    let date := Text.strip (Dict.get_default (form req) "start_date" EmptyString) in
    let subj := Text.strip (Dict.get_default (form req) "subject" EmptyString) in
    let text := Text.strip (Dict.get_default (form req) "body" EmptyString) in
    if negb (Text.all_true [cname; seg_id; date; subj; text]) then
      ret (render_template "campaign_form.html" (context_segments segments),
           [("All fields are required", "error")])
    else
      new_id <- create_campaign cname seg_id date subj text ;;
      ret (redirect (url_for "marketing.campaigns" []),
           [(("Campaign " ++ String (ascii_of_nat 34) cname
              ++ String (ascii_of_nat 34) " created successfully!")%string,
             "success")])
  else ret (render_template "campaign_form.html" (context_segments segments), []).

(** The [campaign_detail] view under its decorator. *)
Definition campaign_detail (cid : string) (s : state) : response * list flashed :=
  match get_campaign_by_id s (Py.VStr cid) with
  | None =>
      (redirect (url_for "marketing.campaigns" []), [("Campaign not found", "error")])
  | Some c =>
      let seg := get_segment_by_id s (Py.VStr (campaign_segment_id c)) in
      let customers := get_campaign_customers s (Py.VStr cid) in
      let shown :=
        if String.eqb (status c) "sent"
        then Some (get_campaign_metrics s (Py.VStr cid)) else None in
      (render_template "campaign_detail.html"
         (context_campaign_detail c seg customers shown), [])
  end.

Section SegmentForm.

Variable py_int : string -> option Z.
Variable py_float : string -> option float.

(** A field of the segment form that is converted when it is not blank:
    the outer [None] is the exception of the conversion, the inner [None]
    a key that is not set. *)
Definition converted_field {A} (convert : string -> option A) (text : string)
  : option (option A) :=
  if Py.truthy_str text then
    match convert text with
    | Some v => Some (Some v)
    | None => None
    end
  else Some None.

(** The [rules] dictionary that [new_segment] builds from the form. *)
Definition rules_of_form (req : request) : option rules :=
  let min_age := Text.strip (Dict.get_default (form req) "min_age" EmptyString) in
  match converted_field py_int min_age with
  | None => None
  | Some a =>
      let max_age := Text.strip (Dict.get_default (form req) "max_age" EmptyString) in
      match converted_field py_int max_age with
      | None => None
      | Some b =>
          let location :=
            Text.strip (Dict.get_default (form req) "location" EmptyString) in
          let l := if Py.truthy_str location then Some location else None in
          let min_total_spent :=
            Text.strip (Dict.get_default (form req) "min_total_spent" EmptyString) in
          match converted_field py_float min_total_spent with
          | None => None
          | Some t => Some (mkRules a b l t)
          end
      end
  end.

(** The [new_segment] view under its decorator; [None] is a [ValueError]
    of [int] or [float] that leaves the view. *)
Definition new_segment (req : request) : M (option (response * list flashed)) :=
  if String.eqb (method req) "POST" then
    let seg_name :=
      Text.strip (Dict.get_default (form req) "segment_name" EmptyString) in
    if negb (Py.truthy_str seg_name) then
      ret (Some (render_template "segment_form.html" no_context,
                 [("Segment name is required", "error")]))
    else
      match rules_of_form req with
      | None => ret None
      | Some r =>
          new_id <- create_segment seg_name r ;;
          ret (Some (redirect (url_for "marketing.segments" []),
                     [(("Segment " ++ String (ascii_of_nat 34) seg_name
                        ++ String (ascii_of_nat 34) " created successfully!")%string,
                       "success")]))
      end
  else ret (Some (render_template "segment_form.html" no_context, [])).

End SegmentForm.

(** Stand-ins for [int], [float] and [json.loads] on a few texts. *)
Module Parsers.

Definition int_of_digits (text : string) : option Z :=
  option_map Z.of_uint (NilEmpty.uint_of_string text).

Definition float_of_table (text : string) : option float :=
  if String.eqb text "1000.0" then Some 1000%float
  else if String.eqb text "2500.0" then Some 2500%float
  else None.

Definition no_json (text : string) : option rules := None.

Definition customer_rows : list customer_row :=
  [mkCustomerRow "1" "Test User 1" "test1@example.com" (Some "25") (Some "Ankara")
     (Some "1000.0") "2024-11-15";
   mkCustomerRow "2" "Test User 2" "test2@example.com" (Some "abc")
     (Some "Istanbul") (Some "2500.0") "2024-11-20";
   mkCustomerRow "3" "Test User 3" "test3@example.com" (Some "45") (Some "Izmir")
     (Some "1000.0") "2024-10-05"].

Definition blank_row : customer_row :=
  mkCustomerRow "9" "Blank" "blank@example.com" (Some EmptyString) None None
    "2024-01-01".

End Parsers.

(** ** Vocabulary for letter case and for decimal rounding *)










(** The number [m * 2^e], the magnitude of the finite binary64 value with
    the mantissa [m] and the exponent [e]. *)
Definition magnitude (m : positive) (e : Z) : Q :=
  (inject_Z (Zpos m) * 2 ^ e)%Q.

(** [k] hundredths is the decimal with two fractional digits nearest to
    [q]: [k] is within one half of [100 * q], and it is the even one of
    the two candidates when [100 * q] lies half-way between them. *)
Definition nearest_hundredths (q : Q) (k : Z) : Prop :=
  (Qabs (inject_Z k - 100 * q) <= 1 # 2)%Q
  /\ ((Qabs (inject_Z k - 100 * q) == 1 # 2)%Q -> Z.even k = true).

(** [f] with the sign bit [s]. *)
Definition with_sign (s : bool) (f : float) : float :=
  if s then (- f)%float else f.

(** [r] is [x] rounded to two decimal places: for the number [k] of
    hundredths nearest to the magnitude of [x], [r] is the float [k / 100]
    with the sign of [x]; a zero, an infinity or a NaN stays as it is. *)
Definition rounded_to_2_decimals (x r : float) : Prop :=
  match Prim2SF x with
  | S754_finite s m e =>
      exists k : Z,
        (0 <= k)%Z /\ nearest_hundredths (magnitude m e) k
        /\ r = with_sign s (Py.truediv (Z.to_nat k) 100)
  | _ => r = x
  end.

(** [v] is the rate of [count] among [sent_count]: the float
    [count / sent_count * 100] rounded to two decimal places. *)
Definition rounded_rate (count sent_count : nat) (v : Py.num) : Prop :=
  exists r : float,
    v = Py.NFloat r
    /\ rounded_to_2_decimals (Py.truediv count sent_count * 100)%float r.

(** A store with three [sent], two [opened] and one [clicked] event of
    campaign ["1"]. *)
Module Thirds.
Definition events : list event :=
  Sample.events_of "sent" 1 3 ++ Sample.events_of "opened" 4 2
  ++ Sample.events_of "clicked" 6 1.

Definition reported : state :=
  mkState None None
    (Some [mkCampaign "1" "Test Campaign 1" "1" "2024-12-01" "sent" "Test" "Test"])
    (Some events) 0 0.
End Thirds.

(** ** Properties of the built-ins *)

(** [scale100_half_even m e] is within one half of [m * 100 * 2^e], and
    it is that number when [e] is not negative. *)
Lemma scale100_half_even_nearest (m p : positive) :
  (2 * Z.abs (Py.scale100_half_even m (Zneg p) * 2 ^ Zpos p - Zpos m * 100)
   <= 2 ^ Zpos p)%Z.
Proof.
  unfold Py.scale100_half_even.
  assert (Hd : (2 ^ Zpos p > 0)%Z) by (apply Z.lt_gt, Z.pow_pos_nonneg; lia).
  generalize (Z_div_mod (Zpos m * 100) (2 ^ Zpos p) Hd).
  destruct (Z.div_eucl (Zpos m * 100) (2 ^ Zpos p)) as [k r].
  intros [Hq Hr].
  destruct (Z.compare_spec (2 * r) (2 ^ Zpos p)) as [Heq|Hlt|Hgt].
  - destruct (Z.even k); nia.
  - nia.
  - nia.
Qed.

Lemma scale100_half_even_exact (m : positive) (e : Z) :
  (0 <= e)%Z -> Py.scale100_half_even m e = (Zpos m * 100 * 2 ^ e)%Z.
Proof. intros H. unfold Py.scale100_half_even. destruct e; [reflexivity..|lia]. Qed.

(** A tie goes to the even neighbour. *)
Lemma scale100_half_even_tie (m p : positive) (k : Z) :
  (2 * (Zpos m * 100) = (2 * k + 1) * 2 ^ Zpos p)%Z ->
  Z.even (Py.scale100_half_even m (Zneg p)) = true.
Proof.
  intros Htie. unfold Py.scale100_half_even.
  assert (Hd : (2 ^ Zpos p > 0)%Z) by (apply Z.lt_gt, Z.pow_pos_nonneg; lia).
  generalize (Z_div_mod (Zpos m * 100) (2 ^ Zpos p) Hd).
  destruct (Z.div_eucl (Zpos m * 100) (2 ^ Zpos p)) as [q r].
  intros [Hq Hr].
  assert (Hk : q = k) by nia. subst q.
  assert (Hhalf : (2 * r = 2 ^ Zpos p)%Z) by nia.
  rewrite Hhalf, Z.compare_refl.
  destruct (Z.even k) eqn:Ek; [exact Ek|].
  rewrite Z.even_add, Ek. reflexivity.
Qed.

Example round2_float_examples :
  Py.round2_float 0.625 = 0.62%float
  /\ Py.round2_float 33.333333333333329 = 33.33%float
  /\ Py.round2_float 7.0000000000000009 = 7%float
  /\ Py.round2_float (-0.001) = (-0)%float
  /\ Py.round2_float 70 = 70%float.
Proof. repeat split; vm_compute; reflexivity. Qed.

Example truediv_examples :
  Py.truediv 7 10 = 0.7%float
  /\ (Py.truediv 7 10 * 100)%float = 70%float
  /\ Py.truediv 1 3 = 0.33333333333333331%float
  /\ Py.truediv 0 5 = 0%float.
Proof. repeat split; vm_compute; reflexivity. Qed.

Example str_examples :
  Py.str (Py.VInt 12) = "12" /\ Py.str (Py.VInt 0) = "0"
  /\ Py.str (Py.VInt (-5)) = "-5" /\ Py.str (Py.VStr "7") = "7"
  /\ Py.str_nat 10 = "10".
Proof. repeat split. Qed.

(** ** Rounding to two decimal places *)

Lemma scale100_half_even_nonneg (m : positive) (e : Z) :
  (0 <= Py.scale100_half_even m e)%Z.
Proof.
  unfold Py.scale100_half_even. destruct e as [|p|p].
  - lia.
  - assert (0 < 2 ^ Z.pos p)%Z by (apply Z.pow_pos_nonneg; lia). nia.
  - assert (Hd : (2 ^ Zpos p > 0)%Z) by (apply Z.lt_gt, Z.pow_pos_nonneg; lia).
    generalize (Z_div_mod (Zpos m * 100) (2 ^ Zpos p) Hd).
    destruct (Z.div_eucl (Zpos m * 100) (2 ^ Zpos p)) as [k r].
    intros [Hq Hr].
    assert (0 <= k)%Z by nia.
    destruct (2 * r ?= 2 ^ Z.pos p)%Z; [destruct (Z.even k)|..]; lia.
Qed.

Lemma magnitude_neg (m p : positive) :
  (magnitude m (Zneg p) * inject_Z (2 ^ Zpos p) == inject_Z (Zpos m))%Q.
Proof.
  unfold magnitude.
  rewrite (Zpower_Qpower 2 (Zpos p)) by lia.
  change (2 ^ Z.neg p)%Q with (/ (inject_Z 2 ^ Zpos p))%Q.
  assert (H : ~ (inject_Z 2 ^ Z.pos p == 0)%Q).
  { apply Qpower_not_0. discriminate. }
  field. exact H.
Qed.

Lemma magnitude_nonneg_exp (m : positive) (e : Z) :
  (0 <= e)%Z ->
  (magnitude m e == inject_Z (Zpos m * 2 ^ e))%Q.
Proof.
  intros H. unfold magnitude.
  rewrite inject_Z_mult, (Zpower_Qpower 2 e) by exact H. reflexivity.
Qed.

Lemma scale100_half_even_whole (m : positive) (e : Z) :
  (0 <= e)%Z ->
  nearest_hundredths (magnitude m e) (Py.scale100_half_even m e).
Proof.
  intros He.
  assert (E : (inject_Z (Py.scale100_half_even m e) - 100 * magnitude m e == 0)%Q).
  { rewrite magnitude_nonneg_exp by exact He.
    rewrite scale100_half_even_exact by exact He.
    rewrite !inject_Z_mult. change (inject_Z 100) with 100%Q. ring. }
  split; rewrite E; discriminate.
Qed.

(** The scaling step of [round(x, 2)] finds the nearest number of
    hundredths. *)
Lemma scale100_half_even_nearest_hundredths (m : positive) (e : Z) :
  nearest_hundredths (magnitude m e) (Py.scale100_half_even m e).
Proof.
  destruct e as [|p|p]; [apply scale100_half_even_whole; lia..|].
  generalize (@scale100_half_even_nearest m p).
  generalize (@scale100_half_even_tie m p).
  generalize (Py.scale100_half_even m (Zneg p)). intros k Htie Hnear.
  generalize (magnitude_neg m p).
  generalize (magnitude m (Zneg p)). intros q Hq.
  assert (HD : (0 < 2 ^ Zpos p)%Z) by (apply Z.pow_pos_nonneg; lia).
  set (D := (2 ^ Zpos p)%Z) in *. clearbody D.
  assert (HDq : (0 < inject_Z D)%Q)
    by (change 0%Q with (inject_Z 0); rewrite <- Zlt_Qlt; exact HD).
  assert (Hscaled : ((inject_Z k - 100 * q) * inject_Z D
                     == inject_Z (k * D - Zpos m * 100))%Q).
  { unfold Zminus. rewrite inject_Z_plus, inject_Z_opp, !inject_Z_mult, <- Hq.
    change (inject_Z 100) with 100%Q. ring. }
  unfold nearest_hundredths.
  set (x := (inject_Z k - 100 * q)%Q) in *.
  set (z := (k * D - Zpos m * 100)%Z) in *.
  assert (Hz1 : (- inject_Z D <= 2 * inject_Z z)%Q).
  { change 2%Q with (inject_Z 2). rewrite <- inject_Z_mult, <- inject_Z_opp.
    rewrite <- Zle_Qle. lia. }
  assert (Hz2 : (2 * inject_Z z <= inject_Z D)%Q).
  { change 2%Q with (inject_Z 2). rewrite <- inject_Z_mult.
    rewrite <- Zle_Qle. lia. }
  rewrite <- Hscaled in Hz1, Hz2. clearbody x.
  split.
  - apply Qabs_Qle_condition. split.
    + apply Qnot_lt_le. intros Hlt.
      assert ((x * inject_Z D < -(1#2) * inject_Z D)%Q)
        by (apply Qmult_lt_compat_r; assumption).
      lra.
    + apply Qnot_lt_le. intros Hlt.
      assert (((1#2) * inject_Z D < x * inject_Z D)%Q)
        by (apply Qmult_lt_compat_r; assumption).
      lra.
  - intros Habs.
    assert (Hx : (x == 1#2)%Q \/ (x == -(1#2))%Q).
    { revert Habs. apply Qabs_case; intros; [left; assumption | right; lra]. }
    destruct Hx as [Hx|Hx]; rewrite Hx in Hscaled.
    + apply (Htie (k - 1)%Z).
      assert (E : (inject_Z (2 * z) == inject_Z D)%Q).
      { rewrite inject_Z_mult, <- Hscaled. change (inject_Z 2) with 2%Q. ring. }
      apply (proj1 (inject_Z_injective _ _)) in E. unfold z in E. lia.
    + apply (Htie k).
      assert (E : (inject_Z (2 * z) == inject_Z (- D))%Q).
      { rewrite inject_Z_opp, inject_Z_mult, <- Hscaled.
        change (inject_Z 2) with 2%Q. ring. }
      apply (proj1 (inject_Z_injective _ _)) in E. unfold z in E. lia.
Qed.

(** A number has one nearest number of hundredths. *)
Lemma nearest_hundredths_unique (q : Q) (k k' : Z) :
  nearest_hundredths q k -> nearest_hundredths q k' -> k = k'.
Proof.
  intros [H1 T1] [H2 T2].
  apply Qabs_Qle_condition in H1. apply Qabs_Qle_condition in H2.
  assert (Hd : (-1 <= k - k' <= 1)%Z).
  { split; rewrite Zle_Qle; unfold Zminus;
      rewrite inject_Z_plus, inject_Z_opp;
      [change (inject_Z (-1)) with (-1)%Q | change (inject_Z 1) with 1%Q]; lra. }
  destruct (Z.eq_dec (k - k') 0) as [E0|N0]; [lia|].
  assert (Hc : (k - k' = 1 \/ k - k' = -1)%Z) by lia.
  exfalso.
  assert (Ek : Z.even k = true).
  { apply T1. destruct Hc as [E|E];
      assert (Eq : (inject_Z k - inject_Z k' == inject_Z (k - k'))%Q)
        by (unfold Zminus; rewrite inject_Z_plus, inject_Z_opp; ring);
      rewrite E in Eq.
    - change (inject_Z 1) with 1%Q in Eq. rewrite Qabs_pos; lra.
    - change (inject_Z (-1)) with (-1)%Q in Eq. rewrite Qabs_neg; lra. }
  assert (Ek' : Z.even k' = true).
  { apply T2. destruct Hc as [E|E];
      assert (Eq : (inject_Z k - inject_Z k' == inject_Z (k - k'))%Q)
        by (unfold Zminus; rewrite inject_Z_plus, inject_Z_opp; ring);
      rewrite E in Eq.
    - change (inject_Z 1) with 1%Q in Eq. rewrite Qabs_neg; lra.
    - change (inject_Z (-1)) with (-1)%Q in Eq. rewrite Qabs_pos; lra. }
  destruct Hc as [E|E].
  - replace k with (k' + 1)%Z in Ek by lia.
    rewrite Z.even_add, Ek' in Ek. discriminate.
  - replace k' with (k + 1)%Z in Ek' by lia.
    rewrite Z.even_add, Ek in Ek'. discriminate.
Qed.

(** The quotient of a negative by a positive integer is the quotient of
    the magnitudes with the sign changed. *)
Lemma SFdiv_sign (s : bool) (n d : positive) :
  SF2Prim (SFdiv prec emax (S754_finite s n 0) (S754_finite false d 0))
  = with_sign s
      (SF2Prim (SFdiv prec emax (S754_finite false n 0) (S754_finite false d 0))).
Proof.
  unfold SFdiv.
  destruct (SFdiv_core_binary prec emax (Z.pos n) 0 (Z.pos d) 0) as [[mz ez] lz].
  rewrite xorb_false_r. change (xorb false false) with false.
  unfold binary_round_aux.
  destruct (shr_fexp prec emax mz ez lz) as [mrs' e'].
  destruct (shr_fexp prec emax
              (round_nearest_even (shr_m mrs') (loc_of_shr_record mrs')) e' loc_Exact)
    as [mrs'' e''].
  destruct s; [|reflexivity].
  destruct (shr_m mrs'') as [|mm|mm]; try reflexivity.
  destruct (e'' <=? emax - prec)%Z; reflexivity.
Qed.

Lemma truediv_pos (n d : positive) :
  Py.truediv (Pos.to_nat n) (Pos.to_nat d)
  = SF2Prim (SFdiv prec emax (S754_finite false n 0) (S754_finite false d 0)).
Proof. unfold Py.truediv. now rewrite !positive_nat_Z. Qed.

(** [round(f, 2)] is [f] rounded to two decimal places. *)
Lemma round2_float_rounded (f : float) :
  rounded_to_2_decimals f (Py.round2_float f).
Proof.
  unfold rounded_to_2_decimals, Py.round2_float.
  destruct (Prim2SF f) as [b|b| |s m e]; try reflexivity.
  exists (Py.scale100_half_even m e).
  split; [apply scale100_half_even_nonneg|].
  split; [apply scale100_half_even_nearest_hundredths|].
  generalize (scale100_half_even_nonneg m e).
  destruct (Py.scale100_half_even m e) as [|n|n]; intros Hk.
  - destruct s; reflexivity.
  - rewrite SFdiv_sign. f_equal.
    change 100 with (Pos.to_nat 100). change (Z.to_nat (Z.pos n)) with (Pos.to_nat n).
    now rewrite truediv_pos.
  - lia.
Qed.

(** Rounding to two decimal places has one result. *)
Lemma rounded_to_2_decimals_unique (x r r' : float) :
  rounded_to_2_decimals x r -> rounded_to_2_decimals x r' -> r = r'.
Proof.
  unfold rounded_to_2_decimals.
  destruct (Prim2SF x) as [b|b| |s m e]; try congruence.
  intros (k & _ & Hk & ->) (k' & _ & Hk' & ->).
  now rewrite (nearest_hundredths_unique Hk Hk').
Qed.


Lemma prefix_spec (a b : string) :
  String.prefix a b = true <-> exists post, b = (a ++ post)%string.
Proof.
  revert b; induction a as [|x a IH]; intros b.
  - destruct b; simpl; (split; [intros _; eexists; reflexivity | reflexivity]).
  - destruct b as [|y b]; simpl.
    + split; [discriminate | intros [post H]; discriminate].
    + destruct (Ascii.ascii_dec x y) as [->|Hne].
      * rewrite IH. split; intros [post H]; exists post.
        -- now rewrite H.
        -- now injection H.
      * split; [discriminate | intros [post H]; injection H; intros; congruence].
Qed.

Lemma contains_unfold (needle haystack : string) :
  Py.contains needle haystack
  = if String.prefix needle haystack then true
    else match haystack with
         | EmptyString => false
         | String _ rest => Py.contains needle rest
         end.
Proof. destruct haystack; reflexivity. Qed.

Lemma contains_spec (needle haystack : string) :
  Py.contains needle haystack = true <-> substring_of needle haystack.
Proof.
  unfold substring_of.
  induction haystack as [|y h IH]; rewrite contains_unfold;
    destruct (String.prefix needle _) eqn:Hp.
  - apply prefix_spec in Hp. destruct Hp as [post Hp].
    split; [intros _; now exists EmptyString, post | reflexivity].
  - split; [discriminate|].
    intros [pre [post H]]. destruct pre; [|discriminate].
    simpl in H. assert (String.prefix needle EmptyString = true) as Hq
      by (apply prefix_spec; now exists post).
    congruence.
  - apply prefix_spec in Hp. destruct Hp as [post Hp].
    split; [intros _; now exists EmptyString, post | reflexivity].
  - rewrite IH. split.
    + intros [pre [post H]]. exists (String y pre), post. simpl. now rewrite H.
    + intros [pre [post H]]. destruct pre as [|z pre].
      * simpl in H. assert (String.prefix needle (String y h) = true) as Hq
          by (apply prefix_spec; now exists post).
        congruence.
      * simpl in H. injection H as _ H. now exists pre, post.
Qed.

Lemma truthy_int_spec (a : Z) : Py.truthy_int a = true <-> a <> 0%Z.
Proof.
  unfold Py.truthy_int. destruct (Z.eqb_spec a 0); simpl; split; congruence.
Qed.

Lemma truthy_str_spec (l : string) : Py.truthy_str l = true <-> l <> EmptyString.
Proof. destruct l; simpl; split; congruence. Qed.

(** ** Segmentation engine *)

Lemma filter_loop_acc (r : rules) (customers acc : list customer) :
  fold_left
    (fun filtered c =>
       if negb (match_customer_rules c r) then filtered else filtered ++ [c])
    customers acc
  = acc ++ filter (fun c => match_customer_rules c r) customers.
Proof.
  revert acc; induction customers as [|c cs IH]; intros acc; simpl.
  - now rewrite app_nil_r.
  - rewrite IH. destruct (match_customer_rules c r); simpl.
    + now rewrite <- app_assoc.
    + reflexivity.
Qed.

Lemma filter_customers_by_segment_filter (customers : list customer) (r : rules) :
  filter_customers_by_segment customers r
  = filter (fun c => match_customer_rules c r) customers.
Proof. unfold filter_customers_by_segment. now rewrite filter_loop_acc. Qed.

Lemma filter_subseq {A} (p : A -> bool) (xs : list A) : subseq (filter p xs) xs.
Proof.
  induction xs as [|x xs IH]; simpl.
  - constructor.
  - destruct (p x); now constructor.
Qed.

Lemma match_no_rules (c : customer) : match_customer_rules c no_rules = true.
Proof. reflexivity. Qed.

Lemma filter_all_true {A} (p : A -> bool) (xs : list A) :
  (forall x, p x = true) -> filter p xs = xs.
Proof.
  intros H; induction xs as [|x xs IH]; simpl; [reflexivity|].
  now rewrite H, IH.
Qed.

(** C4. [filter_customers_by_segment] returns the customers of the input
    that match the rules, each as often as it occurs and in the order of
    the input: the result is the input filtered by [match_customer_rules],
    hence a subsequence of the input whose members are exactly the
    matching members of the input; with no key set in the rules the result
    is the input itself. *)
Theorem filter_by_segment_ordered_subsequence :
  forall (customers : list customer) (r : rules),
    filter_customers_by_segment customers r
    = filter (fun c => match_customer_rules c r) customers
    /\ subseq (filter_customers_by_segment customers r) customers
    /\ (forall c, In c (filter_customers_by_segment customers r)
                  <-> In c customers /\ match_customer_rules c r = true)
    /\ filter_customers_by_segment customers no_rules = customers.
Proof.
  intros customers r.
  rewrite !filter_customers_by_segment_filter.
  split; [reflexivity|]. split; [apply filter_subseq|]. split.
  - intros c. apply filter_In.
  - apply filter_all_true. intros c. apply match_no_rules.
Qed.

Lemma fails_min_age_spec (c : customer) (r : rules) :
  fails_min_age c r = false <-> min_age_ok c r.
Proof.
  unfold fails_min_age, min_age_ok. destruct (min_age r) as [a|].
  - split.
    + intros H b [= <-] Hb. apply truthy_int_spec in Hb. rewrite Hb in H.
      simpl in H. apply Z.ltb_ge in H. lia.
    + intros H. destruct (Py.truthy_int a) eqn:Ht; [|reflexivity].
      simpl. apply Z.ltb_ge. apply truthy_int_spec in Ht.
      specialize (H a eq_refl Ht). lia.
  - split; [intros _ b; discriminate | reflexivity].
Qed.

Lemma fails_max_age_spec (c : customer) (r : rules) :
  fails_max_age c r = false <-> max_age_ok c r.
Proof.
  unfold fails_max_age, max_age_ok. destruct (max_age r) as [a|].
  - split.
    + intros H b [= <-] Hb. apply truthy_int_spec in Hb. rewrite Hb in H.
      simpl in H. rewrite Z.gtb_ltb in H. apply Z.ltb_ge in H. lia.
    + intros H. destruct (Py.truthy_int a) eqn:Ht; [|reflexivity].
      simpl. rewrite Z.gtb_ltb. apply Z.ltb_ge. apply truthy_int_spec in Ht.
      specialize (H a eq_refl Ht). lia.
  - split; [intros _ b; discriminate | reflexivity].
Qed.

Lemma fails_location_spec (c : customer) (r : rules) :
  fails_location c r = false <-> location_ok c r.
Proof.
  unfold fails_location, location_ok. destruct (rule_location r) as [l|].
  - split.
    + intros H m [= <-] Hm. apply truthy_str_spec in Hm. rewrite Hm in H.
      simpl in H. apply negb_false_iff in H. now apply contains_spec.
    + intros H. destruct (Py.truthy_str l) eqn:Ht; [|reflexivity].
      simpl. apply negb_false_iff. apply contains_spec. apply H; [reflexivity|].
      now apply truthy_str_spec.
  - split; [intros _ m; discriminate | reflexivity].
Qed.

Lemma fails_min_total_spent_spec (c : customer) (r : rules) :
  fails_min_total_spent c r = false <-> min_total_spent_ok c r.
Proof.
  unfold fails_min_total_spent, min_total_spent_ok.
  destruct (min_total_spent r) as [a|].
  - split.
    + intros H b [= <-] Hb. now rewrite Hb in H.
    + intros H. destruct (Py.truthy_float a) eqn:Ht; [|reflexivity].
      simpl. now apply H.
  - split; [intros _ b; discriminate | reflexivity].
Qed.

Lemma match_customer_rules_and (c : customer) (r : rules) :
  match_customer_rules c r = true
  <-> min_age_ok c r /\ max_age_ok c r /\ location_ok c r /\ min_total_spent_ok c r.
Proof.
  rewrite <- fails_min_age_spec, <- fails_max_age_spec, <- fails_location_spec,
    <- fails_min_total_spent_spec.
  unfold match_customer_rules.
  destruct (fails_min_age c r), (fails_max_age c r), (fails_location c r),
    (fails_min_total_spent c r); simpl; intuition congruence.
Qed.

Lemma match_only_min_age (c : customer) (a : Z) :
  match_customer_rules c (only_min_age a)
  = if Py.truthy_int a then (a <=? age c)%Z else true.
Proof.
  unfold match_customer_rules, fails_min_age, fails_max_age, fails_location,
    fails_min_total_spent; simpl.
  destruct (Py.truthy_int a); simpl; [|reflexivity].
  destruct (Z.ltb_spec (age c) a), (Z.leb_spec a (age c)); try reflexivity; lia.
Qed.

Lemma match_only_max_age (c : customer) (a : Z) :
  match_customer_rules c (only_max_age a)
  = if Py.truthy_int a then (age c <=? a)%Z else true.
Proof.
  unfold match_customer_rules, fails_min_age, fails_max_age, fails_location,
    fails_min_total_spent; simpl.
  destruct (Py.truthy_int a); simpl; [|reflexivity].
  rewrite Z.gtb_ltb.
  destruct (Z.ltb_spec a (age c)), (Z.leb_spec (age c) a); try reflexivity; lia.
Qed.


Lemma match_only_min_total_spent (c : customer) (a : float) :
  match_customer_rules c (only_min_total_spent a)
  = if Py.truthy_float a then negb (total_spent c <? a)%float else true.
Proof.
  unfold match_customer_rules, fails_min_age, fails_max_age, fails_location,
    fails_min_total_spent; simpl.
  destruct (Py.truthy_float a); simpl; [|reflexivity].
  now destruct (total_spent c <? a)%float.
Qed.

(** C5. Matching against [{min_age: a}] holds iff [age >= a], against
    [{max_age: a}] rejects iff [age > a], against [{min_total_spent: a}]
    rejects iff [total_spent < a], for a threshold that is not falsy; a
    key whose value is falsy (zero, the empty string) weighs as much as
    the key being absent, in any rule-set, and asks nothing; and a
    customer matches a rule-set iff every constraint that is present and
    not falsy holds for it. *)
Theorem match_rules_threshold_semantics :
  forall c : customer,
    (forall a, a <> 0%Z ->
       (match_customer_rules c (only_min_age a) = true <-> (age c >= a)%Z))
    /\ (forall a, a <> 0%Z ->
       (match_customer_rules c (only_max_age a) = false <-> (age c > a)%Z))
    /\ (forall a, Py.truthy_float a = true ->
       (match_customer_rules c (only_min_total_spent a) = false
        <-> (total_spent c <? a)%float = true))
    /\ (forall r,
          match_customer_rules c
            (mkRules (Some 0%Z) (max_age r) (rule_location r) (min_total_spent r))
          = match_customer_rules c
              (mkRules None (max_age r) (rule_location r) (min_total_spent r))
          /\ match_customer_rules c
               (mkRules (min_age r) (Some 0%Z) (rule_location r) (min_total_spent r))
             = match_customer_rules c
                 (mkRules (min_age r) None (rule_location r) (min_total_spent r))
          /\ match_customer_rules c
               (mkRules (min_age r) (max_age r) (Some EmptyString) (min_total_spent r))
             = match_customer_rules c
                 (mkRules (min_age r) (max_age r) None (min_total_spent r))
          /\ (forall z, Py.truthy_float z = false ->
              match_customer_rules c
                (mkRules (min_age r) (max_age r) (rule_location r) (Some z))
              = match_customer_rules c
                  (mkRules (min_age r) (max_age r) (rule_location r) None)))
    /\ match_customer_rules c no_rules = true
    /\ (forall r,
          match_customer_rules c r = true
          <-> min_age_ok c r /\ max_age_ok c r /\ location_ok c r
              /\ min_total_spent_ok c r).
Proof.
  intros c.
  split; [|split; [|split; [|split; [|split]]]].
  - intros a Ha. rewrite match_only_min_age. apply truthy_int_spec in Ha.
    rewrite Ha, Z.leb_le. lia.
  - intros a Ha. rewrite match_only_max_age. apply truthy_int_spec in Ha.
    rewrite Ha, Z.leb_gt. lia.
  - intros a Ha. rewrite match_only_min_total_spent, Ha.
    destruct (total_spent c <? a)%float; simpl; intuition congruence.
  - intros r. split; [reflexivity|]. split; [reflexivity|].
    split; [reflexivity|].
    intros z Hz. unfold match_customer_rules, fails_min_total_spent; simpl.
    now rewrite Hz.
  - apply match_no_rules.
  - intros r. apply match_customer_rules_and.
Qed.

Lemma match_rules_threshold_semantics_witness :
  (30 <> 0)%Z
  /\ (match_customer_rules Sample.user2 (only_min_age 30) = true
      <-> (age Sample.user2 >= 30)%Z).
Proof.
  split.
  - discriminate.
  - apply (proj1 (match_rules_threshold_semantics Sample.user2) 30%Z).
    discriminate.
Defined.

(** ** Letter case *)















(** ** Campaign life cycle *)

Lemma rewrite_loop_acc (cid : Py.value) (st : string) (rows acc : list campaign) :
  fold_left
    (fun campaigns row =>
       campaigns ++
       [if String.eqb (campaign_id row) (Py.str cid)
        then set_status row st else row])
    rows acc
  = acc ++ map (fun row => if String.eqb (campaign_id row) (Py.str cid)
                           then set_status row st else row) rows.
Proof.
  revert acc; induction rows as [|row rows IH]; intros acc; simpl.
  - now rewrite app_nil_r.
  - rewrite IH. now rewrite <- app_assoc.
Qed.

Lemma rewrite_status_map (rows : list campaign) (cid : Py.value) (st : string) :
  rewrite_status rows cid st
  = map (fun row => if String.eqb (campaign_id row) (Py.str cid)
                    then set_status row st else row) rows.
Proof. unfold rewrite_status. now rewrite rewrite_loop_acc. Qed.

Lemma update_campaign_status_run (cid : Py.value) (st : string) (e : env) (s : state) :
  update_campaign_status cid st e s
  = (tt, mkState (customers_csv s) (segments_csv s)
           (option_map (fun rows => rewrite_status rows cid st) (campaigns_csv s))
           (events_csv s) (random_pos s) (clock_pos s)).
Proof.
  unfold update_campaign_status, bind, get_state, put_state, ret.
  destruct s as [cu se ca ev rp cp]; simpl. now destruct ca.
Qed.

(** C10. The rewrite of [update_campaign_status] keeps the number of
    campaign records and their order, keeps every field but [status] on
    every record, leaves a record whose id differs from [str(campaign_id)]
    as it is, and gives the new status to the records whose id is
    [str(campaign_id)]; the other files are not touched, and nothing is
    written when the campaign file does not exist. *)
Theorem update_campaign_status_frame :
  forall (cid : Py.value) (new_status : string) (e : env) (s : state),
    let s' := snd (update_campaign_status cid new_status e s) in
    List.length (load_campaigns s') = List.length (load_campaigns s)
    /\ (forall i row,
          nth_error (load_campaigns s) i = Some row ->
          exists row',
            nth_error (load_campaigns s') i = Some row'
            /\ campaign_id row' = campaign_id row
            /\ name row' = name row
            /\ campaign_segment_id row' = campaign_segment_id row
            /\ start_date row' = start_date row
            /\ subject row' = subject row
            /\ body row' = body row
            /\ (campaign_id row <> Py.str cid -> row' = row)
            /\ (campaign_id row = Py.str cid -> status row' = new_status))
    /\ customers_csv s' = customers_csv s
    /\ segments_csv s' = segments_csv s
    /\ events_csv s' = events_csv s
    /\ (campaigns_csv s = None -> s' = s).
Proof.
  intros cid st e s. rewrite update_campaign_status_run. cbn zeta. simpl.
  unfold load_campaigns; simpl.
  destruct (campaigns_csv s) as [rows|] eqn:Hrows; simpl.
  - rewrite rewrite_status_map. split; [apply length_map|]. split.
    + intros i row Hi. rewrite nth_error_map, Hi; simpl.
      eexists; split; [reflexivity|].
      destruct (String.eqb_spec (campaign_id row) (Py.str cid)) as [Heq|Hne];
        simpl; repeat split; try reflexivity; intros; congruence.
    + repeat split; try reflexivity. discriminate.
  - split; [reflexivity|]. split.
    + intros i row Hi. destruct i; discriminate.
    + repeat split; try reflexivity. intros _. destruct s; simpl in *. congruence.
Qed.

Lemma update_campaign_status_frame_witness :
  campaigns_csv Sample.fresh = None
  /\ snd (update_campaign_status (Py.VInt 1) "sent" Sample.eager Sample.fresh)
     = Sample.fresh.
Proof.
  split.
  - reflexivity.
  - apply (update_campaign_status_frame (Py.VInt 1) "sent" Sample.eager Sample.fresh).
    reflexivity.
Defined.

Lemma generate_event_id_count (s : state) :
  generate_event_id s = Py.str_nat (List.length (load_events s) + 1).
Proof.
  unfold generate_event_id, load_events.
  destruct (events_csv s) as [[|ev rows]|]; reflexivity.
Qed.

Lemma create_event_run (cid : Py.value) (cust ty : string) (e : env) (s : state) :
  create_event cid cust ty e s
  = (tt, mkState (customers_csv s) (segments_csv s) (campaigns_csv s)
           (Some (load_events s
                  ++ [mkEvent (generate_event_id s) (Py.str cid) cust ty
                        (now_isoformat e (clock_pos s))]))
           (random_pos s) (S (clock_pos s))).
Proof. destruct s; reflexivity. Qed.

Lemma appends_refl (s : state) : appends s s [].
Proof. unfold appends. now rewrite app_nil_r. Qed.

Lemma appends_trans (s1 s2 s3 : state) (new1 new2 : list event) :
  appends s1 s2 new1 -> appends s2 s3 new2 -> appends s1 s3 (new1 ++ new2).
Proof.
  unfold appends. intros (A1 & A2 & A3 & A4) (B1 & B2 & B3 & B4).
  rewrite B1, B2, B3, B4, A1, A2, A3, A4, app_assoc. auto.
Qed.

Lemma create_event_appends (cid : Py.value) (cust ty : string) (e : env) (s : state) :
  appends s (snd (create_event cid cust ty e s))
    [mkEvent (generate_event_id s) (Py.str cid) cust ty
       (now_isoformat e (clock_pos s))].
Proof. rewrite create_event_run. unfold appends; simpl. auto. Qed.

Lemma random_random_appends (e : env) (s : state) :
  appends s (snd (random_random e s)) [].
Proof. unfold appends, random_random, load_events; simpl. now rewrite app_nil_r. Qed.

Lemma send_to_customer_appends (cid : Py.value) (c : customer) (e : env) (s : state) :
  exists block,
    appends s (snd (send_to_customer cid c e s)) block /\ funnel_block cid c block.
Proof.
  unfold send_to_customer, bind, ret.
  rewrite create_event_run.
  set (s1 := mkState _ _ _ _ _ _).
  assert (H1 : appends s s1 [mkEvent (generate_event_id s) (Py.str cid)
                               (customer_id c) "sent"
                               (now_isoformat e (clock_pos s))])
    by (unfold appends, s1; simpl; auto).
  destruct (random_random e s1) as [r1 s2] eqn:E1.
  assert (H2 : appends s1 s2 []).
  { generalize (random_random_appends e s1). now rewrite E1. }
  destruct (r1 <? 0.7)%float.
  2:{ eexists; split.
      - simpl. apply (appends_trans H1 H2).
      - split; [exists 1; simpl; split; [lia|reflexivity]|].
        repeat constructor. }
  rewrite create_event_run.
  set (s3 := mkState _ _ _ _ _ _).
  assert (H3 : appends s2 s3 [mkEvent (generate_event_id s2) (Py.str cid)
                                (customer_id c) "opened"
                                (now_isoformat e (clock_pos s2))])
    by (unfold appends, s3; simpl; auto).
  destruct (random_random e s3) as [r2 s4] eqn:E2.
  assert (H4 : appends s3 s4 []).
  { generalize (random_random_appends e s3). now rewrite E2. }
  destruct (r2 <? 0.4)%float.
  2:{ eexists; split.
      - simpl. apply (appends_trans (appends_trans (appends_trans H1 H2) H3) H4).
      - split; [exists 2; simpl; split; [lia|reflexivity]|].
        repeat constructor. }
  rewrite create_event_run.
  set (s5 := mkState _ _ _ _ _ _).
  assert (H5 : appends s4 s5 [mkEvent (generate_event_id s4) (Py.str cid)
                                (customer_id c) "clicked"
                                (now_isoformat e (clock_pos s4))])
    by (unfold appends, s5; simpl; auto).
  destruct (random_random e s5) as [r3 s6] eqn:E3.
  assert (H6 : appends s5 s6 []).
  { generalize (random_random_appends e s5). now rewrite E3. }
  pose proof (appends_trans (appends_trans (appends_trans (appends_trans
                (appends_trans H1 H2) H3) H4) H5) H6) as H16.
  destruct (r3 <? 0.3)%float.
  2:{ eexists; split.
      - simpl. exact H16.
      - split; [exists 3; simpl; split; [lia|reflexivity]|].
        repeat constructor. }
  eexists; split.
  - eapply appends_trans; [exact H16 | apply create_event_appends].
  - split; [exists 4; simpl; split; [lia|reflexivity]|].
    repeat constructor.
Qed.

Lemma for_each_send_appends (cid : Py.value) (customers : list customer)
  (e : env) (s : state) :
  exists blocks,
    appends s (snd (for_each customers (send_to_customer cid) e s)) (List.concat blocks)
    /\ Forall2 (funnel_block cid) customers blocks.
Proof.
  revert s; induction customers as [|c cs IH]; intros s.
  - exists []. split; [apply appends_refl | constructor].
  - simpl. unfold bind.
    destruct (send_to_customer_appends cid c e s) as (block & Hb & Hf).
    destruct (send_to_customer cid c e s) as [[] s1]. simpl in Hb.
    destruct (IH s1) as (blocks & Hbs & Hfs).
    exists (block :: blocks). split.
    + simpl. apply (appends_trans Hb Hbs).
    + now constructor.
Qed.

Lemma find_rewrite_status (rows : list campaign) (cid : Py.value) (st : string) :
  find (fun c => String.eqb (campaign_id c) (Py.str cid)) (rewrite_status rows cid st)
  = option_map (fun c => set_status c st)
      (find (fun c => String.eqb (campaign_id c) (Py.str cid)) rows).
Proof.
  rewrite rewrite_status_map.
  induction rows as [|row rows IH]; simpl; [reflexivity|].
  destruct (String.eqb (campaign_id row) (Py.str cid)) eqn:E; simpl.
  - now rewrite E.
  - now rewrite E.
Qed.

(** What [send_campaign] does to a campaign that exists and is a draft. *)
Lemma send_campaign_draft (cid : Py.value) (c : campaign) (e : env) (s : state) :
  get_campaign_by_id s cid = Some c ->
  status c = "draft" ->
  exists blocks,
    fst (send_campaign cid e s) = List.length (get_campaign_customers s cid)
    /\ customers_csv (snd (send_campaign cid e s)) = customers_csv s
    /\ segments_csv (snd (send_campaign cid e s)) = segments_csv s
    /\ campaigns_csv (snd (send_campaign cid e s))
       = option_map (fun rows => rewrite_status rows cid "sent") (campaigns_csv s)
    /\ load_events (snd (send_campaign cid e s)) = load_events s ++ List.concat blocks
    /\ Forall2 (funnel_block cid) (get_campaign_customers s cid) blocks.
Proof.
  intros Hget Hst.
  destruct (for_each_send_appends cid (get_campaign_customers s cid) e s)
    as (blocks & (A1 & A2 & A3 & A4) & Hf).
  exists blocks.
  unfold send_campaign, bind, get_state, ret. rewrite Hget, Hst. simpl.
  destruct (for_each _ _ e s) as [[] s1]. simpl in A1, A2, A3, A4.
  rewrite update_campaign_status_run. simpl.
  rewrite A1, A2, A3. repeat split; try reflexivity; assumption.
Qed.

(** [send_campaign] on a campaign that is missing or is not a draft. *)
Lemma send_campaign_noop (cid : Py.value) (e : env) (s : state) :
  (get_campaign_by_id s cid = None
   \/ exists c, get_campaign_by_id s cid = Some c /\ status c <> "draft") ->
  send_campaign cid e s = (0, s).
Proof.
  intros [Hnone | (c & Hget & Hst)];
    unfold send_campaign, bind, get_state, ret.
  - now rewrite Hnone.
  - rewrite Hget. destruct (String.eqb_spec (status c) "draft"); [congruence|].
    reflexivity.
Qed.

Lemma get_campaign_after_send (cid : Py.value) (c : campaign) (e : env) (s : state) :
  get_campaign_by_id s cid = Some c ->
  status c = "draft" ->
  get_campaign_by_id (snd (send_campaign cid e s)) cid = Some (set_status c "sent").
Proof.
  intros Hget Hst.
  destruct (send_campaign_draft cid e s Hget Hst) as (blocks & _ & _ & _ & Hc & _).
  unfold get_campaign_by_id, load_campaigns in *. rewrite Hc.
  destruct (campaigns_csv s) as [rows|]; simpl in *; [|discriminate].
  now rewrite find_rewrite_status, Hget.
Qed.

(** ** The funnel of one send *)

Lemma funnel_ordered_app (a b : list event) :
  funnel_ordered a -> funnel_ordered b -> funnel_ordered (a ++ b).
Proof.
  intros Ha Hb before ev after stage Heq Hprev.
  apply app_eq_app in Heq. destruct Heq as [l [[H1 H2] | [H1 H2]]].
  - destruct l as [|x l].
    + simpl in H2. rewrite app_nil_r in H1. subst a.
      destruct (Hb [] ev after stage (eq_sym H2) Hprev) as (ev0 & [] & _).
    + simpl in H2. injection H2 as Hx _. subst x.
      apply (Ha before ev l stage H1 Hprev).
  - subst before.
    destruct (Hb l ev after stage H2 Hprev) as (ev0 & Hin & Hrest).
    exists ev0. split; [apply in_or_app; now right | exact Hrest].
Qed.

Lemma funnel_ordered_nil : funnel_ordered [].
Proof. intros [|x before] ev after stage Heq; discriminate. Qed.

(** Closes a goal of [funnel_ordered] on a block whose elements are
    known: the event wanted is the last one of [before]. *)
Ltac take_last_before ev Hall :=
  match goal with
  | |- exists _, In _ ?l /\ _ =>
      let p := eval simpl in (last l ev) in
      exists p;
      let A1 := fresh in let B1 := fresh in
      let A2 := fresh in let B2 := fresh in
      destruct (Hall p) as [A1 B1]; [simpl; tauto|];
      destruct (Hall ev) as [A2 B2]; [simpl; tauto|];
      repeat split; [simpl; tauto | congruence | congruence | assumption]
  end.

Lemma funnel_ordered_block (cid : Py.value) (c : customer) (block : list event) :
  funnel_block cid c block -> funnel_ordered block.
Proof.
  intros [(k & Hk & Hty) Hall]. rewrite Forall_forall in Hall.
  intros before ev after stage Heq Hprev.
  assert (Hcases : k = 1 \/ k = 2 \/ k = 3 \/ k = 4) by lia.
  destruct Hcases as [-> | [-> | [-> | ->]]]; simpl in Hty;
    destruct block as [|e1 [|e2 [|e3 [|e4 [|e5 rest]]]]]; try discriminate;
    simpl in Hty; injection Hty; intros;
    destruct before as [|x1 [|x2 [|x3 [|x4 more]]]]; simpl in Heq;
    try discriminate; injection Heq; intros; subst.
  all: try (exfalso; eapply app_cons_not_nil; eassumption).
  all: try (match goal with
            | T : event_type ?x = _,
              Hp : previous_stage (event_type ?x) = _ |- _ => rewrite T in Hp
            end).
  all: unfold previous_stage in Hprev; simpl in Hprev; try discriminate.
  all: injection Hprev as <-.
  all: take_last_before ev Hall.
Qed.

Lemma funnel_ordered_blocks (cid : Py.value) (cs : list customer)
  (blocks : list (list event)) :
  Forall2 (funnel_block cid) cs blocks -> funnel_ordered (List.concat blocks).
Proof.
  induction 1 as [|c b cs bs Hb _ IH]; simpl.
  - apply funnel_ordered_nil.
  - apply funnel_ordered_app; [now apply (@funnel_ordered_block cid c b) | exact IH].
Qed.

Lemma filter_of_pair_block (cid : Py.value) (c : customer) (block : list event)
  (camp cust : string) :
  Forall (fun ev => event_campaign_id ev = Py.str cid
                    /\ event_customer_id ev = customer_id c) block ->
  filter (of_pair camp cust) block
  = if String.eqb (Py.str cid) camp && String.eqb (customer_id c) cust
    then block else [].
Proof.
  induction 1 as [|ev block [Hc Hu] _ IH]; simpl.
  - now destruct (_ && _).
  - unfold of_pair at 1. rewrite Hc, Hu, IH.
    now destruct (String.eqb (Py.str cid) camp && String.eqb (customer_id c) cust).
Qed.

Lemma filter_of_pair_absent (cid : Py.value) (cs : list customer)
  (blocks : list (list event)) (camp cust : string) :
  Forall2 (funnel_block cid) cs blocks ->
  ~ In cust (map customer_id cs) ->
  filter (of_pair camp cust) (List.concat blocks) = [].
Proof.
  induction 1 as [|c b cs bs [_ Hb] _ IH]; simpl; intros Hnot; [reflexivity|].
  rewrite filter_app, (@filter_of_pair_block cid c b camp cust Hb), IH by tauto.
  destruct (String.eqb_spec (customer_id c) cust) as [Heq|Hne].
  - exfalso. apply Hnot. now left.
  - now rewrite andb_false_r.
Qed.

Lemma firstn_prefix_of {A} (k : nat) (xs : list A) : prefix_of (firstn k xs) xs.
Proof. exists (skipn k xs). symmetry. apply firstn_skipn. Qed.

Lemma pair_types_prefix (cid : Py.value) (cs : list customer)
  (blocks : list (list event)) (camp cust : string) :
  Forall2 (funnel_block cid) cs blocks ->
  NoDup (map customer_id cs) ->
  prefix_of (map event_type (filter (of_pair camp cust) (List.concat blocks)))
    funnel_chain.
Proof.
  induction 1 as [|c b cs bs Hblock Hrest IH]; simpl; intros Hnd.
  - now exists funnel_chain.
  - inversion Hnd as [|x xs Hnotin Hnd' E]; subst.
    destruct Hblock as [(k & _ & Hty) Hb].
    rewrite filter_app, (@filter_of_pair_block cid c b camp cust Hb).
    destruct (String.eqb (Py.str cid) camp && String.eqb (customer_id c) cust) eqn:E.
    + apply andb_true_iff in E. destruct E as [_ E]. apply String.eqb_eq in E.
      subst cust.
      rewrite (@filter_of_pair_absent cid cs bs camp _ Hrest Hnotin), app_nil_r, Hty.
      apply firstn_prefix_of.
    + simpl. now apply IH.
Qed.

(** C7. In one send of a draft campaign, whatever the random source
    returns, the events appended are one block for each customer of the
    audience, in audience order, each block an initial part of
    sent, opened, clicked, converted (with [sent] at least) for the pair
    of the campaign and this customer; so an event of a later stage always
    comes after an event of the stage before it for the same pair, and,
    customer identifiers being unique in the audience, the event types of
    every pair are an initial part of the chain. *)
Theorem send_records_funnel_prefixes :
  forall (cid : Py.value) (c : campaign) (e : env) (s : state),
    get_campaign_by_id s cid = Some c ->
    status c = "draft" ->
    exists blocks,
      load_events (snd (send_campaign cid e s))
      = load_events s ++ List.concat blocks
      /\ Forall2 (funnel_block cid) (get_campaign_customers s cid) blocks
      /\ funnel_ordered (List.concat blocks)
      /\ (NoDup (map customer_id (get_campaign_customers s cid)) ->
          forall camp cust,
            prefix_of
              (map event_type (filter (of_pair camp cust) (List.concat blocks)))
              funnel_chain).
Proof.
  intros cid c e s Hget Hst.
  destruct (send_campaign_draft cid e s Hget Hst)
    as (blocks & _ & _ & _ & _ & Hev & Hblocks).
  exists blocks. split; [exact Hev|]. split; [exact Hblocks|]. split.
  - apply (@funnel_ordered_blocks cid _ blocks Hblocks).
  - intros Hnd camp cust. now apply (@pair_types_prefix cid _ blocks camp cust Hblocks).
Qed.

Lemma send_records_funnel_prefixes_witness :
  get_campaign_by_id Sample.with_draft (Py.VStr "1") = Some Sample.draft1
  /\ status Sample.draft1 = "draft"
  /\ exists blocks,
      load_events (snd (send_campaign (Py.VStr "1") Sample.mixed Sample.with_draft))
      = load_events Sample.with_draft ++ List.concat blocks
      /\ Forall2 (funnel_block (Py.VStr "1"))
           (get_campaign_customers Sample.with_draft (Py.VStr "1")) blocks
      /\ funnel_ordered (List.concat blocks)
      /\ (NoDup (map customer_id
                   (get_campaign_customers Sample.with_draft (Py.VStr "1"))) ->
          forall camp cust,
            prefix_of
              (map event_type (filter (of_pair camp cust) (List.concat blocks)))
              funnel_chain).
Proof.
  split; [reflexivity|]. split; [reflexivity|].
  apply (send_records_funnel_prefixes (Py.VStr "1") Sample.mixed Sample.with_draft
           (c := Sample.draft1)); reflexivity.
Defined.

(** C8. [send_campaign] on a campaign that exists and is a draft returns
    the size of the audience the campaign resolves to, the number of
    customers that match the rules of its segment, whatever the random
    source returns. *)
Theorem send_returns_audience_size :
  forall (cid : Py.value) (c : campaign) (e e' : env) (s : state),
    get_campaign_by_id s cid = Some c ->
    status c = "draft" ->
    fst (send_campaign cid e s) = List.length (get_campaign_customers s cid)
    /\ (forall seg,
          get_segment_by_id s (Py.VStr (campaign_segment_id c)) = Some seg ->
          fst (send_campaign cid e s)
          = List.length (filter (fun cu => match_customer_rules cu (segment_rules seg))
                           (load_customers s)))
    /\ fst (send_campaign cid e' s) = fst (send_campaign cid e s).
Proof.
  intros cid c e e' s Hget Hst.
  destruct (send_campaign_draft cid e s Hget Hst) as (blocks & Hn & _).
  destruct (send_campaign_draft cid e' s Hget Hst) as (blocks' & Hn' & _).
  split; [exact Hn|]. split; [|congruence].
  intros seg Hseg. rewrite Hn. unfold get_campaign_customers.
  now rewrite Hget, Hseg, filter_customers_by_segment_filter.
Qed.

Lemma send_returns_audience_size_witness :
  get_campaign_by_id Sample.with_draft (Py.VStr "1") = Some Sample.draft1
  /\ status Sample.draft1 = "draft"
  /\ fst (send_campaign (Py.VStr "1") Sample.mixed Sample.with_draft)
     = List.length (get_campaign_customers Sample.with_draft (Py.VStr "1")).
Proof.
  split; [reflexivity|]. split; [reflexivity|].
  apply (send_returns_audience_size (Py.VStr "1") Sample.mixed Sample.eager
           Sample.with_draft (c := Sample.draft1)); reflexivity.
Defined.

(** C2. Two calls of [send_campaign] in a row: the second returns 0 and
    leaves the whole state as the first call left it, so no event is
    appended and the campaigns are unchanged; for [send_campaign] on a
    campaign that does not exist or whose status is not [draft] returns 0
    and changes nothing. *)
Theorem send_twice_second_is_noop :
  forall (cid : Py.value) (e e' : env) (s : state),
    let first := send_campaign cid e s in
    let second := send_campaign cid e' (snd first) in
    (fst first, fst second) = (fst first, 0)
    /\ snd second = snd first
    /\ load_events (snd second) = load_events (snd first)
    /\ load_campaigns (snd second) = load_campaigns (snd first)
    /\ (forall s0,
          get_campaign_by_id s0 cid = None
          \/ (exists c, get_campaign_by_id s0 cid = Some c /\ status c <> "draft") ->
          send_campaign cid e s0 = (0, s0)).
Proof.
  intros cid e e' s first second.
  assert (Hsecond : second = (0, snd first)).
  { unfold second, first.
    destruct (get_campaign_by_id s cid) as [c|] eqn:Hget.
    - destruct (string_dec (status c) "draft") as [Hst|Hst].
      + apply send_campaign_noop. right. exists (set_status c "sent").
        split; [now apply get_campaign_after_send | discriminate].
      + rewrite (@send_campaign_noop cid e s) by (right; now exists c).
        apply send_campaign_noop. right. now exists c.
    - rewrite (@send_campaign_noop cid e s) by now left.
      apply send_campaign_noop. now left. }
  rewrite Hsecond. simpl. repeat split; try reflexivity.
  intros s0 H. now apply send_campaign_noop.
Qed.

Lemma send_twice_second_is_noop_witness :
  get_campaign_by_id Sample.fresh (Py.VStr "7") = None
  /\ send_campaign (Py.VStr "7") Sample.mixed Sample.fresh = (0, Sample.fresh).
Proof.
  split.
  - reflexivity.
  - apply (send_twice_second_is_noop (Py.VStr "7") Sample.mixed Sample.mixed
             Sample.fresh).
    left. reflexivity.
Defined.

(** C1, as the code has it. For a draft campaign whose [segment_id]
    matches no segment, resolving the audience yields the empty list, and
    [send_campaign] returns 0, appends no event and sets the status of the
    campaign to [sent], as it does for any other empty audience. *)
Theorem send_dangling_segment :
  forall (cid : Py.value) (c : campaign) (e : env) (s : state),
    get_campaign_by_id s cid = Some c ->
    status c = "draft" ->
    get_segment_by_id s (Py.VStr (campaign_segment_id c)) = None ->
    get_campaign_customers s cid = []
    /\ fst (send_campaign cid e s) = 0
    /\ load_events (snd (send_campaign cid e s)) = load_events s
    /\ get_campaign_by_id (snd (send_campaign cid e s)) cid
       = Some (set_status c "sent")
    /\ status (set_status c "sent") = "sent".
Proof.
  intros cid c e s Hget Hst Hseg.
  assert (Haud : get_campaign_customers s cid = [])
    by (unfold get_campaign_customers; now rewrite Hget, Hseg).
  destruct (send_campaign_draft cid e s Hget Hst)
    as (blocks & Hn & _ & _ & _ & Hev & Hblocks).
  rewrite Haud in Hn, Hblocks. inversion Hblocks; subst.
  simpl in Hev. rewrite app_nil_r in Hev.
  repeat split; try assumption.
  now apply get_campaign_after_send.
Qed.

Lemma send_dangling_segment_witness :
  get_campaign_by_id Sample.dangling (Py.VStr "999") = Some Sample.bad_campaign
  /\ status Sample.bad_campaign = "draft"
  /\ get_segment_by_id Sample.dangling
       (Py.VStr (campaign_segment_id Sample.bad_campaign)) = None
  /\ get_campaign_by_id
       (snd (send_campaign (Py.VStr "999") Sample.eager Sample.dangling))
       (Py.VStr "999")
     = Some (set_status Sample.bad_campaign "sent").
Proof.
  split; [reflexivity|]. split; [reflexivity|]. split; [reflexivity|].
  apply (send_dangling_segment (Py.VStr "999") Sample.eager Sample.dangling
           (c := Sample.bad_campaign)); reflexivity.
Defined.

(** C1 as stated fails: the campaign ["999"] is a draft and its segment
    ["9999"] does not exist; [send_campaign] returns 0, and the status of
    the campaign is [sent] afterwards, not [draft]. *)
Lemma send_dangling_keeps_draft_counterexample :
  get_campaign_by_id Sample.dangling (Py.VStr "999") = Some Sample.bad_campaign
  /\ status Sample.bad_campaign = "draft"
  /\ get_segment_by_id Sample.dangling
       (Py.VStr (campaign_segment_id Sample.bad_campaign)) = None
  /\ fst (send_campaign (Py.VStr "999") Sample.eager Sample.dangling) = 0
  /\ option_map status
       (get_campaign_by_id
          (snd (send_campaign (Py.VStr "999") Sample.eager Sample.dangling))
          (Py.VStr "999"))
     = Some "sent"
  /\ option_map status
       (get_campaign_by_id
          (snd (send_campaign (Py.VStr "999") Sample.eager Sample.dangling))
          (Py.VStr "999"))
     <> Some "draft".
Proof. repeat split; try reflexivity. discriminate. Qed.

(** ** Identifiers *)

Lemma str_nat_injective (m n : nat) : Py.str_nat m = Py.str_nat n -> m = n.
Proof.
  unfold Py.str_nat. intros H.
  apply (f_equal NilEmpty.uint_of_string) in H.
  rewrite !NilEmpty.usu in H. injection H as H.
  apply (f_equal Nat.of_uint) in H.
  now rewrite !DecimalNat.Unsigned.of_to in H.
Qed.

Lemma sequential_ids_nil : sequential_ids [].
Proof. reflexivity. Qed.

Lemma sequential_ids_snoc (ids : list string) :
  sequential_ids ids ->
  sequential_ids (ids ++ [Py.str_nat (List.length ids + 1)]).
Proof.
  unfold sequential_ids. intros H.
  rewrite length_app. simpl. rewrite seq_app, map_app. simpl.
  rewrite <- H. now rewrite Nat.add_comm.
Qed.

Lemma sequential_ids_NoDup (ids : list string) : sequential_ids ids -> NoDup ids.
Proof.
  unfold sequential_ids. intros ->.
  apply Injective_map_NoDup; [|apply seq_NoDup].
  intros m n. apply str_nat_injective.
Qed.

Lemma create_segment_run (seg_name : string) (r : rules) (e : env) (s : state) :
  create_segment seg_name r e s
  = (Py.str_nat (List.length (load_segments s) + 1),
     mkState (customers_csv s)
       (Some (load_segments s
              ++ [mkSegment (Py.str_nat (List.length (load_segments s) + 1))
                    seg_name r]))
       (campaigns_csv s) (events_csv s) (random_pos s) (clock_pos s)).
Proof. reflexivity. Qed.

Lemma create_campaign_run (cname seg_id date subj text : string) (e : env) (s : state) :
  create_campaign cname seg_id date subj text e s
  = (Py.str_nat (List.length (load_campaigns s) + 1),
     mkState (customers_csv s) (segments_csv s)
       (Some (load_campaigns s
              ++ [mkCampaign (Py.str_nat (List.length (load_campaigns s) + 1))
                    cname seg_id date "draft" subj text]))
       (events_csv s) (random_pos s) (clock_pos s)).
Proof. reflexivity. Qed.

Lemma preserves_ret {A} (P : state -> Prop) (a : A) : preserves P (ret a).
Proof. intros e s H. exact H. Qed.

Lemma preserves_bind {A B} (P : state -> Prop) (m : M A) (k : A -> M B) :
  preserves P m -> (forall a, preserves P (k a)) -> preserves P (bind m k).
Proof.
  intros Hm Hk e s H. unfold bind.
  specialize (Hm e s H). destruct (m e s) as [a s1]. now apply Hk.
Qed.

Lemma preserves_for_each {A} (P : state -> Prop) (xs : list A) (body : A -> M unit) :
  (forall x, preserves P (body x)) -> preserves P (for_each xs body).
Proof.
  intros Hbody. induction xs as [|x xs IH]; simpl.
  - apply preserves_ret.
  - apply preserves_bind; [apply Hbody | intros _; exact IH].
Qed.

Lemma map_app_one {A B} (f : A -> B) (xs : list A) (x : A) :
  map f (xs ++ [x]) = map f xs ++ [f x].
Proof. now rewrite map_app. Qed.

Lemma create_segment_ids (seg_name : string) (r : rules) :
  preserves ids_sequential (create_segment seg_name r).
Proof.
  intros e s (Hs & Hc & He). rewrite create_segment_run.
  unfold ids_sequential, load_segments, load_campaigns, load_events in *; simpl.
  split; [|now split].
  rewrite map_app_one; simpl.
  rewrite <- (length_map segment_id). now apply sequential_ids_snoc.
Qed.

Lemma create_campaign_ids (cname seg_id date subj text : string) :
  preserves ids_sequential (create_campaign cname seg_id date subj text).
Proof.
  intros e s (Hs & Hc & He). rewrite create_campaign_run.
  unfold ids_sequential, load_segments, load_campaigns, load_events in *; simpl.
  split; [assumption|]. split; [|assumption].
  rewrite map_app_one; simpl.
  rewrite <- (length_map campaign_id). now apply sequential_ids_snoc.
Qed.

Lemma create_event_ids (cid : Py.value) (cust ty : string) :
  preserves ids_sequential (create_event cid cust ty).
Proof.
  intros e s (Hs & Hc & He). rewrite create_event_run, generate_event_id_count.
  unfold ids_sequential, load_segments, load_campaigns, load_events in *; simpl.
  split; [assumption|]. split; [assumption|].
  rewrite map_app_one; simpl.
  rewrite <- (length_map event_id). now apply sequential_ids_snoc.
Qed.

Lemma random_random_ids : preserves ids_sequential random_random.
Proof. intros e s H. exact H. Qed.

Lemma rewrite_status_ids (rows : list campaign) (cid : Py.value) (st : string) :
  map campaign_id (rewrite_status rows cid st) = map campaign_id rows.
Proof.
  rewrite rewrite_status_map, map_map. apply map_ext. intros row.
  now destruct (String.eqb _ _).
Qed.

Lemma update_campaign_status_ids (cid : Py.value) (st : string) :
  preserves ids_sequential (update_campaign_status cid st).
Proof.
  intros e s (Hs & Hc & He). rewrite update_campaign_status_run.
  unfold ids_sequential, load_segments, load_campaigns, load_events in *; simpl.
  split; [assumption|]. split; [|assumption].
  destruct (campaigns_csv s) as [rows|]; simpl; [|assumption].
  now rewrite rewrite_status_ids.
Qed.

Ltac preserves_step :=
  cbv beta;
  match goal with
  | |- preserves _ (bind _ _) => apply preserves_bind; [|intros ?]
  | |- preserves _ (if ?b then _ else _) => destruct b
  | |- preserves _ (create_event _ _ _) => apply create_event_ids
  | |- preserves _ random_random => apply random_random_ids
  | |- preserves _ (ret _) => apply preserves_ret
  end.

Lemma send_to_customer_ids (cid : Py.value) (c : customer) :
  preserves ids_sequential (send_to_customer cid c).
Proof. unfold send_to_customer. repeat preserves_step. Qed.

Lemma send_campaign_ids (cid : Py.value) : preserves ids_sequential (send_campaign cid).
Proof.
  unfold send_campaign.
  apply preserves_bind; [intros e s H; exact H|]. intros s.
  destruct (get_campaign_by_id s cid) as [c|]; [|apply preserves_ret].
  destruct (negb _); [apply preserves_ret|].
  apply preserves_bind;
    [apply preserves_for_each; intros x; apply send_to_customer_ids|].
  intros _. apply preserves_bind; [apply update_campaign_status_ids|].
  intros _. apply preserves_ret.
Qed.

Lemma run_operation_ids (o : operation) : preserves ids_sequential (run_operation o).
Proof.
  destruct o; simpl.
  - apply preserves_bind; [apply create_segment_ids | intros _; apply preserves_ret].
  - apply preserves_bind; [apply create_campaign_ids | intros _; apply preserves_ret].
  - apply create_event_ids.
  - apply preserves_bind; [apply send_campaign_ids | intros _; apply preserves_ret].
Qed.

(** C9. [create_segment], [create_campaign] and [create_event] give the
    new record the identifier [str(n + 1)], [n] the number of records the
    collection holds, and append it; hence, from collections that are
    empty and with one writer that only runs these operations and
    [send_campaign], each collection holds the identifiers
    ["1"], ["2"], ... in order, which are pairwise distinct. *)
Theorem identifiers_count_plus_one :
  (forall seg_name r e s,
      fst (create_segment seg_name r e s)
      = Py.str_nat (List.length (load_segments s) + 1)
      /\ load_segments (snd (create_segment seg_name r e s))
         = load_segments s
           ++ [mkSegment (Py.str_nat (List.length (load_segments s) + 1))
                 seg_name r])
  /\ (forall cname seg_id date subj text e s,
      fst (create_campaign cname seg_id date subj text e s)
      = Py.str_nat (List.length (load_campaigns s) + 1)
      /\ load_campaigns (snd (create_campaign cname seg_id date subj text e s))
         = load_campaigns s
           ++ [mkCampaign (Py.str_nat (List.length (load_campaigns s) + 1))
                 cname seg_id date "draft" subj text])
  /\ (forall cid cust ty e s,
      generate_event_id s = Py.str_nat (List.length (load_events s) + 1)
      /\ load_events (snd (create_event cid cust ty e s))
         = load_events s
           ++ [mkEvent (Py.str_nat (List.length (load_events s) + 1))
                 (Py.str cid) cust ty (now_isoformat e (clock_pos s))])
  /\ (forall ops e s0,
      load_segments s0 = [] -> load_campaigns s0 = [] -> load_events s0 = [] ->
      ids_sequential (snd (run_operations ops e s0))
      /\ NoDup (map segment_id (load_segments (snd (run_operations ops e s0))))
      /\ NoDup (map campaign_id (load_campaigns (snd (run_operations ops e s0))))
      /\ NoDup (map event_id (load_events (snd (run_operations ops e s0))))).
Proof.
  split; [|split; [|split]].
  - intros. now rewrite create_segment_run.
  - intros. now rewrite create_campaign_run.
  - intros. rewrite create_event_run, generate_event_id_count. now split.
  - intros ops e s0 Hs Hc He.
    assert (Hinv : ids_sequential (snd (run_operations ops e s0))).
    { apply (@preserves_for_each _ ids_sequential ops run_operation
                 run_operation_ids e s0).
      unfold ids_sequential. rewrite Hs, Hc, He. repeat split. }
    split; [exact Hinv|].
    destruct Hinv as (H1 & H2 & H3).
    repeat split; now apply sequential_ids_NoDup.
Qed.

Lemma identifiers_count_plus_one_witness :
  load_segments (mkState (Some [Sample.user1]) None None None 0 0) = []
  /\ NoDup (map event_id
              (load_events
                 (snd (run_operations
                         [CreateSegment "All" no_rules;
                          CreateCampaign "Hello" "1" "2024-12-01" "Hi" "Text";
                          SendCampaign (Py.VInt 1);
                          CreateEvent (Py.VInt 1) "1" "opened"]
                         Sample.eager
                         (mkState (Some [Sample.user1]) None None None 0 0))))).
Proof.
  split.
  - reflexivity.
  - apply (proj2 (proj2 (proj2 identifiers_count_plus_one))); reflexivity.
Defined.

(** ** Metrics aggregator *)

Lemma filter_filter {A} (p q : A -> bool) (xs : list A) :
  filter q (filter p xs) = filter (fun x => p x && q x) xs.
Proof.
  induction xs as [|x xs IH]; simpl; [reflexivity|].
  destruct (p x); simpl; [|exact IH].
  destruct (q x); now rewrite IH.
Qed.

Lemma count_type_campaign (camp ty : string) (events : list event) :
  count_type (filter (fun e => String.eqb (event_campaign_id e) camp) events) ty
  = count_events camp ty events.
Proof. unfold count_type, count_events. now rewrite filter_filter. Qed.

Lemma count_events_absent (camp ty : string) (events : list event) :
  (forall ev, In ev events -> event_campaign_id ev <> camp) ->
  count_events camp ty events = 0.
Proof.
  unfold count_events. induction events as [|ev events IH]; intros H; simpl.
  - reflexivity.
  - destruct (String.eqb_spec (event_campaign_id ev) camp) as [Heq|Hne]; simpl.
    + exfalso. apply (H ev); [now left | exact Heq].
    + apply IH. intros ev' Hin. apply H. now right.
Qed.

Lemma rate_no_sent (count : nat) : Py.round2 (rate count 0) = Py.NInt 0.
Proof. reflexivity. Qed.

Lemma rate_some_sent (count sent_count : nat) :
  0 < sent_count ->
  Py.round2 (rate count sent_count)
  = Py.NFloat (Py.round2_float (Py.truediv count sent_count * 100)%float).
Proof.
  intros H. unfold rate. apply Nat.ltb_lt in H. now rewrite H.
Qed.

Lemma metrics_rates (s : state) (cid : Py.value) :
  open_rate (get_campaign_metrics s cid)
  = Py.round2 (rate (opened (get_campaign_metrics s cid))
                 (sent (get_campaign_metrics s cid)))
  /\ click_rate (get_campaign_metrics s cid)
     = Py.round2 (rate (clicked (get_campaign_metrics s cid))
                    (sent (get_campaign_metrics s cid)))
  /\ conversion_rate (get_campaign_metrics s cid)
     = Py.round2 (rate (converted (get_campaign_metrics s cid))
                    (sent (get_campaign_metrics s cid))).
Proof. repeat split. Qed.

Lemma rate_rounded (count sent_count : nat) :
  0 < sent_count ->
  rounded_rate count sent_count (Py.round2 (rate count sent_count)).
Proof.
  intros H. rewrite rate_some_sent by exact H.
  eexists. split; [reflexivity|]. apply round2_float_rounded.
Qed.

(** A rate is determined by the two counts. *)
Lemma rounded_rate_unique (count sent_count : nat) (v v' : Py.num) :
  rounded_rate count sent_count v -> rounded_rate count sent_count v' -> v = v'.
Proof.
  intros (r & -> & Hr) (r' & -> & Hr').
  now rewrite (@rounded_to_2_decimals_unique _ _ _ Hr Hr').
Qed.

(** C3. [get_campaign_metrics] counts, for each of the four types, the
    events of that type whose [campaign_id] is [str(campaign_id)]. When
    [sent] is 0 each rate is the integer 0. Otherwise each rate is the
    float [count / sent * 100] rounded to two decimal places: for the whole
    number [k] of hundredths nearest to that float (the even one of two
    that are equally near) the rate is the float [k / 100]. With 10 sent,
    7 opened, 4 clicked and 2 converted the rates are 70.0, 40.0 and 20.0;
    with 3 sent, 2 opened and 1 clicked they are 66.67, 33.33 and 0.0;
    with 800 sent and 1 opened the open rate 0.125 becomes 0.12; without
    any event of the campaign every count and every rate is 0. *)
Theorem campaign_metrics_counts_and_rates :
  forall (s : state) (cid : Py.value),
    let m := get_campaign_metrics s cid in
    sent m = count_events (Py.str cid) "sent" (load_events s)
    /\ opened m = count_events (Py.str cid) "opened" (load_events s)
    /\ clicked m = count_events (Py.str cid) "clicked" (load_events s)
    /\ converted m = count_events (Py.str cid) "converted" (load_events s)
    /\ (sent m = 0 ->
        open_rate m = Py.NInt 0 /\ click_rate m = Py.NInt 0
        /\ conversion_rate m = Py.NInt 0)
    /\ (0 < sent m ->
        rounded_rate (opened m) (sent m) (open_rate m)
        /\ rounded_rate (clicked m) (sent m) (click_rate m)
        /\ rounded_rate (converted m) (sent m) (conversion_rate m))
    /\ (sent m = 10 -> opened m = 7 -> clicked m = 4 -> converted m = 2 ->
        open_rate m = Py.NFloat 70 /\ click_rate m = Py.NFloat 40
        /\ conversion_rate m = Py.NFloat 20)
    /\ (sent m = 3 -> opened m = 2 -> clicked m = 1 -> converted m = 0 ->
        open_rate m = Py.NFloat 66.67 /\ click_rate m = Py.NFloat 33.33
        /\ conversion_rate m = Py.NFloat 0)
    /\ (sent m = 800 -> opened m = 1 -> open_rate m = Py.NFloat 0.12)
    /\ ((forall ev, In ev (load_events s) -> event_campaign_id ev <> Py.str cid) ->
        sent m = 0 /\ opened m = 0 /\ clicked m = 0 /\ converted m = 0
        /\ open_rate m = Py.NInt 0 /\ click_rate m = Py.NInt 0
        /\ conversion_rate m = Py.NInt 0).
Proof.
  intros s cid m.
  destruct (metrics_rates s cid) as (Ho & Hc & Hv). fold m in Ho, Hc, Hv.
  assert (Hsent : sent m = count_events (Py.str cid) "sent" (load_events s))
    by apply count_type_campaign.
  assert (Hopened : opened m = count_events (Py.str cid) "opened" (load_events s))
    by apply count_type_campaign.
  assert (Hclicked : clicked m = count_events (Py.str cid) "clicked" (load_events s))
    by apply count_type_campaign.
  assert (Hconv : converted m = count_events (Py.str cid) "converted" (load_events s))
    by apply count_type_campaign.
  assert (Hzero : sent m = 0 ->
                  open_rate m = Py.NInt 0 /\ click_rate m = Py.NInt 0
                  /\ conversion_rate m = Py.NInt 0).
  { intros H0. rewrite Ho, Hc, Hv, H0. repeat split. }
  repeat match goal with |- _ /\ _ => split end; try assumption.
  - intros Hpos. rewrite Ho, Hc, Hv.
    split; [|split]; apply rate_rounded; exact Hpos.
  - intros H10 H7 H4 H2. rewrite Ho, Hc, Hv, H10, H7, H4, H2.
    repeat split; vm_compute; reflexivity.
  - intros H3 H2 H1 H0. rewrite Ho, Hc, Hv, H3, H2, H1, H0.
    repeat split; vm_compute; reflexivity.
  - intros H800 H1. rewrite Ho, H800, H1. vm_compute. reflexivity.
  - intros Habs.
    assert (H0 : sent m = 0) by (rewrite Hsent; now apply count_events_absent).
    destruct (Hzero H0) as (R1 & R2 & R3).
    rewrite Hopened, Hclicked, Hconv, !count_events_absent by exact Habs.
    repeat split; assumption.
Qed.

Lemma campaign_metrics_counts_and_rates_witness :
  (sent (get_campaign_metrics Sample.reported (Py.VStr "1")) = 10
   /\ opened (get_campaign_metrics Sample.reported (Py.VStr "1")) = 7
   /\ clicked (get_campaign_metrics Sample.reported (Py.VStr "1")) = 4
   /\ converted (get_campaign_metrics Sample.reported (Py.VStr "1")) = 2
   /\ open_rate (get_campaign_metrics Sample.reported (Py.VStr "1")) = Py.NFloat 70
   /\ click_rate (get_campaign_metrics Sample.reported (Py.VStr "1")) = Py.NFloat 40
   /\ conversion_rate (get_campaign_metrics Sample.reported (Py.VStr "1"))
      = Py.NFloat 20)
  /\ (sent (get_campaign_metrics Thirds.reported (Py.VStr "1")) = 3
      /\ open_rate (get_campaign_metrics Thirds.reported (Py.VStr "1"))
         = Py.NFloat 66.67
      /\ click_rate (get_campaign_metrics Thirds.reported (Py.VStr "1"))
         = Py.NFloat 33.33
      /\ conversion_rate (get_campaign_metrics Thirds.reported (Py.VStr "1"))
         = Py.NFloat 0
      /\ rounded_rate 2 3
           (open_rate (get_campaign_metrics Thirds.reported (Py.VStr "1")))).
Proof.
  split.
  - split; [reflexivity|]. split; [reflexivity|]. split; [reflexivity|].
    split; [reflexivity|].
    apply (campaign_metrics_counts_and_rates Sample.reported (Py.VStr "1"));
      reflexivity.
  - split; [reflexivity|].
    pose proof (campaign_metrics_counts_and_rates Thirds.reported (Py.VStr "1"))
      as H.
    cbv zeta in H.
    destruct H as (_ & _ & _ & _ & _ & Hrate & _ & Hthirds & _).
    destruct (Hthirds eq_refl eq_refl eq_refl eq_refl) as (Ho & Hc & Hv).
    split; [exact Ho|]. split; [exact Hc|]. split; [exact Hv|].
    apply (Hrate (Nat.lt_0_succ 2)).
Defined.

(** ** The tests of the repository, run on the embedding *)

Module Tests.

Definition customers : list customer := [Sample.user1; Sample.user2; Sample.user3].

Example test_filter_by_min_age :
  filter_customers_by_segment customers (only_min_age 30)
  = [Sample.user2; Sample.user3].
Proof. reflexivity. Qed.

Example test_filter_by_max_age :
  filter_customers_by_segment customers (only_max_age 40)
  = [Sample.user1; Sample.user2].
Proof. reflexivity. Qed.

Example test_filter_by_age_range :
  filter_customers_by_segment customers (mkRules (Some 30%Z) (Some 40%Z) None None)
  = [Sample.user2].
Proof. reflexivity. Qed.

Example test_filter_by_location_case_insensitive :
  filter_customers_by_segment customers (only_location "Ankara") = [Sample.user1]
  /\ filter_customers_by_segment customers (only_location "ankara") = [Sample.user1].
Proof. split; reflexivity. Qed.

Example test_filter_by_min_spent :
  filter_customers_by_segment customers (only_min_total_spent 1500) = [Sample.user2].
Proof. vm_compute. reflexivity. Qed.

Example test_filter_by_multiple_rules :
  filter_customers_by_segment customers
    (mkRules (Some 30%Z) (Some 40%Z) None (Some 2000%float))
  = [Sample.user2].
Proof. vm_compute. reflexivity. Qed.

Example test_no_rules_and_no_matches :
  filter_customers_by_segment customers no_rules = customers
  /\ filter_customers_by_segment customers (only_min_age 100) = [].
Proof. split; reflexivity. Qed.

(** [create_campaign], then [send_campaign] twice. *)
Definition create_and_send_twice : M (string * nat * nat) :=
  new_id <- create_campaign "Test Campaign" "1" "2024-12-01" "Test Subject"
              "Test Body" ;;
  count1 <- send_campaign (Py.VStr new_id) ;;
  count2 <- send_campaign (Py.VStr new_id) ;;
  ret (new_id, count1, count2).

Example test_send_campaign_twice :
  fst (create_and_send_twice Sample.mixed Sample.fresh) = ("1", 2, 0)
  /\ map event_type (load_events (snd (create_and_send_twice Sample.mixed Sample.fresh)))
     = ["sent"; "opened"; "sent"; "opened"; "clicked"]
  /\ map event_customer_id
       (load_events (snd (create_and_send_twice Sample.mixed Sample.fresh)))
     = ["1"; "1"; "2"; "2"; "2"]
  /\ map event_id (load_events (snd (create_and_send_twice Sample.mixed Sample.fresh)))
     = ["1"; "2"; "3"; "4"; "5"]
  /\ map status (load_campaigns (snd (create_and_send_twice Sample.mixed Sample.fresh)))
     = ["sent"].
Proof. vm_compute. repeat split. Qed.

Example test_send_every_stage :
  map event_type
    (load_events (snd (send_campaign (Py.VInt 1) Sample.eager Sample.with_draft)))
  = ["sent"; "opened"; "clicked"; "converted";
     "sent"; "opened"; "clicked"; "converted"].
Proof. vm_compute. reflexivity. Qed.

Example test_campaign_send_with_segment_mismatch :
  get_campaign_customers Sample.dangling (Py.VStr "999") = [].
Proof. reflexivity. Qed.

Example test_no_events_campaign :
  get_campaign_metrics Sample.reported (Py.VStr "999")
  = mkMetrics (Py.VStr "999") 0 0 0 0 (Py.NInt 0) (Py.NInt 0) (Py.NInt 0).
Proof. vm_compute. reflexivity. Qed.

Example test_get_campaign_metrics :
  get_campaign_metrics Sample.reported (Py.VStr "1")
  = mkMetrics (Py.VStr "1") 10 7 4 2 (Py.NFloat 70) (Py.NFloat 40) (Py.NFloat 20).
Proof. vm_compute. reflexivity. Qed.

Example test_update_status_of_one_campaign :
  map status (rewrite_status Sample.two_campaigns (Py.VInt 2) "sent")
  = ["draft"; "sent"].
Proof. reflexivity. Qed.

End Tests.

(** ** Further properties of the campaign life cycle *)

Lemma load_events_mkState cu se ca ev rp cp :
  load_events (mkState cu se ca (Some ev) rp cp) = ev.
Proof. reflexivity. Qed.

(** Reduces the fields read off a state that is written out. *)
Ltac proj_state :=
  cbn [customers_csv segments_csv campaigns_csv events_csv random_pos clock_pos
       fst snd].

Ltac proj_state_in H :=
  cbn [customers_csv segments_csv campaigns_csv events_csv random_pos clock_pos
       fst snd] in H.

Lemma event_congr (n n' m m' : nat) (camp cust ty : string) (e : env) :
  n = n' -> m = m' ->
  mkEvent (Py.str_nat n) camp cust ty (now_isoformat e m)
  = mkEvent (Py.str_nat n') camp cust ty (now_isoformat e m').
Proof. now intros -> ->. Qed.

(** Two lists of events that differ in how their numbers are written. *)
Ltac events_agree :=
  repeat (apply (f_equal2 cons); [apply event_congr; lia|]); reflexivity.

Lemma funnel_rows_S (cid : Py.value) (c : customer) (e : env) (s : state) (k : nat) :
  funnel_rows cid c e s (S k)
  = funnel_rows cid c e s k
    ++ [mkEvent (Py.str_nat (List.length (load_events s) + k + 1)) (Py.str cid)
          (customer_id c) (nth k funnel_chain EmptyString)
          (now_isoformat e (clock_pos s + k))].
Proof. unfold funnel_rows. rewrite seq_S, map_app. reflexivity. Qed.

(** One turn of the loop of [send_campaign], in closed form. *)
Lemma send_to_customer_exact (cid : Py.value) (c : customer) (e : env) (s : state) :
  send_to_customer cid c e s
  = (tt, mkState (customers_csv s) (segments_csv s) (campaigns_csv s)
           (Some (load_events s
                  ++ funnel_rows cid c e s (funnel_depth e (random_pos s))))
           (random_pos s + Nat.min (funnel_depth e (random_pos s)) 3)
           (clock_pos s + funnel_depth e (random_pos s))).
Proof.
  unfold send_to_customer, bind, ret, random_random, funnel_depth.
  rewrite create_event_run; proj_state.
  destruct (random e (random_pos s) <? 0.7)%float.
  2:{ rewrite generate_event_id_count.
      do 2 f_equal; [|lia..].
      unfold funnel_rows; simpl. rewrite !Nat.add_0_r. reflexivity. }
  rewrite create_event_run; proj_state.
  destruct (random e (S (random_pos s)) <? 0.4)%float.
  2:{ rewrite !generate_event_id_count, load_events_mkState, length_app; simpl.
      do 2 f_equal; [|lia..].
      rewrite <- app_assoc. do 2 f_equal.
      unfold funnel_rows; simpl. rewrite !Nat.add_0_r.
      events_agree. }
  rewrite create_event_run; proj_state.
  destruct (random e (S (S (random_pos s))) <? 0.3)%float.
  2:{ rewrite !generate_event_id_count, !load_events_mkState, !length_app; simpl.
      do 2 f_equal; [|lia..].
      rewrite <- !app_assoc. do 2 f_equal.
      unfold funnel_rows; simpl. rewrite !Nat.add_0_r.
      events_agree. }
  rewrite create_event_run; proj_state.
  rewrite !generate_event_id_count, !load_events_mkState, !length_app; simpl.
  do 2 f_equal; [|lia..].
  rewrite <- !app_assoc. do 2 f_equal.
  unfold funnel_rows; simpl. rewrite !Nat.add_0_r.
  events_agree.
Qed.

Lemma funnel_depth_range (e : env) (pos : nat) : 1 <= funnel_depth e pos <= 4.
Proof.
  unfold funnel_depth.
  destruct (_ <? 0.7)%float; [|lia].
  destruct (_ <? 0.4)%float; [|lia].
  destruct (_ <? 0.3)%float; lia.
Qed.

Lemma funnel_rows_length cid c e s k : List.length (funnel_rows cid c e s k) = k.
Proof. unfold funnel_rows. now rewrite length_map, length_seq. Qed.

Lemma map_seq_from {A} (f g : nat -> A) (a k : nat) :
  (forall i, f i = g (a + i)) -> map f (seq 0 k) = map g (seq a k).
Proof.
  intros H.
  assert (G : forall b, map f (seq b k) = map g (seq (a + b) k)).
  { induction k as [|k IH]; intros b; simpl; [reflexivity|].
    f_equal; [apply H|]. rewrite <- Nat.add_succ_r. apply IH. }
  rewrite (G 0). now rewrite Nat.add_0_r.
Qed.

Lemma funnel_rows_ids cid c e s k :
  map event_id (funnel_rows cid c e s k)
  = map Py.str_nat (seq (List.length (load_events s) + 1) k).
Proof.
  unfold funnel_rows. rewrite map_map. simpl.
  apply map_seq_from. intros i. f_equal. lia.
Qed.

Lemma funnel_rows_sent cid c e s k :
  1 <= k <= 4 ->
  filter (fun ev => String.eqb (event_type ev) "sent") (funnel_rows cid c e s k)
  = [mkEvent (Py.str_nat (List.length (load_events s) + 0 + 1)) (Py.str cid)
       (customer_id c) "sent" (now_isoformat e (clock_pos s + 0))].
Proof.
  intros Hk.
  assert (Hcases : k = 1 \/ k = 2 \/ k = 3 \/ k = 4) by lia.
  destruct Hcases as [-> | [-> | [-> | ->]]]; reflexivity.
Qed.

Lemma count_type_app (a b : list event) (ty : string) :
  count_type (a ++ b) ty = count_type a ty + count_type b ty.
Proof. unfold count_type. now rewrite filter_app, length_app. Qed.

(** What the loop of [send_campaign] adds to the store. *)
Lemma for_each_send_accounting (cid : Py.value) (cs : list customer) (e : env)
  (s : state) :
  exists new,
    customers_csv (snd (for_each cs (send_to_customer cid) e s)) = customers_csv s
    /\ segments_csv (snd (for_each cs (send_to_customer cid) e s)) = segments_csv s
    /\ campaigns_csv (snd (for_each cs (send_to_customer cid) e s)) = campaigns_csv s
    /\ load_events (snd (for_each cs (send_to_customer cid) e s))
       = load_events s ++ new
    /\ List.length cs <= List.length new <= 4 * List.length cs
    /\ map event_customer_id
         (filter (fun ev => String.eqb (event_type ev) "sent") new)
       = map customer_id cs
    /\ map event_id new
       = map Py.str_nat (seq (List.length (load_events s) + 1) (List.length new))
    /\ clock_pos (snd (for_each cs (send_to_customer cid) e s))
       = clock_pos s + List.length new
    /\ random_pos s + List.length cs
       <= random_pos (snd (for_each cs (send_to_customer cid) e s))
       <= random_pos s + 3 * List.length cs.
Proof.
  revert s; induction cs as [|c cs IH]; intros s.
  - exists []. simpl. rewrite app_nil_r. repeat split; lia.
  - simpl. unfold bind. rewrite send_to_customer_exact.
    set (k := funnel_depth e (random_pos s)).
    assert (Hk : 1 <= k <= 4) by apply funnel_depth_range.
    clearbody k.
    set (s1 := mkState _ _ _ _ _ _).
    destruct (IH s1) as (new & H1 & H2 & H3 & H4 & H5 & H6 & H7 & H8 & H9).
    exists (funnel_rows cid c e s k ++ new).
    assert (Hlen1 : List.length (load_events s1) = List.length (load_events s) + k).
    { unfold s1. rewrite load_events_mkState, length_app, funnel_rows_length.
      reflexivity. }
    rewrite H1, H2, H3, H4, H8. unfold s1 at 1 2 3 4 5. proj_state.
    rewrite load_events_mkState, length_app, funnel_rows_length.
    split; [reflexivity|]. split; [reflexivity|]. split; [reflexivity|].
    split; [now rewrite app_assoc|]. split; [clear - Hk H5; lia|]. split.
    { rewrite filter_app, map_app, H6, (funnel_rows_sent cid c e s Hk).
      reflexivity. }
    split.
    { rewrite map_app, H7, funnel_rows_ids, Hlen1, seq_app, map_app.
      do 3 f_equal. lia. }
    split; [clear; lia|].
    change (random_pos s1) with (random_pos s + Nat.min k 3) in H9.
    clear - Hk H9. simpl List.length. lia.
Qed.

Lemma send_campaign_draft_run (cid : Py.value) (c : campaign) (e : env) (s : state) :
  get_campaign_by_id s cid = Some c ->
  status c = "draft" ->
  send_campaign cid e s
  = (List.length (get_campaign_customers s cid),
     snd (update_campaign_status cid "sent" e
            (snd (for_each (get_campaign_customers s cid) (send_to_customer cid)
                    e s)))).
Proof.
  intros Hget Hst.
  unfold send_campaign, bind, get_state, ret. rewrite Hget, Hst. simpl.
  destruct (for_each _ _ e s) as [[] s1]. simpl.
  now destruct (update_campaign_status cid "sent" e s1) as [[] s2].
Qed.

(** X1. One send of a draft campaign with an audience of [n] customers
    appends between [n] and [4 * n] events, among them one [sent] event
    for each customer in audience order; the new events are numbered on
    from the number of events there were; the clock is read once for each
    new event and the random source between [n] and [3 * n] times. *)
Theorem send_event_accounting :
  forall (cid : Py.value) (c : campaign) (e : env) (s : state),
    get_campaign_by_id s cid = Some c ->
    status c = "draft" ->
    exists new,
      load_events (snd (send_campaign cid e s)) = load_events s ++ new
      /\ fst (send_campaign cid e s) <= List.length new
         <= 4 * fst (send_campaign cid e s)
      /\ map event_customer_id
           (filter (fun ev => String.eqb (event_type ev) "sent") new)
         = map customer_id (get_campaign_customers s cid)
      /\ map event_id new
         = map Py.str_nat (seq (List.length (load_events s) + 1) (List.length new))
      /\ clock_pos (snd (send_campaign cid e s)) = clock_pos s + List.length new
      /\ random_pos s + fst (send_campaign cid e s)
         <= random_pos (snd (send_campaign cid e s))
         <= random_pos s + 3 * fst (send_campaign cid e s).
Proof.
  intros cid c e s Hget Hst.
  rewrite (send_campaign_draft_run cid e s Hget Hst).
  rewrite update_campaign_status_run. proj_state.
  destruct (for_each_send_accounting cid (get_campaign_customers s cid) e s)
    as (new & _ & _ & _ & H4 & H5 & H6 & H7 & H8 & H9).
  exists new. unfold load_events at 1. proj_state.
  split; [exact H4|]. split; [exact H5|]. split; [exact H6|].
  split; [exact H7|]. split; [exact H8 | exact H9].
Qed.

Lemma send_event_accounting_witness :
  get_campaign_by_id Sample.with_draft (Py.VStr "1") = Some Sample.draft1
  /\ status Sample.draft1 = "draft"
  /\ exists new,
      load_events (snd (send_campaign (Py.VStr "1") Sample.mixed Sample.with_draft))
      = load_events Sample.with_draft ++ new
      /\ fst (send_campaign (Py.VStr "1") Sample.mixed Sample.with_draft)
         <= List.length new
         <= 4 * fst (send_campaign (Py.VStr "1") Sample.mixed Sample.with_draft)
      /\ map event_customer_id
           (filter (fun ev => String.eqb (event_type ev) "sent") new)
         = map customer_id (get_campaign_customers Sample.with_draft (Py.VStr "1"))
      /\ map event_id new
         = map Py.str_nat
             (seq (List.length (load_events Sample.with_draft) + 1)
                (List.length new))
      /\ clock_pos (snd (send_campaign (Py.VStr "1") Sample.mixed Sample.with_draft))
         = clock_pos Sample.with_draft + List.length new
      /\ random_pos Sample.with_draft
         + fst (send_campaign (Py.VStr "1") Sample.mixed Sample.with_draft)
         <= random_pos
              (snd (send_campaign (Py.VStr "1") Sample.mixed Sample.with_draft))
         <= random_pos Sample.with_draft
            + 3 * fst (send_campaign (Py.VStr "1") Sample.mixed Sample.with_draft).
Proof.
  split; [reflexivity|]. split; [reflexivity|].
  apply (send_event_accounting (Py.VStr "1") Sample.mixed Sample.with_draft
           (c := Sample.draft1)); reflexivity.
Defined.

Lemma funnel_rows_types cid c e s k :
  k <= 4 -> map event_type (funnel_rows cid c e s k) = firstn k funnel_chain.
Proof.
  intros Hk.
  assert (Hcases : k = 0 \/ k = 1 \/ k = 2 \/ k = 3 \/ k = 4) by lia.
  destruct Hcases as [-> | [-> | [-> | [-> | ->]]]]; reflexivity.
Qed.

Lemma funnel_rows_customer cid c e s k :
  map event_customer_id (funnel_rows cid c e s k) = repeat (customer_id c) k.
Proof.
  unfold funnel_rows. rewrite map_map. simpl. generalize 0.
  induction k as [|k IH]; intros n; simpl; [reflexivity|]. now rewrite IH.
Qed.

Lemma for_each_send_constant_depth (cid : Py.value) (cs : list customer) (e : env)
  (s : state) (k : nat) :
  (forall pos, funnel_depth e pos = k) ->
  exists new,
    load_events (snd (for_each cs (send_to_customer cid) e s)) = load_events s ++ new
    /\ map event_type new
       = List.concat (repeat (firstn k funnel_chain) (List.length cs))
    /\ map event_customer_id new = flat_map (fun c => repeat (customer_id c) k) cs.
Proof.
  intros Hdepth. revert s; induction cs as [|c cs IH]; intros s.
  - exists []. simpl. rewrite app_nil_r. repeat split.
  - simpl. unfold bind. rewrite send_to_customer_exact, Hdepth.
    set (s1 := mkState _ _ _ _ _ _).
    destruct (IH s1) as (new & H1 & H2 & H3).
    exists (funnel_rows cid c e s k ++ new).
    rewrite H1. unfold s1 at 1. rewrite load_events_mkState.
    split; [now rewrite app_assoc|].
    rewrite !map_app, H2, H3, funnel_rows_customer, funnel_rows_types.
    + split; reflexivity.
    + rewrite <- (Hdepth 0). apply funnel_depth_range.
Qed.

(** X2. With a random source that never returns a number below 0.7 a
    send records nothing but one [sent] event for each customer of the
    audience, in audience order; with a source whose numbers are all below
    0.7, 0.4 and 0.3 each customer gets the four events of the funnel in
    order. *)
Theorem send_with_fixed_outcomes :
  forall (cid : Py.value) (c : campaign) (e : env) (s : state),
    get_campaign_by_id s cid = Some c ->
    status c = "draft" ->
    ((forall i, (random e i <? 0.7)%float = false) ->
     exists new,
       load_events (snd (send_campaign cid e s)) = load_events s ++ new
       /\ map event_type new = repeat "sent" (fst (send_campaign cid e s))
       /\ map event_customer_id new
          = map customer_id (get_campaign_customers s cid))
    /\ ((forall i, (random e i <? 0.7)%float = true
                   /\ (random e i <? 0.4)%float = true
                   /\ (random e i <? 0.3)%float = true) ->
        exists new,
          load_events (snd (send_campaign cid e s)) = load_events s ++ new
          /\ map event_type new
             = List.concat (repeat funnel_chain (fst (send_campaign cid e s)))
          /\ map event_customer_id new
             = flat_map (fun cu => repeat (customer_id cu) 4)
                 (get_campaign_customers s cid)).
Proof.
  intros cid c e s Hget Hst.
  rewrite (send_campaign_draft_run cid e s Hget Hst).
  rewrite update_campaign_status_run. proj_state.
  unfold load_events at 1 3. proj_state.
  fold (load_events
          (snd (for_each (get_campaign_customers s cid) (send_to_customer cid) e s))).
  split.
  - intros Hhigh.
    assert (Hdepth : forall pos, funnel_depth e pos = 1)
      by (intros pos; unfold funnel_depth; now rewrite Hhigh).
    destruct (@for_each_send_constant_depth cid (get_campaign_customers s cid)
                e s 1 Hdepth) as (new & H1 & H2 & H3).
    exists new. split; [exact H1|]. split.
    + rewrite H2. clear. induction (get_campaign_customers s cid); simpl;
        [reflexivity | now f_equal].
    + rewrite H3. clear. induction (get_campaign_customers s cid); simpl;
        [reflexivity | now f_equal].
  - intros Hlow.
    assert (Hdepth : forall pos, funnel_depth e pos = 4).
    { intros pos. unfold funnel_depth.
      destruct (Hlow pos) as (-> & _ & _).
      destruct (Hlow (S pos)) as (_ & -> & _).
      now destruct (Hlow (S (S pos))) as (_ & _ & ->). }
    destruct (@for_each_send_constant_depth cid (get_campaign_customers s cid)
                e s 4 Hdepth) as (new & H1 & H2 & H3).
    exists new. split; [exact H1|]. split; [exact H2 | exact H3].
Qed.

Lemma send_with_fixed_outcomes_witness :
  get_campaign_by_id Sample.with_draft (Py.VStr "1") = Some Sample.draft1
  /\ status Sample.draft1 = "draft"
  /\ (forall i, (random Fixture.reluctant i <? 0.7)%float = false)
  /\ exists new,
      load_events
        (snd (send_campaign (Py.VStr "1") Fixture.reluctant Sample.with_draft))
      = load_events Sample.with_draft ++ new
      /\ map event_type new
         = repeat "sent"
             (fst (send_campaign (Py.VStr "1") Fixture.reluctant Sample.with_draft))
      /\ map event_customer_id new
         = map customer_id (get_campaign_customers Sample.with_draft (Py.VStr "1")).
Proof.
  split; [reflexivity|]. split; [reflexivity|]. split; [intros i; reflexivity|].
  apply (send_with_fixed_outcomes (Py.VStr "1") Fixture.reluctant Sample.with_draft
           (c := Sample.draft1)); reflexivity.
Defined.

(** ** Events and the metrics computed from them *)

Lemma metrics_count_events (s : state) (cid : Py.value) :
  sent (get_campaign_metrics s cid)
  = count_events (Py.str cid) "sent" (load_events s)
  /\ opened (get_campaign_metrics s cid)
     = count_events (Py.str cid) "opened" (load_events s)
  /\ clicked (get_campaign_metrics s cid)
     = count_events (Py.str cid) "clicked" (load_events s)
  /\ converted (get_campaign_metrics s cid)
     = count_events (Py.str cid) "converted" (load_events s).
Proof. repeat split; apply count_type_campaign. Qed.

Lemma count_events_app (camp ty : string) (a b : list event) :
  count_events camp ty (a ++ b) = count_events camp ty a + count_events camp ty b.
Proof. unfold count_events. now rewrite filter_app, length_app. Qed.

Lemma count_events_one (camp ty : string) (ev : event) :
  count_events camp ty [ev]
  = if String.eqb (event_campaign_id ev) camp && String.eqb (event_type ev) ty
    then 1 else 0.
Proof. unfold count_events. simpl. now destruct (_ && _). Qed.

(** X3. Recording one event adds one to the count of its type in the
    metrics of its campaign, when the type is one of the four the metrics
    know, and leaves every other count, of this and of every other
    campaign, as it was. *)
Theorem create_event_moves_one_counter :
  forall (cid cid' : Py.value) (cust ty : string) (e : env) (s : state),
    let m := get_campaign_metrics s cid' in
    let m' := get_campaign_metrics (snd (create_event cid cust ty e s)) cid' in
    let hit t :=
      if String.eqb (Py.str cid) (Py.str cid') && String.eqb ty t then 1 else 0 in
    sent m' = sent m + hit "sent"
    /\ opened m' = opened m + hit "opened"
    /\ clicked m' = clicked m + hit "clicked"
    /\ converted m' = converted m + hit "converted"
    /\ sent m' + opened m' + clicked m' + converted m'
       <= sent m + opened m + clicked m + converted m + 1.
Proof.
  intros cid cid' cust ty e s m m' hit.
  assert (Hev : load_events (snd (create_event cid cust ty e s))
                = load_events s
                  ++ [mkEvent (generate_event_id s) (Py.str cid) cust ty
                        (now_isoformat e (clock_pos s))])
    by (now rewrite create_event_run).
  destruct (metrics_count_events s cid') as (A1 & A2 & A3 & A4).
  destruct (metrics_count_events (snd (create_event cid cust ty e s)) cid')
    as (B1 & B2 & B3 & B4).
  rewrite Hev, count_events_app, count_events_one in B1, B2, B3, B4.
  cbn [event_campaign_id event_type] in B1, B2, B3, B4.
  rewrite <- A1 in B1. rewrite <- A2 in B2. rewrite <- A3 in B3.
  rewrite <- A4 in B4.
  split; [exact B1|]. split; [exact B2|]. split; [exact B3|]. split; [exact B4|].
  subst m m'. rewrite B1, B2, B3, B4.
  destruct (String.eqb (Py.str cid) (Py.str cid')); simpl; [|lia].
  destruct (String.eqb_spec ty "sent") as [->|]; simpl; [lia|].
  destruct (String.eqb_spec ty "opened") as [->|]; simpl; [lia|].
  destruct (String.eqb_spec ty "clicked") as [->|]; simpl; [lia|].
  destruct (String.eqb ty "converted"); lia.
Qed.

Lemma funnel_block_counts (cid : Py.value) (c : customer) (block : list event)
  (camp : string) :
  funnel_block cid c block ->
  count_events camp "sent" block = (if String.eqb (Py.str cid) camp then 1 else 0)
  /\ count_events camp "converted" block <= count_events camp "clicked" block
  /\ count_events camp "clicked" block <= count_events camp "opened" block
  /\ count_events camp "opened" block <= count_events camp "sent" block.
Proof.
  intros [(k & Hk & Hty) Hall]. rewrite Forall_forall in Hall.
  assert (Hcases : k = 1 \/ k = 2 \/ k = 3 \/ k = 4) by lia.
  unfold count_events.
  destruct Hcases as [-> | [-> | [-> | ->]]]; simpl in Hty;
    destruct block as [|e1 [|e2 [|e3 [|e4 [|e5 rest]]]]]; try discriminate;
    simpl in Hty; injection Hty; intros; simpl;
    repeat match goal with
      | H : event_type _ = _ |- _ => rewrite H; clear H
      end;
    repeat match goal with
      | |- context [event_campaign_id ?x] =>
          rewrite (proj1 (Hall x ltac:(simpl; tauto)))
      end;
    destruct (String.eqb (Py.str cid) camp); simpl; repeat split; lia.
Qed.

Lemma funnel_blocks_counts (cid : Py.value) (cs : list customer)
  (blocks : list (list event)) (camp : string) :
  Forall2 (funnel_block cid) cs blocks ->
  count_events camp "sent" (List.concat blocks)
  = (if String.eqb (Py.str cid) camp then List.length cs else 0)
  /\ count_events camp "converted" (List.concat blocks)
     <= count_events camp "clicked" (List.concat blocks)
  /\ count_events camp "clicked" (List.concat blocks)
     <= count_events camp "opened" (List.concat blocks)
  /\ count_events camp "opened" (List.concat blocks)
     <= count_events camp "sent" (List.concat blocks).
Proof.
  induction 1 as [|c b cs bs Hb _ IH]; simpl.
  - unfold count_events; simpl. destruct (String.eqb _ _); repeat split; lia.
  - rewrite !count_events_app.
    destruct (@funnel_block_counts cid c b camp Hb) as (A1 & A2 & A3 & A4).
    destruct IH as (B1 & B2 & B3 & B4).
    rewrite A1 in *. rewrite B1 in *.
    destruct (String.eqb (Py.str cid) camp); repeat split; lia.
Qed.

(** X4. After a send of a draft campaign with an audience of [n]
    customers, the metrics of that campaign show [n] more [sent] events
    and at most as many more [opened] as [sent], [clicked] as [opened] and
    [converted] as [clicked]; the counts of a campaign with another id do
    not move; and when the store held no event of the campaign before,
    its metrics afterwards have [sent] equal to the number returned and
    [converted <= clicked <= opened <= sent]. *)
Theorem send_then_metrics :
  forall (cid cid' : Py.value) (c : campaign) (e : env) (s : state),
    get_campaign_by_id s cid = Some c ->
    status c = "draft" ->
    let n := fst (send_campaign cid e s) in
    let m := get_campaign_metrics s cid' in
    let m' := get_campaign_metrics (snd (send_campaign cid e s)) cid' in
    (Py.str cid' = Py.str cid ->
       sent m' = sent m + n
       /\ exists o k v,
            opened m' = opened m + o /\ clicked m' = clicked m + k
            /\ converted m' = converted m + v /\ v <= k /\ k <= o /\ o <= n)
    /\ (Py.str cid' <> Py.str cid ->
        sent m' = sent m /\ opened m' = opened m /\ clicked m' = clicked m
        /\ converted m' = converted m)
    /\ ((forall ev, In ev (load_events s) -> event_campaign_id ev <> Py.str cid) ->
        Py.str cid' = Py.str cid ->
        sent m' = n /\ converted m' <= clicked m' /\ clicked m' <= opened m'
        /\ opened m' <= sent m').
Proof.
  intros cid cid' c e s Hget Hst. cbv zeta.
  destruct (send_campaign_draft cid e s Hget Hst)
    as (blocks & Hn & _ & _ & _ & Hev & Hblocks).
  destruct (metrics_count_events s cid') as (A1 & A2 & A3 & A4).
  destruct (metrics_count_events (snd (send_campaign cid e s)) cid')
    as (B1 & B2 & B3 & B4).
  rewrite Hev, count_events_app in B1, B2, B3, B4.
  rewrite <- A1 in B1. rewrite <- A2 in B2. rewrite <- A3 in B3.
  rewrite <- A4 in B4.
  destruct (@funnel_blocks_counts cid _ blocks (Py.str cid') Hblocks)
    as (C1 & C2 & C3 & C4).
  rewrite <- Hn in C1.
  set (n := fst (send_campaign cid e s)) in *.
  set (m := get_campaign_metrics s cid') in *.
  set (m' := get_campaign_metrics (snd (send_campaign cid e s)) cid') in *.
  clearbody n m m'.
  assert (Hsame : Py.str cid' = Py.str cid ->
            sent m' = sent m + n
            /\ exists o k v,
                 opened m' = opened m + o /\ clicked m' = clicked m + k
                 /\ converted m' = converted m + v /\ v <= k /\ k <= o /\ o <= n).
  { intros Heq. rewrite <- Heq, String.eqb_refl in C1.
    split; [rewrite B1, C1; reflexivity|].
    exists (count_events (Py.str cid') "opened" (List.concat blocks)),
      (count_events (Py.str cid') "clicked" (List.concat blocks)),
      (count_events (Py.str cid') "converted" (List.concat blocks)).
    repeat split; try assumption. lia. }
  split; [exact Hsame|]. split.
  - intros Hne.
    destruct (String.eqb_spec (Py.str cid) (Py.str cid')) as [Heq|_];
      [congruence|].
    repeat split; lia.
  - intros Hfresh Heq. destruct (Hsame Heq) as (S1 & o & k & v & S2 & S3 & S4 & L).
    assert (Z1 : sent m = 0)
      by (rewrite A1, Heq; now apply count_events_absent).
    assert (Z2 : opened m = 0)
      by (rewrite A2, Heq; now apply count_events_absent).
    assert (Z3 : clicked m = 0)
      by (rewrite A3, Heq; now apply count_events_absent).
    assert (Z4 : converted m = 0)
      by (rewrite A4, Heq; now apply count_events_absent).
    repeat split; lia.
Qed.

Lemma send_then_metrics_witness :
  get_campaign_by_id Sample.with_draft (Py.VStr "1") = Some Sample.draft1
  /\ status Sample.draft1 = "draft"
  /\ (Py.str (Py.VInt 1) = Py.str (Py.VStr "1") ->
      sent (get_campaign_metrics
              (snd (send_campaign (Py.VStr "1") Sample.mixed Sample.with_draft))
              (Py.VInt 1))
      = sent (get_campaign_metrics Sample.with_draft (Py.VInt 1))
        + fst (send_campaign (Py.VStr "1") Sample.mixed Sample.with_draft)
      /\ exists o k v,
           opened (get_campaign_metrics
                     (snd (send_campaign (Py.VStr "1") Sample.mixed
                             Sample.with_draft)) (Py.VInt 1))
           = opened (get_campaign_metrics Sample.with_draft (Py.VInt 1)) + o
           /\ clicked (get_campaign_metrics
                         (snd (send_campaign (Py.VStr "1") Sample.mixed
                                 Sample.with_draft)) (Py.VInt 1))
              = clicked (get_campaign_metrics Sample.with_draft (Py.VInt 1)) + k
           /\ converted (get_campaign_metrics
                           (snd (send_campaign (Py.VStr "1") Sample.mixed
                                   Sample.with_draft)) (Py.VInt 1))
              = converted (get_campaign_metrics Sample.with_draft (Py.VInt 1)) + v
           /\ v <= k /\ k <= o
           /\ o <= fst (send_campaign (Py.VStr "1") Sample.mixed Sample.with_draft)).
Proof.
  split; [reflexivity|]. split; [reflexivity|].
  apply (send_then_metrics (Py.VStr "1") (Py.VInt 1) Sample.mixed Sample.with_draft
           (c := Sample.draft1)); reflexivity.
Defined.

(** ** Histories of the store *)

Lemma prefix_of_refl {A} (xs : list A) : prefix_of xs xs.
Proof. exists []. now rewrite app_nil_r. Qed.

Lemma prefix_of_trans {A} (xs ys zs : list A) :
  prefix_of xs ys -> prefix_of ys zs -> prefix_of xs zs.
Proof.
  intros [r1 ->] [r2 ->]. exists (r1 ++ r2). now rewrite app_assoc.
Qed.

Lemma prefix_of_app {A} (xs more : list A) : prefix_of xs (xs ++ more).
Proof. now exists more. Qed.

Lemma same_campaign_or_sent_refl (row : campaign) : same_campaign_or_sent row row.
Proof. unfold same_campaign_or_sent. tauto. Qed.

Lemma same_campaign_or_sent_trans (a b c : campaign) :
  same_campaign_or_sent a b -> same_campaign_or_sent b c ->
  same_campaign_or_sent a c.
Proof.
  unfold same_campaign_or_sent.
  intros (A1 & A2 & A3 & A4 & A5 & A6 & A7) (B1 & B2 & B3 & B4 & B5 & B6 & B7).
  repeat split; try congruence.
  destruct B7 as [B7|B7]; [|now right].
  destruct A7 as [A7|A7]; [left | right]; congruence.
Qed.

Lemma Forall2_same_refl (rows : list campaign) :
  Forall2 same_campaign_or_sent rows rows.
Proof.
  induction rows; constructor; [apply same_campaign_or_sent_refl | assumption].
Qed.

Lemma Forall2_same_trans (xs ys zs : list campaign) :
  Forall2 same_campaign_or_sent xs ys -> Forall2 same_campaign_or_sent ys zs ->
  Forall2 same_campaign_or_sent xs zs.
Proof.
  intros H; revert zs; induction H as [|x y xs ys Hxy _ IH]; intros zs Hz.
  - inversion Hz. constructor.
  - inversion Hz as [|y' z ys' zs' Hyz Hrest]; subst.
    constructor; [now apply (same_campaign_or_sent_trans Hxy) | now apply IH].
Qed.

Lemma continues_refl (s : state) : continues s s.
Proof.
  repeat split; try apply prefix_of_refl.
  exists (load_campaigns s), []. split; [now rewrite app_nil_r|].
  apply Forall2_same_refl.
Qed.

Lemma continues_trans (s1 s2 s3 : state) :
  continues s1 s2 -> continues s2 s3 -> continues s1 s3.
Proof.
  intros (A1 & A2 & A3 & rows & more & A4 & A5)
         (B1 & B2 & B3 & rows' & more' & B4 & B5).
  split; [congruence|]. split; [now apply (prefix_of_trans A2)|].
  split; [now apply (prefix_of_trans A3)|].
  rewrite A4 in B5. apply Forall2_app_inv_l in B5.
  destruct B5 as (r1 & r2 & H1 & H2 & ->).
  exists r1, (r2 ++ more'). split; [now rewrite B4, app_assoc|].
  now apply (Forall2_same_trans A5).
Qed.

Lemma advances_ret {A} (a : A) : advances (ret a).
Proof. intros e s. apply continues_refl. Qed.

Lemma advances_bind {A B} (m : M A) (k : A -> M B) :
  advances m -> (forall a, advances (k a)) -> advances (bind m k).
Proof.
  intros Hm Hk e s. unfold bind.
  specialize (Hm e s). destruct (m e s) as [a s1]. simpl in Hm.
  apply (continues_trans Hm). apply Hk.
Qed.

Lemma advances_for_each {A} (xs : list A) (body : A -> M unit) :
  (forall x, advances (body x)) -> advances (for_each xs body).
Proof.
  intros Hbody. induction xs as [|x xs IH]; simpl.
  - apply advances_ret.
  - apply advances_bind; [apply Hbody | intros _; exact IH].
Qed.

Lemma advances_get_state : advances get_state.
Proof. intros e s. apply continues_refl. Qed.

Lemma advances_create_segment (seg_name : string) (r : rules) :
  advances (create_segment seg_name r).
Proof.
  intros e s. rewrite create_segment_run.
  unfold continues, load_segments, load_events, load_campaigns. proj_state.
  split; [reflexivity|]. split; [apply prefix_of_app|].
  split; [apply prefix_of_refl|].
  eexists _, []. split; [now rewrite app_nil_r | apply Forall2_same_refl].
Qed.

Lemma advances_create_campaign (cname seg_id date subj text : string) :
  advances (create_campaign cname seg_id date subj text).
Proof.
  intros e s. rewrite create_campaign_run.
  unfold continues, load_segments, load_events. proj_state.
  split; [reflexivity|]. split; [apply prefix_of_refl|].
  split; [apply prefix_of_refl|].
  eexists _, _. split; [reflexivity | apply Forall2_same_refl].
Qed.

Lemma advances_create_event (cid : Py.value) (cust ty : string) :
  advances (create_event cid cust ty).
Proof.
  intros e s. rewrite create_event_run.
  unfold continues, load_segments, load_campaigns. proj_state.
  split; [reflexivity|]. split; [apply prefix_of_refl|].
  split; [rewrite load_events_mkState; apply prefix_of_app|].
  eexists _, []. split; [now rewrite app_nil_r | apply Forall2_same_refl].
Qed.

Lemma advances_random_random : advances random_random.
Proof.
  intros e s. unfold random_random, continues, load_segments, load_events,
    load_campaigns. proj_state.
  split; [reflexivity|]. split; [apply prefix_of_refl|].
  split; [apply prefix_of_refl|].
  eexists _, []. split; [now rewrite app_nil_r | apply Forall2_same_refl].
Qed.

Lemma rewrite_status_same_or_sent (rows : list campaign) (cid : Py.value) :
  Forall2 same_campaign_or_sent rows (rewrite_status rows cid "sent").
Proof.
  rewrite rewrite_status_map. induction rows as [|row rows IH]; simpl;
    constructor; try assumption.
  destruct (String.eqb _ _); [|apply same_campaign_or_sent_refl].
  unfold same_campaign_or_sent, set_status; simpl. tauto.
Qed.

Lemma advances_update_to_sent (cid : Py.value) :
  advances (update_campaign_status cid "sent").
Proof.
  intros e s. rewrite update_campaign_status_run.
  unfold continues, load_segments, load_events, load_campaigns. proj_state.
  split; [reflexivity|]. split; [apply prefix_of_refl|].
  split; [apply prefix_of_refl|].
  destruct (campaigns_csv s) as [rows|]; simpl.
  - eexists _, []. split; [now rewrite app_nil_r|].
    apply rewrite_status_same_or_sent.
  - exists [], []. split; [reflexivity | constructor].
Qed.

Ltac advances_step :=
  cbv beta;
  match goal with
  | |- advances (bind _ _) => apply advances_bind; [|intros ?]
  | |- advances (if ?b then _ else _) => destruct b
  | |- advances (match ?o with Some _ => _ | None => _ end) => destruct o
  | |- advances (create_event _ _ _) => apply advances_create_event
  | |- advances (create_segment _ _) => apply advances_create_segment
  | |- advances (create_campaign _ _ _ _ _) => apply advances_create_campaign
  | |- advances (update_campaign_status _ "sent") => apply advances_update_to_sent
  | |- advances (for_each _ _) => apply advances_for_each; intros ?
  | |- advances random_random => apply advances_random_random
  | |- advances get_state => apply advances_get_state
  | |- advances (ret _) => apply advances_ret
  end.

Lemma advances_send_to_customer (cid : Py.value) (c : customer) :
  advances (send_to_customer cid c).
Proof. unfold send_to_customer. repeat advances_step. Qed.

Lemma advances_send_campaign (cid : Py.value) : advances (send_campaign cid).
Proof.
  unfold send_campaign. repeat advances_step.
  apply advances_send_to_customer.
Qed.

Lemma advances_run_operation (o : operation) : advances (run_operation o).
Proof.
  destruct o; simpl; repeat advances_step; apply advances_send_campaign.
Qed.

Lemma Forall2_nth_error {A B} (R : A -> B -> Prop) (xs : list A) (ys : list B)
  (i : nat) (x : A) :
  Forall2 R xs ys -> nth_error xs i = Some x ->
  exists y, nth_error ys i = Some y /\ R x y.
Proof.
  intros H; revert i; induction H as [|a b xs ys Hab _ IH]; intros i Hi.
  - destruct i; discriminate.
  - destruct i as [|i]; simpl in *.
    + injection Hi as <-. now exists b.
    + now apply IH.
Qed.

(** X5. Whatever operations one writer runs, the store is only added
    to: the customers are never touched, the segments and the events there
    were stay the first segments and events, in their order and unchanged,
    and every campaign row stays at its place with every field but the
    status unchanged; the status of a campaign either stays or becomes
    ["sent"], so a campaign that is [sent] stays [sent]. *)
Theorem store_history_append_only :
  forall (ops : list operation) (e : env) (s : state),
    let s' := snd (run_operations ops e s) in
    customers_csv s' = customers_csv s
    /\ prefix_of (load_segments s) (load_segments s')
    /\ prefix_of (load_events s) (load_events s')
    /\ List.length (load_campaigns s) <= List.length (load_campaigns s')
    /\ (forall i row,
          nth_error (load_campaigns s) i = Some row ->
          exists row',
            nth_error (load_campaigns s') i = Some row'
            /\ same_campaign_or_sent row row'
            /\ (status row = "sent" -> status row' = "sent")).
Proof.
  intros ops e s s'.
  assert (H : continues s s').
  { apply (@advances_for_each _ ops run_operation advances_run_operation e s). }
  destruct H as (H1 & H2 & H3 & rows & more & H4 & H5).
  split; [exact H1|]. split; [exact H2|]. split; [exact H3|]. split.
  - rewrite H4, length_app, <- (Forall2_length H5). lia.
  - intros i row Hi.
    destruct (Forall2_nth_error i H5 Hi) as (row' & Hrow' & HR).
    exists row'. split.
    + rewrite H4, nth_error_app1; [exact Hrow'|].
      apply nth_error_Some. congruence.
    + split; [exact HR|]. intros Hsent.
      destruct HR as (_ & _ & _ & _ & _ & _ & [Hs|Hs]); congruence.
Qed.

Lemma store_history_append_only_witness :
  nth_error (load_campaigns Fixture.mid_history) 0
  = Some (mkCampaign "1" "Test Campaign 1" "1" "2024-12-01" "sent" "Test" "Test")
  /\ exists row',
      nth_error
        (load_campaigns
           (snd (run_operations
                   [SendCampaign (Py.VInt 1); SendCampaign (Py.VInt 2);
                    CreateCampaign "Third" "1" "2024-12-03" "C" "C"]
                   Sample.mixed Fixture.mid_history))) 0
      = Some row'
      /\ same_campaign_or_sent
           (mkCampaign "1" "Test Campaign 1" "1" "2024-12-01" "sent" "Test" "Test")
           row'
      /\ (status
            (mkCampaign "1" "Test Campaign 1" "1" "2024-12-01" "sent" "Test" "Test")
          = "sent" -> status row' = "sent").
Proof.
  split; [reflexivity|].
  apply (store_history_append_only
           [SendCampaign (Py.VInt 1); SendCampaign (Py.VInt 2);
            CreateCampaign "Third" "1" "2024-12-03" "C" "C"]
           Sample.mixed Fixture.mid_history).
  reflexivity.
Defined.

Lemma count_sent_same_or_sent (xs ys : list campaign) :
  Forall2 same_campaign_or_sent xs ys ->
  List.length (filter (fun c => String.eqb (status c) "sent") xs)
  <= List.length (filter (fun c => String.eqb (status c) "sent") ys).
Proof.
  induction 1 as [|x y xs ys Hxy _ IH]; simpl; [lia|].
  destruct Hxy as (_ & _ & _ & _ & _ & _ & [Hs|Hs]); rewrite Hs.
  - destruct (String.eqb (status x) "sent"); simpl; lia.
  - simpl. destruct (String.eqb (status x) "sent"); simpl; lia.
Qed.

Lemma count_sent_rewrite (rows : list campaign) (cid : Py.value) :
  List.length
    (filter (fun c => String.eqb (status c) "sent") (rewrite_status rows cid "sent"))
  = List.length (filter (fun c => String.eqb (status c) "sent") rows)
    + List.length
        (filter (fun c => String.eqb (campaign_id c) (Py.str cid)
                          && negb (String.eqb (status c) "sent")) rows).
Proof.
  rewrite rewrite_status_map. induction rows as [|row rows IH]; simpl; [reflexivity|].
  destruct (String.eqb (campaign_id row) (Py.str cid)); simpl.
  - destruct (String.eqb (status row) "sent"); simpl; lia.
  - destruct (String.eqb (status row) "sent"); simpl; lia.
Qed.

Lemma find_some_in_filter (rows : list campaign) (cid : Py.value) (c : campaign) :
  find (fun r => String.eqb (campaign_id r) (Py.str cid)) rows = Some c ->
  status c = "draft" ->
  1 <= List.length
         (filter (fun r => String.eqb (campaign_id r) (Py.str cid)
                           && negb (String.eqb (status r) "sent")) rows).
Proof.
  intros Hfind Hst. apply find_some in Hfind. destruct Hfind as [Hin Hid].
  assert (Hc : In c (filter (fun r => String.eqb (campaign_id r) (Py.str cid)
                                     && negb (String.eqb (status r) "sent")) rows)).
  { apply filter_In. split; [exact Hin|]. now rewrite Hid, Hst. }
  destruct (filter _ rows); [destruct Hc | simpl; lia].
Qed.

Lemma filter_id_NoDup (rows : list campaign) (camp : string) :
  NoDup (map campaign_id rows) ->
  List.length (filter (fun r => String.eqb (campaign_id r) camp) rows) <= 1.
Proof.
  induction rows as [|row rows IH]; simpl; intros Hnd; [lia|].
  inversion Hnd as [|x xs Hnotin Hnd']; subst.
  destruct (String.eqb_spec (campaign_id row) camp) as [Heq|Hne]; simpl.
  - assert (Hnone : filter (fun r => String.eqb (campaign_id r) camp) rows = []).
    { destruct (filter _ rows) as [|r rs] eqn:E; [reflexivity|].
      exfalso. apply Hnotin.
      assert (Hr : In r (filter (fun r => String.eqb (campaign_id r) camp) rows))
        by (rewrite E; now left).
      apply filter_In in Hr. destruct Hr as [Hr Hid].
      apply String.eqb_eq in Hid. rewrite Heq, <- Hid. now apply in_map. }
    rewrite Hnone. simpl. lia.
  - now apply IH.
Qed.

Lemma filter_and_le {A} (p q : A -> bool) (xs : list A) :
  List.length (filter (fun x => p x && q x) xs) <= List.length (filter p xs).
Proof.
  induction xs as [|x xs IH]; simpl; [lia|].
  destruct (p x), (q x); simpl; lia.
Qed.

(** X6. The counters of the dashboard never go down under the
    operations of one writer, and the number of customers never changes;
    sending a campaign that is a draft raises the number of active
    campaigns, by exactly one when the campaign ids are distinct, and
    leaves the other three counters as they were. *)
Theorem dashboard_counters_monotone :
  forall (e : env) (s : state),
    (forall ops,
        total_customers (dashboard_counters (snd (run_operations ops e s)))
        = total_customers (dashboard_counters s)
        /\ total_segments (dashboard_counters s)
           <= total_segments (dashboard_counters (snd (run_operations ops e s)))
        /\ total_campaigns (dashboard_counters s)
           <= total_campaigns (dashboard_counters (snd (run_operations ops e s)))
        /\ active_campaigns (dashboard_counters s)
           <= active_campaigns (dashboard_counters (snd (run_operations ops e s))))
    /\ (forall cid c,
          get_campaign_by_id s cid = Some c ->
          status c = "draft" ->
          active_campaigns (dashboard_counters s) + 1
          <= active_campaigns (dashboard_counters (snd (send_campaign cid e s)))
          /\ (NoDup (map campaign_id (load_campaigns s)) ->
              active_campaigns (dashboard_counters (snd (send_campaign cid e s)))
              = active_campaigns (dashboard_counters s) + 1)
          /\ total_customers (dashboard_counters (snd (send_campaign cid e s)))
             = total_customers (dashboard_counters s)
          /\ total_segments (dashboard_counters (snd (send_campaign cid e s)))
             = total_segments (dashboard_counters s)
          /\ total_campaigns (dashboard_counters (snd (send_campaign cid e s)))
             = total_campaigns (dashboard_counters s)).
Proof.
  intros e s. split.
  - intros ops.
    assert (H : continues s (snd (run_operations ops e s))).
    { apply (@advances_for_each _ ops run_operation advances_run_operation e s). }
    destruct H as (H1 & [r2 H2] & _ & rows & more & H4 & H5).
    unfold dashboard_counters; simpl. unfold load_customers.
    rewrite H1, H2, H4, filter_app, !length_app, <- (Forall2_length H5).
    pose proof (count_sent_same_or_sent H5). repeat split; lia.
  - intros cid c Hget Hst.
    destruct (send_campaign_draft cid e s Hget Hst)
      as (blocks & _ & Hcu & Hse & Hca & _ & _).
    unfold dashboard_counters; simpl.
    unfold load_customers, load_segments, load_campaigns.
    rewrite Hcu, Hse, Hca.
    unfold get_campaign_by_id, load_campaigns in Hget.
    destruct (campaigns_csv s) as [rows|]; simpl in *; [|discriminate].
    rewrite count_sent_rewrite.
    pose proof (@find_some_in_filter rows cid c Hget Hst) as Hone.
    split; [lia|]. split.
    + intros Hnd.
      pose proof (@filter_id_NoDup rows (Py.str cid) Hnd) as Hmost.
      pose proof (filter_and_le
                    (fun r => String.eqb (campaign_id r) (Py.str cid))
                    (fun r => negb (String.eqb (status r) "sent")) rows) as Hle.
      simpl in Hle. lia.
    + rewrite rewrite_status_map, length_map. repeat split.
Qed.

Lemma dashboard_counters_monotone_witness :
  get_campaign_by_id Sample.with_draft (Py.VStr "1") = Some Sample.draft1
  /\ status Sample.draft1 = "draft"
  /\ active_campaigns (dashboard_counters Sample.with_draft) + 1
     <= active_campaigns
          (dashboard_counters
             (snd (send_campaign (Py.VStr "1") Sample.mixed Sample.with_draft))).
Proof.
  split; [reflexivity|]. split; [reflexivity|].
  apply (proj2 (dashboard_counters_monotone Sample.mixed Sample.with_draft)
           (Py.VStr "1") Sample.draft1); reflexivity.
Defined.

(** ** Creation and lookup *)

Lemma find_snoc {A} (p : A -> bool) (xs : list A) (x : A) :
  find p (xs ++ [x])
  = match find p xs with
    | Some y => Some y
    | None => if p x then Some x else None
    end.
Proof.
  induction xs as [|y xs IH]; simpl; [reflexivity|].
  destruct (p y); [reflexivity | exact IH].
Qed.

Lemma sequential_ids_fresh (ids : list string) :
  sequential_ids ids -> ~ In (Py.str_nat (List.length ids + 1)) ids.
Proof.
  unfold sequential_ids. generalize (List.length ids). intros n Hseq Hin.
  subst ids. apply in_map_iff in Hin. destruct Hin as (k & Hk & Hin).
  apply str_nat_injective in Hk. apply in_seq in Hin. lia.
Qed.

Lemma find_absent {A} (p : A -> bool) (xs : list A) :
  (forall x, In x xs -> p x = false) -> find p xs = None.
Proof.
  induction xs as [|y xs IH]; simpl; intros H; [reflexivity|].
  rewrite (H y) by now left. apply IH. intros x Hx. apply H. now right.
Qed.

Lemma get_campaign_after_create (cname seg_id date subj text : string) (e : env)
  (s : state) (cid : Py.value) :
  get_campaign_by_id (snd (create_campaign cname seg_id date subj text e s)) cid
  = match get_campaign_by_id s cid with
    | Some c => Some c
    | None =>
        if String.eqb (Py.str_nat (List.length (load_campaigns s) + 1)) (Py.str cid)
        then Some (mkCampaign (Py.str_nat (List.length (load_campaigns s) + 1))
                     cname seg_id date "draft" subj text)
        else None
    end.
Proof.
  rewrite create_campaign_run. unfold get_campaign_by_id at 1.
  unfold load_campaigns at 1. proj_state. now rewrite find_snoc.
Qed.

Lemma get_campaign_fresh (s : state) :
  sequential_ids (map campaign_id (load_campaigns s)) ->
  get_campaign_by_id s (Py.VStr (Py.str_nat (List.length (load_campaigns s) + 1)))
  = None.
Proof.
  intros Hseq. unfold get_campaign_by_id. apply find_absent. intros c Hc. simpl.
  apply String.eqb_neq. intros Heq.
  apply (sequential_ids_fresh Hseq). rewrite length_map, <- Heq.
  now apply in_map.
Qed.

Lemma get_segment_after_create (seg_name : string) (r : rules) (e : env)
  (s : state) (sid : Py.value) :
  get_segment_by_id (snd (create_segment seg_name r e s)) sid
  = match get_segment_by_id s sid with
    | Some g => Some g
    | None =>
        if String.eqb (Py.str_nat (List.length (load_segments s) + 1)) (Py.str sid)
        then Some (mkSegment (Py.str_nat (List.length (load_segments s) + 1))
                     seg_name r)
        else None
    end.
Proof.
  rewrite create_segment_run. unfold get_segment_by_id at 1.
  unfold load_segments at 1. proj_state. now rewrite find_snoc.
Qed.

Lemma get_segment_fresh (s : state) :
  sequential_ids (map segment_id (load_segments s)) ->
  get_segment_by_id s (Py.VStr (Py.str_nat (List.length (load_segments s) + 1)))
  = None.
Proof.
  intros Hseq. unfold get_segment_by_id. apply find_absent. intros g Hg. simpl.
  apply String.eqb_neq. intros Heq.
  apply (sequential_ids_fresh Hseq). rewrite length_map, <- Heq.
  now apply in_map.
Qed.

(** X7. After [create_campaign], looking a campaign up by id finds what
    it found before, and finds the new campaign, a draft with the fields
    given, where it found none and the id asked for is the new one; when
    the ids of the collection are ["1"], ["2"], ... the id returned is
    new, so looking it up yields the campaign just created. Nothing else
    in the store changes. *)
Theorem create_campaign_then_lookup :
  forall (cname seg_id date subj text : string) (e : env) (s : state),
    let new_id := fst (create_campaign cname seg_id date subj text e s) in
    let s' := snd (create_campaign cname seg_id date subj text e s) in
    let row := mkCampaign new_id cname seg_id date "draft" subj text in
    (forall cid,
        get_campaign_by_id s' cid
        = match get_campaign_by_id s cid with
          | Some c => Some c
          | None => if String.eqb new_id (Py.str cid) then Some row else None
          end)
    /\ (sequential_ids (map campaign_id (load_campaigns s)) ->
        get_campaign_by_id s (Py.VStr new_id) = None
        /\ get_campaign_by_id s' (Py.VStr new_id) = Some row)
    /\ customers_csv s' = customers_csv s
    /\ segments_csv s' = segments_csv s
    /\ events_csv s' = events_csv s.
Proof.
  intros cname seg_id date subj text e s. cbv zeta.
  split; [|split].
  - intros cid. rewrite get_campaign_after_create.
    now rewrite create_campaign_run.
  - intros Hseq. rewrite get_campaign_after_create.
    rewrite create_campaign_run. cbn [fst].
    rewrite (get_campaign_fresh s Hseq). simpl. now rewrite String.eqb_refl.
  - rewrite create_campaign_run. repeat split.
Qed.

Lemma create_campaign_then_lookup_witness :
  sequential_ids (map campaign_id (load_campaigns Sample.with_draft))
  /\ get_campaign_by_id
       (snd (create_campaign "Second" "1" "2024-12-02" "B" "B" Sample.mixed
               Sample.with_draft))
       (Py.VStr (fst (create_campaign "Second" "1" "2024-12-02" "B" "B"
                        Sample.mixed Sample.with_draft)))
     = Some (mkCampaign
               (fst (create_campaign "Second" "1" "2024-12-02" "B" "B"
                       Sample.mixed Sample.with_draft))
               "Second" "1" "2024-12-02" "draft" "B" "B").
Proof.
  split; [reflexivity|].
  apply (create_campaign_then_lookup "Second" "1" "2024-12-02" "B" "B" Sample.mixed
           Sample.with_draft).
  reflexivity.
Defined.

(** X8. After [create_segment], looking a segment up by id finds what it
    found before, and the new segment with the rules given where it found
    none and the id asked for is the new one; when the ids of the
    collection are ["1"], ["2"], ... looking the returned id up yields the
    new segment, and counting its customers counts the customers that
    match the rules given. *)
Theorem create_segment_then_lookup :
  forall (seg_name : string) (r : rules) (e : env) (s : state),
    let new_id := fst (create_segment seg_name r e s) in
    let s' := snd (create_segment seg_name r e s) in
    let row := mkSegment new_id seg_name r in
    (forall sid,
        get_segment_by_id s' sid
        = match get_segment_by_id s sid with
          | Some g => Some g
          | None => if String.eqb new_id (Py.str sid) then Some row else None
          end)
    /\ (sequential_ids (map segment_id (load_segments s)) ->
        get_segment_by_id s' (Py.VStr new_id) = Some row)
    /\ count_customers_in_segment s' row
       = List.length (filter (fun c => match_customer_rules c r) (load_customers s))
    /\ customers_csv s' = customers_csv s
    /\ campaigns_csv s' = campaigns_csv s
    /\ events_csv s' = events_csv s.
Proof.
  intros seg_name r e s. cbv zeta.
  split; [|split; [|split]].
  - intros sid. rewrite get_segment_after_create.
    now rewrite create_segment_run.
  - intros Hseq. rewrite get_segment_after_create.
    rewrite create_segment_run. cbn [fst].
    rewrite (get_segment_fresh s Hseq). simpl. now rewrite String.eqb_refl.
  - rewrite create_segment_run. unfold count_customers_in_segment. simpl.
    now rewrite filter_customers_by_segment_filter.
  - rewrite create_segment_run. repeat split.
Qed.

Lemma create_segment_then_lookup_witness :
  sequential_ids (map segment_id (load_segments Sample.fresh))
  /\ get_segment_by_id
       (snd (create_segment "Seniors" (only_min_age 40) Sample.mixed Sample.fresh))
       (Py.VStr (fst (create_segment "Seniors" (only_min_age 40) Sample.mixed
                        Sample.fresh)))
     = Some (mkSegment
               (fst (create_segment "Seniors" (only_min_age 40) Sample.mixed
                       Sample.fresh))
               "Seniors" (only_min_age 40)).
Proof.
  split; [reflexivity|].
  apply (create_segment_then_lookup "Seniors" (only_min_age 40) Sample.mixed
           Sample.fresh).
  reflexivity.
Defined.

Lemma get_segment_after_create_campaign (cname seg_id date subj text : string)
  (e : env) (s : state) (sid : Py.value) :
  get_segment_by_id (snd (create_campaign cname seg_id date subj text e s)) sid
  = get_segment_by_id s sid.
Proof. now rewrite create_campaign_run. Qed.

(** X9. In a store whose ids are ["1"], ["2"], ..., a segment created
    with some rules and then a campaign created for the id that
    [create_segment] returned: the campaign resolves to the customers that
    match these rules, in the order of the customer file, and sending it
    returns their number, whatever the random source. *)
Theorem new_campaign_reaches_new_segment :
  forall (seg_name cname date subj text : string) (r : rules) (e e' : env)
         (s : state),
    ids_sequential s ->
    let seg_id := fst (create_segment seg_name r e s) in
    let s1 := snd (create_segment seg_name r e s) in
    let camp_id := fst (create_campaign cname seg_id date subj text e s1) in
    let s2 := snd (create_campaign cname seg_id date subj text e s1) in
    get_campaign_customers s2 (Py.VStr camp_id)
    = filter (fun c => match_customer_rules c r) (load_customers s)
    /\ fst (send_campaign (Py.VStr camp_id) e' s2)
       = List.length (filter (fun c => match_customer_rules c r) (load_customers s))
    /\ fst (send_campaign (Py.VStr camp_id) e' s2)
       = count_customers_in_segment s1 (mkSegment seg_id seg_name r).
Proof.
  intros seg_name cname date subj text r e e' s (Hseg & Hcamp & _). cbv zeta.
  set (s1 := snd (create_segment seg_name r e s)).
  set (seg_id := fst (create_segment seg_name r e s)).
  set (s2 := snd (create_campaign cname seg_id date subj text e s1)).
  set (camp_id := fst (create_campaign cname seg_id date subj text e s1)).
  assert (Hcamps1 : load_campaigns s1 = load_campaigns s)
    by (unfold s1; now rewrite create_segment_run).
  assert (Hcust1 : load_customers s1 = load_customers s)
    by (unfold s1; now rewrite create_segment_run).
  assert (Hcust2 : load_customers s2 = load_customers s1)
    by (unfold s2; now rewrite create_campaign_run).
  assert (Hid : camp_id = Py.str_nat (List.length (load_campaigns s1) + 1))
    by (unfold camp_id; now rewrite create_campaign_run).
  assert (Hsid : seg_id = Py.str_nat (List.length (load_segments s) + 1))
    by (unfold seg_id; now rewrite create_segment_run).
  assert (Hget : get_campaign_by_id s2 (Py.VStr camp_id)
                 = Some (mkCampaign camp_id cname seg_id date "draft" subj text)).
  { unfold s2. rewrite get_campaign_after_create, Hid.
    rewrite get_campaign_fresh by (now rewrite Hcamps1).
    simpl. now rewrite String.eqb_refl. }
  assert (Hsegm : get_segment_by_id s2 (Py.VStr seg_id)
                  = Some (mkSegment seg_id seg_name r)).
  { unfold s2. rewrite get_segment_after_create_campaign.
    unfold s1. rewrite get_segment_after_create, Hsid.
    rewrite (get_segment_fresh s Hseg). simpl. now rewrite String.eqb_refl. }
  assert (Haud : get_campaign_customers s2 (Py.VStr camp_id)
                 = filter (fun c => match_customer_rules c r) (load_customers s)).
  { unfold get_campaign_customers. rewrite Hget. simpl. rewrite Hsegm. simpl.
    now rewrite filter_customers_by_segment_filter, Hcust2, Hcust1. }
  destruct (send_campaign_draft (Py.VStr camp_id) e' s2 Hget eq_refl)
    as (blocks & Hn & _).
  split; [exact Haud|]. split; [now rewrite Hn, Haud|].
  rewrite Hn, Haud. unfold count_customers_in_segment. simpl.
  now rewrite filter_customers_by_segment_filter, Hcust1.
Qed.

Lemma new_campaign_reaches_new_segment_witness :
  ids_sequential Sample.fresh
  /\ get_campaign_customers
       (snd (create_campaign "Hello"
               (fst (create_segment "Seniors" (only_min_age 30) Sample.mixed
                       Sample.fresh))
               "2024-12-01" "Hi" "Text" Sample.mixed
               (snd (create_segment "Seniors" (only_min_age 30) Sample.mixed
                       Sample.fresh))))
       (Py.VStr
          (fst (create_campaign "Hello"
                  (fst (create_segment "Seniors" (only_min_age 30) Sample.mixed
                          Sample.fresh))
                  "2024-12-01" "Hi" "Text" Sample.mixed
                  (snd (create_segment "Seniors" (only_min_age 30) Sample.mixed
                          Sample.fresh)))))
     = filter (fun c => match_customer_rules c (only_min_age 30))
         (load_customers Sample.fresh).
Proof.
  split.
  - repeat split.
  - apply (new_campaign_reaches_new_segment "Seniors" "Hello" "2024-12-01" "Hi"
             "Text" (only_min_age 30) Sample.mixed Sample.mixed (s := Sample.fresh)).
    repeat split.
Defined.

(** ** The aggregate reports *)

Lemma all_metrics_loop_acc (s : state) (rows : list campaign)
  (acc : list campaign_metrics) :
  fold_left
    (fun metrics_list c =>
       metrics_list
       ++ [mkCampaignMetrics (get_campaign_metrics s (Py.VStr (campaign_id c)))
             (name c) (status c)])
    rows acc
  = acc ++ map (fun c =>
                  mkCampaignMetrics
                    (get_campaign_metrics s (Py.VStr (campaign_id c)))
                    (name c) (status c)) rows.
Proof.
  revert acc; induction rows as [|c rows IH]; intros acc; simpl.
  - now rewrite app_nil_r.
  - rewrite IH. now rewrite <- app_assoc.
Qed.

Lemma get_all_campaign_metrics_map (s : state) :
  get_all_campaign_metrics s
  = map (fun c =>
           mkCampaignMetrics (get_campaign_metrics s (Py.VStr (campaign_id c)))
             (name c) (status c))
        (load_campaigns s).
Proof. unfold get_all_campaign_metrics. now rewrite all_metrics_loop_acc. Qed.

Lemma count_events_cons (camp ty : string) (ev : event) (events : list event) :
  count_events camp ty (ev :: events)
  = (if String.eqb (event_campaign_id ev) camp && String.eqb (event_type ev) ty
     then 1 else 0)
    + count_events camp ty events.
Proof. unfold count_events. simpl. now destruct (_ && _). Qed.

Lemma count_type_cons (ty : string) (ev : event) (events : list event) :
  count_type (ev :: events) ty
  = (if String.eqb (event_type ev) ty then 1 else 0) + count_type events ty.
Proof. unfold count_type. simpl. now destruct (String.eqb _ _). Qed.

Lemma count_events_le_count_type (camp ty : string) (events : list event) :
  count_events camp ty events <= count_type events ty.
Proof.
  induction events as [|ev events IH].
  - unfold count_events, count_type; simpl; lia.
  - rewrite count_events_cons, count_type_cons.
    destruct (String.eqb (event_campaign_id ev) camp),
      (String.eqb (event_type ev) ty); simpl; lia.
Qed.

Lemma list_sum_map_add {A} (f g : A -> nat) (xs : list A) :
  list_sum (map (fun x => f x + g x) xs)
  = list_sum (map f xs) + list_sum (map g xs).
Proof. induction xs as [|x xs IH]; simpl; [reflexivity | rewrite IH; lia]. Qed.

Lemma hits_absent (x : string) (b : bool) (ids : list string) :
  ~ In x ids ->
  list_sum (map (fun id => if String.eqb x id && b then 1 else 0) ids) = 0.
Proof.
  induction ids as [|id ids IH]; simpl; intros Hnot; [reflexivity|].
  destruct (String.eqb_spec x id) as [Heq|Hne]; [exfalso; apply Hnot; now left|].
  simpl. apply IH. tauto.
Qed.

Lemma hits_NoDup (x : string) (b : bool) (ids : list string) :
  NoDup ids ->
  list_sum (map (fun id => if String.eqb x id && b then 1 else 0) ids)
  <= (if b then 1 else 0)
  /\ (In x ids ->
      list_sum (map (fun id => if String.eqb x id && b then 1 else 0) ids)
      = if b then 1 else 0).
Proof.
  induction 1 as [|id ids Hnotin Hnd IH]; simpl.
  - split; [destruct b; lia | tauto].
  - destruct (String.eqb_spec x id) as [Heq|Hne]; simpl.
    + subst id. rewrite (@hits_absent x b ids Hnotin). split; [destruct b; lia|].
      intros _. destruct b; lia.
    + destruct IH as [IH1 IH2]. split; [exact IH1|].
      intros [Hx|Hx]; [congruence | now apply IH2].
Qed.

Lemma per_campaign_counts_sum (ty : string) (events : list event)
  (ids : list string) :
  NoDup ids ->
  list_sum (map (fun id => count_events id ty events) ids) <= count_type events ty
  /\ ((forall ev, In ev events -> In (event_campaign_id ev) ids) ->
      list_sum (map (fun id => count_events id ty events) ids)
      = count_type events ty).
Proof.
  intros Hnd. induction events as [|ev events [IH1 IH2]].
  - assert (Hz : list_sum (map (fun id => count_events id ty []) ids) = 0)
      by (clear; induction ids; simpl; [reflexivity | exact IHids]).
    rewrite Hz. split; [lia | reflexivity].
  - assert (Hsplit :
      list_sum (map (fun id => count_events id ty (ev :: events)) ids)
      = list_sum
          (map (fun id => if String.eqb (event_campaign_id ev) id
                             && String.eqb (event_type ev) ty then 1 else 0) ids)
        + list_sum (map (fun id => count_events id ty events) ids)).
    { rewrite <- list_sum_map_add. f_equal. apply map_ext. intros id.
      apply count_events_cons. }
    rewrite Hsplit, count_type_cons.
    destruct (@hits_NoDup (event_campaign_id ev) (String.eqb (event_type ev) ty)
                ids Hnd)
      as [H1 H2].
    split; [lia|].
    intros Hcover. rewrite H2 by (apply Hcover; now left).
    rewrite IH2; [reflexivity|]. intros ev' Hin. apply Hcover. now right.
Qed.

(** X10. [get_all_campaign_metrics] returns one entry for each campaign
    row, in the order of the rows, with the name and the status of the row
    and the metrics of its id. When the campaign ids are distinct, each of
    the four columns adds up to at most the total of
    [get_overall_metrics], and to exactly that total when every event
    carries the id of a campaign in the list. *)
Theorem campaign_report_adds_up :
  forall (s : state),
    List.length (get_all_campaign_metrics s) = List.length (load_campaigns s)
    /\ (forall i c,
          nth_error (load_campaigns s) i = Some c ->
          nth_error (get_all_campaign_metrics s) i
          = Some (mkCampaignMetrics
                    (get_campaign_metrics s (Py.VStr (campaign_id c)))
                    (name c) (status c)))
    /\ (NoDup (map campaign_id (load_campaigns s)) ->
        let column f := list_sum (map (fun cm => f (campaign_counts cm))
                                     (get_all_campaign_metrics s)) in
        column sent <= total_sent (get_overall_metrics s)
        /\ column opened <= total_opened (get_overall_metrics s)
        /\ column clicked <= total_clicked (get_overall_metrics s)
        /\ column converted <= total_converted (get_overall_metrics s)
        /\ ((forall ev, In ev (load_events s) ->
                        In (event_campaign_id ev)
                           (map campaign_id (load_campaigns s))) ->
            column sent = total_sent (get_overall_metrics s)
            /\ column opened = total_opened (get_overall_metrics s)
            /\ column clicked = total_clicked (get_overall_metrics s)
            /\ column converted = total_converted (get_overall_metrics s))).
Proof.
  intros s. rewrite get_all_campaign_metrics_map.
  split; [apply length_map|]. split.
  - intros i c Hi. now rewrite nth_error_map, Hi.
  - intros Hnd. cbv beta zeta.
    assert (Hcol : forall ty (f : metrics -> nat),
              (forall cid, f (get_campaign_metrics s cid)
                           = count_events (Py.str cid) ty (load_events s)) ->
              map (fun cm => f (campaign_counts cm))
                  (map (fun c =>
                          mkCampaignMetrics
                            (get_campaign_metrics s (Py.VStr (campaign_id c)))
                            (name c) (status c))
                       (load_campaigns s))
              = map (fun id => count_events id ty (load_events s))
                  (map campaign_id (load_campaigns s))).
    { intros ty f Hf. rewrite !map_map. apply map_ext. intros c. simpl.
      now rewrite Hf. }
    rewrite (Hcol "sent" sent), (Hcol "opened" opened), (Hcol "clicked" clicked),
      (Hcol "converted" converted)
      by (intros cid; apply (metrics_count_events s cid)).
    destruct (@per_campaign_counts_sum "sent" (load_events s) _ Hnd) as [S1 S2].
    destruct (@per_campaign_counts_sum "opened" (load_events s) _ Hnd) as [O1 O2].
    destruct (@per_campaign_counts_sum "clicked" (load_events s) _ Hnd) as [K1 K2].
    destruct (@per_campaign_counts_sum "converted" (load_events s) _ Hnd) as [V1 V2].
    unfold get_overall_metrics; simpl.
    repeat split; try assumption; auto.
Qed.

Lemma campaign_report_adds_up_witness :
  NoDup (map campaign_id (load_campaigns Fixture.mid_history))
  /\ list_sum (map (fun cm => sent (campaign_counts cm))
                 (get_all_campaign_metrics Fixture.mid_history))
     <= total_sent (get_overall_metrics Fixture.mid_history).
Proof.
  assert (Hnd : NoDup (map campaign_id (load_campaigns Fixture.mid_history))).
  { simpl. constructor; [simpl; intros [H|[]]; discriminate|].
    constructor; [simpl; tauto | constructor]. }
  split; [exact Hnd|].
  apply (proj2 (proj2 (campaign_report_adds_up Fixture.mid_history)) Hnd).
Defined.

(** X11. [get_overall_metrics] counts every event of each of the four
    types, whatever campaign id it carries, so no campaign has a count
    above the total of its type; an event of any other type is counted
    nowhere; and the three overall rates are the integer 0 exactly when
    there is no [sent] event. *)
Theorem overall_metrics_cover_all_events :
  forall (s : state),
    let o := get_overall_metrics s in
    (forall cid,
        sent (get_campaign_metrics s cid) <= total_sent o
        /\ opened (get_campaign_metrics s cid) <= total_opened o
        /\ clicked (get_campaign_metrics s cid) <= total_clicked o
        /\ converted (get_campaign_metrics s cid) <= total_converted o)
    /\ total_sent o + total_opened o + total_clicked o + total_converted o
       <= List.length (load_events s)
    /\ (total_sent o = 0 <->
        overall_open_rate o = Py.NInt 0 /\ overall_click_rate o = Py.NInt 0
        /\ overall_conversion_rate o = Py.NInt 0).
Proof.
  intros s. cbv zeta. split; [|split].
  - intros cid. destruct (metrics_count_events s cid) as (A1 & A2 & A3 & A4).
    rewrite A1, A2, A3, A4. unfold get_overall_metrics; simpl.
    repeat split; apply count_events_le_count_type.
  - unfold get_overall_metrics; simpl.
    induction (load_events s) as [|ev events IH].
    + unfold count_type; simpl; lia.
    + rewrite !count_type_cons. simpl List.length.
      destruct (String.eqb_spec (event_type ev) "sent") as [->|]; simpl; [lia|].
      destruct (String.eqb_spec (event_type ev) "opened") as [->|]; simpl; [lia|].
      destruct (String.eqb_spec (event_type ev) "clicked") as [->|]; simpl; [lia|].
      destruct (String.eqb (event_type ev) "converted"); lia.
  - unfold get_overall_metrics; simpl. unfold rate.
    destruct (count_type (load_events s) "sent") as [|n]; simpl.
    + split; [intros _; repeat split | reflexivity].
    + split; [discriminate | intros (H & _); discriminate].
Qed.

(** ** Reading the customer and segment files *)

Lemma read_customer_rows_spec (py_int : string -> option Z)
  (py_float : string -> option float) (rows : list customer_row)
  (acc : list customer) :
  exists good rest read,
    rows = good ++ rest
    /\ read_customer_rows py_int py_float rows acc = acc ++ read
    /\ Forall2 (fun row c => convert_customer py_int py_float row = Some c) good read
    /\ (rest = []
        \/ exists bad rest',
             rest = bad :: rest' /\ convert_customer py_int py_float bad = None).
Proof.
  revert acc; induction rows as [|row rows IH]; intros acc; simpl.
  - exists [], [], [].
    split; [reflexivity|]. split; [now rewrite app_nil_r|].
    split; [constructor | now left].
  - destruct (convert_customer py_int py_float row) as [c|] eqn:Hc.
    + destruct (IH (acc ++ [c])) as (good & rest & read & H1 & H2 & H3 & H4).
      exists (row :: good), rest, (c :: read).
      split; [simpl; now rewrite H1|]. split; [now rewrite H2, <- app_assoc|].
      split; [now constructor | exact H4].
    + exists [], (row :: rows), [].
      split; [reflexivity|]. split; [now rewrite app_nil_r|].
      split; [constructor|]. right. now exists row, rows.
Qed.

(** X12. [load_customers] returns no customer when the file is missing;
    otherwise it converts the rows in order and stops at the first row
    whose [age] or [total_spent] does not convert: that row and every row
    after it are left out, without an error. A row whose [age] is absent
    or empty gets the age 0, and so every row converts when no row has a
    text that [int] or [float] rejects. *)
Theorem load_customers_stops_at_first_bad_row :
  forall (py_int : string -> option Z) (py_float : string -> option float),
    load_customers_from py_int py_float None = []
    /\ (forall rows,
          exists good rest,
            rows = good ++ rest
            /\ Forall2 (fun row c => convert_customer py_int py_float row = Some c)
                 good (load_customers_from py_int py_float (Some rows))
            /\ (rest = []
                \/ exists bad rest',
                     rest = bad :: rest'
                     /\ convert_customer py_int py_float bad = None))
    /\ (forall rows,
          List.length (load_customers_from py_int py_float (Some rows))
          <= List.length rows)
    /\ (forall row c,
          convert_customer py_int py_float row = Some c ->
          (row_age row = None \/ row_age row = Some EmptyString -> age c = 0%Z)
          /\ (row_total_spent row = None
              \/ row_total_spent row = Some EmptyString ->
              total_spent c = 0%float)
          /\ customer_id c = row_customer_id row
          /\ location c = row_location row)
    /\ (forall rows,
          (forall row, In row rows ->
             convert_age py_int row <> None
             /\ convert_total_spent py_float row <> None) ->
          List.length (load_customers_from py_int py_float (Some rows))
          = List.length rows).
Proof.
  intros py_int py_float. split; [reflexivity|].
  assert (Hspec : forall rows,
            exists good rest,
              rows = good ++ rest
              /\ Forall2 (fun row c => convert_customer py_int py_float row = Some c)
                   good (load_customers_from py_int py_float (Some rows))
              /\ (rest = []
                  \/ exists bad rest',
                       rest = bad :: rest'
                       /\ convert_customer py_int py_float bad = None)).
  { intros rows. simpl.
    destruct (read_customer_rows_spec py_int py_float rows [])
      as (good & rest & read & H1 & H2 & H3 & H4).
    exists good, rest. rewrite H2. simpl. auto. }
  split; [exact Hspec|]. split; [|split].
  - intros rows. destruct (Hspec rows) as (good & rest & H1 & H2 & _).
    rewrite <- (Forall2_length H2), H1, length_app. lia.
  - intros row c Hc. unfold convert_customer in Hc.
    destruct (convert_age py_int row) as [a|] eqn:Ha; [|discriminate].
    destruct (convert_total_spent py_float row) as [t|] eqn:Ht; [|discriminate].
    injection Hc as <-. simpl. repeat split.
    + unfold convert_age in Ha. intros [H|H]; rewrite H in Ha; simpl in Ha;
        congruence.
    + unfold convert_total_spent in Ht. intros [H|H]; rewrite H in Ht; simpl in Ht;
        congruence.
  - intros rows Hall. destruct (Hspec rows) as (good & rest & H1 & H2 & H3).
    destruct H3 as [->|(bad & rest' & -> & Hbad)].
    + rewrite app_nil_r in H1. subst good. symmetry. apply (Forall2_length H2).
    + exfalso. destruct (Hall bad) as [Ha Ht].
      { rewrite H1. apply in_or_app. right. now left. }
      unfold convert_customer in Hbad.
      destruct (convert_age py_int bad); [|congruence].
      destruct (convert_total_spent py_float bad); [discriminate | congruence].
Qed.

Lemma load_segments_from_map (json_loads : string -> option rules)
  (rows : list segment_row) :
  load_segments_from json_loads (Some rows) = map (convert_segment json_loads) rows.
Proof.
  simpl.
  assert (H : forall acc,
            fold_left (fun segments row => segments ++ [convert_segment json_loads row])
              rows acc
            = acc ++ map (convert_segment json_loads) rows).
  { induction rows as [|row rows IH]; intros acc; simpl.
    - now rewrite app_nil_r.
    - rewrite IH. now rewrite <- app_assoc. }
  apply (H []).
Qed.

(** X13. [load_segments] returns one segment for each row of the file,
    in order and with the id and the name of the row, also for a row whose
    [rules_json] does not parse: such a segment has the empty rule-set, so
    filtering by it returns every customer. *)
Theorem load_segments_keeps_rows_with_bad_json :
  forall (json_loads : string -> option rules) (rows : list segment_row),
    let segments := load_segments_from json_loads (Some rows) in
    load_segments_from json_loads None = []
    /\ map segment_id segments = map row_segment_id rows
    /\ map segment_name segments = map row_segment_name rows
    /\ (forall i row,
          nth_error rows i = Some row ->
          exists seg,
            nth_error segments i = Some seg
            /\ (forall r, json_loads (rules_json row) = Some r ->
                          segment_rules seg = r)
            /\ (json_loads (rules_json row) = None ->
                segment_rules seg = no_rules
                /\ forall customers,
                     filter_customers_by_segment customers (segment_rules seg)
                     = customers)).
Proof.
  intros json_loads rows. cbv zeta. rewrite load_segments_from_map.
  split; [reflexivity|]. split; [|split].
  - rewrite map_map. reflexivity.
  - rewrite map_map. reflexivity.
  - intros i row Hi. exists (convert_segment json_loads row).
    split; [now rewrite nth_error_map, Hi|]. unfold convert_segment; simpl.
    split.
    + intros r Hr. now rewrite Hr.
    + intros Hbad. rewrite Hbad. split; [reflexivity|].
      intros customers. rewrite filter_customers_by_segment_filter.
      apply filter_all_true. intros c. apply match_no_rules.
Qed.

(** ** Dictionaries *)

Lemma dict_get_set_same {V} (d : Dict.t V) (k : string) (v : V) :
  Dict.get (Dict.set d k v) k = Some v.
Proof.
  induction d as [|[k' v'] d IH]; simpl.
  - now rewrite String.eqb_refl.
  - destruct (String.eqb k' k) eqn:E; simpl; rewrite E; [reflexivity | exact IH].
Qed.

Lemma dict_get_set_other {V} (d : Dict.t V) (k k' : string) (v : V) :
  k <> k' -> Dict.get (Dict.set d k v) k' = Dict.get d k'.
Proof.
  intros Hne. induction d as [|[k0 v0] d IH]; simpl.
  - apply String.eqb_neq in Hne. now rewrite Hne.
  - destruct (String.eqb_spec k0 k) as [->|Hk]; simpl.
    + apply String.eqb_neq in Hne. now rewrite Hne.
    + destruct (String.eqb k0 k'); [reflexivity | exact IH].
Qed.

(** ** The list of campaigns *)

Lemma segment_lookup_acc (segments : list segment) (d : Dict.t string) (k : string) :
  Dict.get
    (fold_left (fun d seg => Dict.set d (segment_id seg) (segment_name seg))
       segments d) k
  = match find (fun g => String.eqb (segment_id g) k) (rev segments) with
    | Some g => Some (segment_name g)
    | None => Dict.get d k
    end.
Proof.
  revert d; induction segments as [|g segments IH]; intros d; simpl.
  - reflexivity.
  - rewrite IH, find_snoc.
    destruct (find _ (rev segments)); [reflexivity|].
    destruct (String.eqb_spec (segment_id g) k) as [->|Hne].
    + apply dict_get_set_same.
    + now apply dict_get_set_other.
Qed.

Lemma find_rev_unique (segments : list segment) (k : string) :
  NoDup (map segment_id segments) ->
  find (fun g => String.eqb (segment_id g) k) (rev segments)
  = find (fun g => String.eqb (segment_id g) k) segments.
Proof.
  induction segments as [|g segments IH]; simpl; intros Hnd; [reflexivity|].
  inversion Hnd as [|x xs Hnotin Hnd']; subst.
  rewrite find_snoc.
  destruct (String.eqb_spec (segment_id g) k) as [Heq|Hne].
  - rewrite find_absent; [reflexivity|].
    intros g' Hg'. apply String.eqb_neq. intros Heq'.
    apply Hnotin. rewrite Heq, <- Heq'. apply in_map. now apply in_rev.
  - rewrite IH by assumption. now destruct (find _ segments).
Qed.

Lemma find_rev_none {A} (p : A -> bool) (xs : list A) :
  find p xs = None -> find p (rev xs) = None.
Proof.
  intros H. apply find_absent. intros x Hx. apply in_rev in Hx.
  apply (find_none p xs H x Hx).
Qed.

Lemma campaigns_view_map (s : state) :
  campaigns_view s
  = map (fun c => (c, Dict.get_default (segment_lookup (load_segments s))
                        (campaign_segment_id c) "Unknown"))
        (load_campaigns s).
Proof.
  unfold campaigns_view.
  assert (H : forall rows acc,
            fold_left
              (fun shown c =>
                 shown ++ [(c, Dict.get_default (segment_lookup (load_segments s))
                                 (campaign_segment_id c) "Unknown")])
              rows acc
            = acc ++ map (fun c => (c, Dict.get_default
                                         (segment_lookup (load_segments s))
                                         (campaign_segment_id c) "Unknown")) rows).
  { induction rows as [|c rows IH]; intros acc; simpl.
    - now rewrite app_nil_r.
    - rewrite IH. now rewrite <- app_assoc. }
  apply (H (load_campaigns s) []).
Qed.

(** X14. The list of campaigns shows the campaigns in file order, each
    with a segment name: ["Unknown"] when no segment has the campaign's
    [segment_id], otherwise the name of the last segment of the file with
    that id; when the segment ids are distinct this is the segment that
    [get_segment_by_id] returns and the audience is resolved from. *)
Theorem campaigns_view_segment_names :
  forall (s : state),
    map fst (campaigns_view s) = load_campaigns s
    /\ (forall c shown,
          In (c, shown) (campaigns_view s) ->
          shown
          = match find (fun g => String.eqb (segment_id g) (campaign_segment_id c))
                    (rev (load_segments s)) with
            | Some g => segment_name g
            | None => "Unknown"
            end
          /\ (get_segment_by_id s (Py.VStr (campaign_segment_id c)) = None ->
              shown = "Unknown")
          /\ (NoDup (map segment_id (load_segments s)) ->
              forall g,
                get_segment_by_id s (Py.VStr (campaign_segment_id c)) = Some g ->
                shown = segment_name g)).
Proof.
  intros s. rewrite campaigns_view_map. split.
  - rewrite map_map. simpl. apply map_id.
  - intros c shown Hin. apply in_map_iff in Hin.
    destruct Hin as (c' & Heq & _). injection Heq as -> <-.
    assert (Hshown :
      Dict.get_default (segment_lookup (load_segments s)) (campaign_segment_id c)
        "Unknown"
      = match find (fun g => String.eqb (segment_id g) (campaign_segment_id c))
                (rev (load_segments s)) with
        | Some g => segment_name g
        | None => "Unknown"
        end).
    { unfold Dict.get_default, segment_lookup. rewrite segment_lookup_acc.
      now destruct (find _ (rev (load_segments s))). }
    split; [exact Hshown|]. rewrite Hshown. unfold get_segment_by_id. simpl.
    split.
    + intros Hnone. now rewrite (@find_rev_none _ _ (load_segments s) Hnone).
    + intros Hnd g Hg.
      now rewrite (@find_rev_unique (load_segments s) (campaign_segment_id c) Hnd), Hg.
Qed.

Lemma campaigns_view_segment_names_witness :
  In (Sample.bad_campaign, "Unknown") (campaigns_view Sample.dangling)
  /\ get_segment_by_id Sample.dangling
       (Py.VStr (campaign_segment_id Sample.bad_campaign)) = None
  /\ "Unknown"
     = match find (fun g => String.eqb (segment_id g)
                              (campaign_segment_id Sample.bad_campaign))
               (rev (load_segments Sample.dangling)) with
       | Some g => segment_name g
       | None => "Unknown"
       end.
Proof.
  assert (Hin : In (Sample.bad_campaign, "Unknown") (campaigns_view Sample.dangling))
    by (left; reflexivity).
  split; [exact Hin|]. split; [reflexivity|].
  exact (proj1 (proj2 (campaigns_view_segment_names Sample.dangling)
                  Sample.bad_campaign "Unknown" Hin)).
Defined.

(** ** Authentication *)

Lemma dict_mem_get {V} (d : Dict.t V) (k : string) :
  Dict.mem d k = true <-> exists v, Dict.get d k = Some v.
Proof.
  unfold Dict.mem. destruct (Dict.get d k) as [v|].
  - split; [intros _; now exists v | reflexivity].
  - split; [discriminate | intros [v H]; discriminate].
Qed.

(** X15. [authenticate_user] accepts a pair exactly when it is the
    default pair of the configuration or the pair of some row of
    [users.csv]; so the default pair is accepted whatever the user file
    holds, and without a user file nothing else is. *)
Theorem authenticate_user_accepts :
  forall (a : app) (uname pwd : string),
    (authenticate_user a uname pwd = true
     <-> (uname = DEFAULT_USERNAME (app_config a)
          /\ pwd = DEFAULT_PASSWORD (app_config a))
         \/ (exists rows row,
               users_csv a = Some rows /\ In row rows
               /\ username row = uname /\ password row = pwd))
    /\ (forall users,
          authenticate_user (mkApp (app_config a) users)
            (DEFAULT_USERNAME (app_config a)) (DEFAULT_PASSWORD (app_config a))
          = true)
    /\ (users_csv a = None ->
        (authenticate_user a uname pwd = true
         <-> uname = DEFAULT_USERNAME (app_config a)
             /\ pwd = DEFAULT_PASSWORD (app_config a))).
Proof.
  intros a uname pwd.
  assert (Hiff : authenticate_user a uname pwd = true
                 <-> (uname = DEFAULT_USERNAME (app_config a)
                      /\ pwd = DEFAULT_PASSWORD (app_config a))
                     \/ (exists rows row,
                           users_csv a = Some rows /\ In row rows
                           /\ username row = uname /\ password row = pwd)).
  { unfold authenticate_user.
    destruct (String.eqb_spec uname (DEFAULT_USERNAME (app_config a))) as [Hu|Hu];
      destruct (String.eqb_spec pwd (DEFAULT_PASSWORD (app_config a))) as [Hp|Hp];
      simpl; try (split; [intros _; now left | reflexivity]).
    all: destruct (users_csv a) as [rows|];
      [rewrite existsb_exists | ]; split.
    all: try (intros (row & Hin & Hrow); apply andb_true_iff in Hrow;
              destruct Hrow as [H1 H2]; apply String.eqb_eq in H1;
              apply String.eqb_eq in H2; right; now exists rows, row).
    all: try (intros [[H1 H2] | (rows' & row & [= <-] & Hin & H1 & H2)];
              [congruence|]; exists row; split; [exact Hin|];
              now rewrite H1, H2, !String.eqb_refl).
    all: try discriminate.
    all: intros [[H1 H2] | (rows' & row & Hrows & _)]; congruence. }
  split; [exact Hiff|]. split.
  - intros users. unfold authenticate_user; simpl. now rewrite !String.eqb_refl.
  - intros Hnone. rewrite Hiff. split.
    + intros [H | (rows & row & Hrows & _)]; [exact H | congruence].
    + intros H. now left.
Qed.

Lemma authenticate_user_accepts_witness :
  users_csv (mkApp Config None) = None
  /\ (authenticate_user (mkApp Config None) "admin" "password" = true
      <-> "admin" = DEFAULT_USERNAME (app_config (mkApp Config None))
          /\ "password" = DEFAULT_PASSWORD (app_config (mkApp Config None))).
Proof.
  split; [reflexivity|].
  apply (authenticate_user_accepts (mkApp Config None) "admin" "password").
  reflexivity.
Defined.

(** X16. [login] stores a [user_id] in a session that had none only for
    a POST whose stripped user name and unstripped password
    [authenticate_user] accepts, and then stores that name under
    [user_id] and [username] and redirects to the [next] argument of the
    request when it is a non-empty text, whatever it is, else to the
    dashboard; every other request leaves the session as it was. A
    session that has a [user_id] is never changed and is sent to the
    dashboard without a look at the form. *)
Theorem login_stores_only_authenticated_users :
  forall (a : app) (req : request) (session : Dict.t string),
    let uname := Text.strip (Dict.get_default (form req) "username" EmptyString) in
    let pwd := Dict.get_default (form req) "password" EmptyString in
    let r := login a req session in
    (Dict.mem session "user_id" = true ->
       reply_session r = session
       /\ reply_response r = redirect (url_for "marketing.dashboard" []))
    /\ (Dict.mem session "user_id" = false ->
        (Dict.mem (reply_session r) "user_id" = true
         <-> method req = "POST" /\ authenticate_user a uname pwd = true)
        /\ (Dict.mem (reply_session r) "user_id" = true ->
            Dict.get (reply_session r) "user_id" = Some uname
            /\ Dict.get (reply_session r) "username" = Some uname
            /\ reply_response r
               = redirect
                   match Dict.get (args req) "next" with
                   | Some page =>
                       if Py.truthy_str page then url page
                       else url_for "marketing.dashboard" []
                   | None => url_for "marketing.dashboard" []
                   end)
        /\ (Dict.mem (reply_session r) "user_id" = false ->
            reply_session r = session
            /\ reply_response r = render_template "login.html" no_context)).
Proof.
  intros a req session. cbv zeta. unfold login.
  destruct (Dict.mem session "user_id") eqn:Hmem.
  - split; [intros _; split; reflexivity | discriminate].
  - split; [discriminate|]. intros _.
    destruct (String.eqb_spec (method req) "POST") as [Hpost|Hget].
    + destruct (authenticate_user a _ _) eqn:Hauth; simpl.
      * assert (Hid : Dict.get
                        (Dict.set
                           (Dict.set session "user_id"
                              (Text.strip
                                 (Dict.get_default (form req) "username"
                                    EmptyString)))
                           "username"
                           (Text.strip
                              (Dict.get_default (form req) "username" EmptyString)))
                        "user_id"
                      = Some (Text.strip
                                (Dict.get_default (form req) "username"
                                   EmptyString))).
        { rewrite dict_get_set_other by discriminate. apply dict_get_set_same. }
        unfold Dict.mem. rewrite Hid.
        split; [tauto|]. split; [|discriminate].
        intros _. split; [reflexivity|].
        split; [apply dict_get_set_same | reflexivity].
      * rewrite Hmem. split; [split; [discriminate | intros [_ H]; discriminate]|].
        split; [discriminate | intros _; split; reflexivity].
    + simpl. rewrite Hmem.
      split; [split; [discriminate | intros [H _]; congruence]|].
      split; [discriminate | intros _; split; reflexivity].
Qed.

Lemma login_stores_only_authenticated_users_witness :
  Dict.mem ([] : Dict.t string) "user_id" = false
  /\ (Dict.mem
        (reply_session
           (login (mkApp Config None)
              (mkRequest "POST" [("username", " admin "); ("password", "password")]
                 [("next", "/campaigns")] "/auth/login")
              []))
        "user_id" = true
      <-> method (mkRequest "POST"
                    [("username", " admin "); ("password", "password")]
                    [("next", "/campaigns")] "/auth/login") = "POST"
          /\ authenticate_user (mkApp Config None)
               (Text.strip
                  (Dict.get_default
                     (form (mkRequest "POST"
                              [("username", " admin "); ("password", "password")]
                              [("next", "/campaigns")] "/auth/login"))
                     "username" EmptyString))
               (Dict.get_default
                  (form (mkRequest "POST"
                           [("username", " admin "); ("password", "password")]
                           [("next", "/campaigns")] "/auth/login"))
                  "password" EmptyString)
             = true).
Proof.
  split; [reflexivity|].
  apply (login_stores_only_authenticated_users (mkApp Config None)
           (mkRequest "POST" [("username", " admin "); ("password", "password")]
              [("next", "/campaigns")] "/auth/login") []).
  reflexivity.
Defined.

(** X17. A view under [login_required] runs only when the session has a
    [user_id]: otherwise the answer is a redirect to the login page that
    carries the URL asked for, the same whatever the view is. After
    [logout] every session is refused, and after a [login] that accepted
    the credentials the view runs on the session that [login] left. *)
Theorem login_required_guards_views :
  forall (R : Type) (f g : request -> Dict.t string -> R) (a : app)
         (req first : request) (session : Dict.t string),
    (Dict.mem session "user_id" = false ->
       login_required f req session
       = inl (redirect (url_for "auth.login" [("next", request_url req)]))
       /\ (forall r, login_required f req session <> inr r)
       /\ login_required g req session
          = inl (redirect (url_for "auth.login" [("next", request_url req)])))
    /\ (Dict.mem session "user_id" = true ->
        login_required f req session = inr (f req session))
    /\ login_required f req (reply_session (logout session))
       = inl (redirect (url_for "auth.login" [("next", request_url req)]))
    /\ (method first = "POST" ->
        authenticate_user a
          (Text.strip (Dict.get_default (form first) "username" EmptyString))
          (Dict.get_default (form first) "password" EmptyString) = true ->
        login_required f req (reply_session (login a first session))
        = inr (f req (reply_session (login a first session)))).
Proof.
  intros R f g a req first session. unfold login_required.
  split; [|split; [|split]].
  - intros ->. simpl. repeat split. discriminate.
  - now intros ->.
  - reflexivity.
  - intros Hpost Hauth.
    assert (Hmem : Dict.mem (reply_session (login a first session)) "user_id" = true).
    { unfold login. destruct (Dict.mem session "user_id") eqn:Hm; [exact Hm|].
      rewrite Hpost, Hauth. simpl. unfold Dict.mem.
      rewrite dict_get_set_other by discriminate.
      now rewrite dict_get_set_same. }
    now rewrite Hmem.
Qed.

Lemma login_required_guards_views_witness :
  Dict.mem [("user_id", "admin")] "user_id" = true
  /\ login_required (fun _ session => List.length session)
       (mkRequest "GET" [] [] "/dashboard") [("user_id", "admin")]
     = inr 1.
Proof.
  split; [reflexivity|].
  exact (proj1 (proj2 (login_required_guards_views
                         (fun _ session => List.length session)
                         (fun _ _ => 0) (mkApp Config None)
                         (mkRequest "GET" [] [] "/dashboard")
                         (mkRequest "GET" [] [] "/auth/login")
                         [("user_id", "admin")]))
           eq_refl).
Defined.

(** ** The views that write *)

(** X18. [send_campaign_route] tells three cases apart: a campaign that
    does not exist and a campaign that is not a draft give an error and a
    warning and leave the store untouched; a draft is sent, the message
    names the size of its audience, and the same request once more gives
    the warning and changes nothing. *)
Theorem send_campaign_route_outcomes :
  forall (cid : string) (e e' : env) (s : state),
    let detail :=
      redirect (url_for "marketing.campaign_detail" [("campaign_id", cid)]) in
    let warning := (detail, [("Campaign has already been sent", "warning")]) in
    (get_campaign_by_id s (Py.VStr cid) = None ->
       send_campaign_route cid e s
       = ((redirect (url_for "marketing.campaigns" []),
           [("Campaign not found", "error")]), s))
    /\ (forall c,
          get_campaign_by_id s (Py.VStr cid) = Some c -> status c <> "draft" ->
          send_campaign_route cid e s = (warning, s))
    /\ (forall c,
          get_campaign_by_id s (Py.VStr cid) = Some c -> status c = "draft" ->
          fst (send_campaign_route cid e s)
          = (detail,
             [(("Campaign sent to "
                ++ Py.str_nat (List.length (get_campaign_customers s (Py.VStr cid)))
                ++ " customers!")%string, "success")])
          /\ snd (send_campaign_route cid e s)
             = snd (send_campaign (Py.VStr cid) e s)
          /\ send_campaign_route cid e' (snd (send_campaign_route cid e s))
             = (warning, snd (send_campaign_route cid e s))).
Proof.
  intros cid e e' s. cbv zeta. split; [|split].
  - intros Hnone. unfold send_campaign_route, bind, get_state, ret.
    now rewrite Hnone.
  - intros c Hget Hst. unfold send_campaign_route, bind, get_state, ret.
    rewrite Hget. destruct (String.eqb_spec (status c) "draft"); [congruence|].
    reflexivity.
  - intros c Hget Hst.
    assert (Hrun : send_campaign_route cid e s
                   = ((redirect (url_for "marketing.campaign_detail"
                                   [("campaign_id", cid)]),
                       [(("Campaign sent to "
                          ++ Py.str_nat (fst (send_campaign (Py.VStr cid) e s))
                          ++ " customers!")%string, "success")]),
                      snd (send_campaign (Py.VStr cid) e s))).
    { unfold send_campaign_route, bind, get_state, ret.
      rewrite Hget, Hst. simpl.
      now destruct (send_campaign (Py.VStr cid) e s) as [count s1]. }
    rewrite Hrun. cbn [fst snd].
    destruct (send_campaign_draft (Py.VStr cid) e s Hget Hst) as (blocks & Hn & _).
    rewrite Hn. split; [reflexivity|]. split; [reflexivity|].
    unfold send_campaign_route, bind, get_state, ret.
    rewrite (get_campaign_after_send (Py.VStr cid) e s Hget Hst).
    reflexivity.
Qed.

Lemma send_campaign_route_outcomes_witness :
  get_campaign_by_id Sample.with_draft (Py.VStr "1") = Some Sample.draft1
  /\ status Sample.draft1 = "draft"
  /\ fst (send_campaign_route "1" Sample.mixed Sample.with_draft)
     = (redirect (url_for "marketing.campaign_detail" [("campaign_id", "1")]),
        [(("Campaign sent to "
           ++ Py.str_nat
                (List.length (get_campaign_customers Sample.with_draft (Py.VStr "1")))
           ++ " customers!")%string, "success")]).
Proof.
  split; [reflexivity|]. split; [reflexivity|].
  exact (proj1 (proj2 (proj2 (send_campaign_route_outcomes "1" Sample.mixed
                                Sample.mixed Sample.with_draft))
                  Sample.draft1 eq_refl eq_refl)).
Defined.

Lemma all_true_five (a b c d f : string) :
  Text.all_true [a; b; c; d; f] = true
  <-> a <> EmptyString /\ b <> EmptyString /\ c <> EmptyString
      /\ d <> EmptyString /\ f <> EmptyString.
Proof.
  unfold Text.all_true. simpl.
  rewrite !andb_true_iff, !truthy_str_spec. tauto.
Qed.

(** X19. [new_campaign] adds a campaign exactly for a POST whose five
    fields are all non-empty once stripped of surrounding white space;
    the row added is a draft that holds the stripped fields, numbered
    after the campaigns there were, and its segment id is taken as it is,
    whether a segment has it or not. Any other request renders the form
    with the segments and changes nothing. *)
Theorem new_campaign_requires_every_field :
  forall (req : request) (e : env) (s : state),
    let field k := Text.strip (Dict.get_default (form req) k EmptyString) in
    let complete :=
      field "name" <> EmptyString /\ field "segment_id" <> EmptyString
      /\ field "start_date" <> EmptyString /\ field "subject" <> EmptyString
      /\ field "body" <> EmptyString in
    (method req = "POST" /\ complete ->
       snd (new_campaign req e s)
       = snd (create_campaign (field "name") (field "segment_id")
                (field "start_date") (field "subject") (field "body") e s)
       /\ load_campaigns (snd (new_campaign req e s))
          = load_campaigns s
            ++ [mkCampaign (Py.str_nat (List.length (load_campaigns s) + 1))
                  (field "name") (field "segment_id") (field "start_date")
                  "draft" (field "subject") (field "body")]
       /\ fst (fst (new_campaign req e s))
          = redirect (url_for "marketing.campaigns" []))
    /\ (~ (method req = "POST" /\ complete) ->
        snd (new_campaign req e s) = s
        /\ fst (fst (new_campaign req e s))
           = render_template "campaign_form.html"
               (context_segments (load_segments s)))
    /\ (load_campaigns (snd (new_campaign req e s)) <> load_campaigns s
        <-> method req = "POST" /\ complete).
Proof.
  intros req e s. cbv zeta.
  set (cname := Text.strip (Dict.get_default (form req) "name" EmptyString)).
  set (seg := Text.strip (Dict.get_default (form req) "segment_id" EmptyString)).
  set (date := Text.strip (Dict.get_default (form req) "start_date" EmptyString)).
  set (subj := Text.strip (Dict.get_default (form req) "subject" EmptyString)).
  set (text := Text.strip (Dict.get_default (form req) "body" EmptyString)).
  assert (Hyes : method req = "POST"
                 /\ (cname <> EmptyString /\ seg <> EmptyString
                     /\ date <> EmptyString /\ subj <> EmptyString
                     /\ text <> EmptyString) ->
                 new_campaign req e s
                 = ((redirect (url_for "marketing.campaigns" []),
                     [(("Campaign " ++ String (ascii_of_nat 34) cname
                        ++ String (ascii_of_nat 34) " created successfully!")%string,
                       "success")]),
                    snd (create_campaign cname seg date subj text e s))).
  { intros [Hpost Hall]. apply all_true_five in Hall.
    unfold new_campaign, bind, get_state, ret. rewrite Hpost.
    fold cname seg date subj text. rewrite Hall. simpl. reflexivity. }
  assert (Hno : ~ (method req = "POST"
                   /\ (cname <> EmptyString /\ seg <> EmptyString
                       /\ date <> EmptyString /\ subj <> EmptyString
                       /\ text <> EmptyString)) ->
                snd (new_campaign req e s) = s
                /\ fst (fst (new_campaign req e s))
                   = render_template "campaign_form.html"
                       (context_segments (load_segments s))).
  { intros Hnot. unfold new_campaign, bind, get_state, ret.
    destruct (String.eqb_spec (method req) "POST") as [Hpost|Hget];
      [|split; reflexivity].
    fold cname seg date subj text.
    destruct (Text.all_true [cname; seg; date; subj; text]) eqn:Hall;
      [|split; reflexivity].
    exfalso. apply Hnot. split; [exact Hpost | now apply all_true_five]. }
  split; [|split].
  - intros H. rewrite (Hyes H). cbn [fst snd].
    split; [reflexivity|]. split; [|reflexivity].
    now rewrite create_campaign_run.
  - exact Hno.
  - split.
    + intros Hchanged.
      destruct (String.eqb_spec (method req) "POST") as [Hpost|Hget].
      * destruct (Text.all_true [cname; seg; date; subj; text]) eqn:Hall.
        -- split; [exact Hpost | now apply all_true_five].
        -- exfalso. apply Hchanged.
           destruct Hno as [Hs _]; [|now rewrite Hs].
           intros [_ Hc]. apply all_true_five in Hc. congruence.
      * exfalso. apply Hchanged.
        destruct Hno as [Hs _]; [tauto | now rewrite Hs].
    + intros H. rewrite (Hyes H). cbn [snd]. rewrite create_campaign_run.
      unfold load_campaigns at 1. proj_state. intros Heq.
      apply (f_equal (@List.length campaign)) in Heq.
      rewrite length_app in Heq. simpl in Heq. lia.
Qed.

Lemma new_campaign_requires_every_field_witness :
  ~ (method (mkRequest "POST" [("name", "  "); ("segment_id", "1")] [] "/campaigns/new")
     = "POST"
     /\ (Text.strip (Dict.get_default
                       (form (mkRequest "POST" [("name", "  "); ("segment_id", "1")]
                                [] "/campaigns/new")) "name" EmptyString)
         <> EmptyString
         /\ Text.strip (Dict.get_default
                          (form (mkRequest "POST"
                                   [("name", "  "); ("segment_id", "1")] []
                                   "/campaigns/new")) "segment_id" EmptyString)
            <> EmptyString
         /\ Text.strip (Dict.get_default
                          (form (mkRequest "POST"
                                   [("name", "  "); ("segment_id", "1")] []
                                   "/campaigns/new")) "start_date" EmptyString)
            <> EmptyString
         /\ Text.strip (Dict.get_default
                          (form (mkRequest "POST"
                                   [("name", "  "); ("segment_id", "1")] []
                                   "/campaigns/new")) "subject" EmptyString)
            <> EmptyString
         /\ Text.strip (Dict.get_default
                          (form (mkRequest "POST"
                                   [("name", "  "); ("segment_id", "1")] []
                                   "/campaigns/new")) "body" EmptyString)
            <> EmptyString))
  /\ snd (new_campaign
            (mkRequest "POST" [("name", "  "); ("segment_id", "1")] []
               "/campaigns/new")
            Sample.mixed Sample.fresh)
     = Sample.fresh.
Proof.
  assert (Hnot :
    ~ (method (mkRequest "POST" [("name", "  "); ("segment_id", "1")] []
                 "/campaigns/new") = "POST"
       /\ (Text.strip (Dict.get_default
                         (form (mkRequest "POST"
                                  [("name", "  "); ("segment_id", "1")] []
                                  "/campaigns/new")) "name" EmptyString)
           <> EmptyString
           /\ Text.strip (Dict.get_default
                            (form (mkRequest "POST"
                                     [("name", "  "); ("segment_id", "1")] []
                                     "/campaigns/new")) "segment_id" EmptyString)
              <> EmptyString
           /\ Text.strip (Dict.get_default
                            (form (mkRequest "POST"
                                     [("name", "  "); ("segment_id", "1")] []
                                     "/campaigns/new")) "start_date" EmptyString)
              <> EmptyString
           /\ Text.strip (Dict.get_default
                            (form (mkRequest "POST"
                                     [("name", "  "); ("segment_id", "1")] []
                                     "/campaigns/new")) "subject" EmptyString)
              <> EmptyString
           /\ Text.strip (Dict.get_default
                            (form (mkRequest "POST"
                                     [("name", "  "); ("segment_id", "1")] []
                                     "/campaigns/new")) "body" EmptyString)
              <> EmptyString))).
  { intros (_ & Hname & _). apply Hname. reflexivity. }
  split; [exact Hnot|].
  exact (proj1 (proj1 (proj2 (new_campaign_requires_every_field
                                (mkRequest "POST"
                                   [("name", "  "); ("segment_id", "1")] []
                                   "/campaigns/new")
                                Sample.mixed Sample.fresh))
                  Hnot)).
Defined.

(** ** Composing segment filters *)

Lemma match_customer_rules_split (c : customer) (a b : option Z) (l : option string)
  (t : option float) :
  match_customer_rules c (mkRules a b l t)
  = match_customer_rules c (mkRules a None None None)
    && match_customer_rules c (mkRules None b None None)
    && match_customer_rules c (mkRules None None l None)
    && match_customer_rules c (mkRules None None None t).
Proof.
  unfold match_customer_rules, fails_min_age, fails_max_age, fails_location,
    fails_min_total_spent; simpl.
  destruct a as [a|], b as [b|], l as [l|], t as [t|]; simpl;
    repeat match goal with
      | |- context [if ?x then _ else _] => destruct x; simpl
      end; reflexivity.
Qed.

Lemma filter_implies_subseq {A} (p q : A -> bool) (xs : list A) :
  (forall x, p x = true -> q x = true) -> subseq (filter p xs) (filter q xs).
Proof.
  intros H. induction xs as [|x xs IH]; simpl; [constructor|].
  destruct (p x) eqn:Hp.
  - rewrite (H x Hp). now constructor.
  - destruct (q x); [now constructor | exact IH].
Qed.

(** X20. Filtering by segment rules composes: filtering by one rule-set
    and then by another gives the same customers in the same order as
    the other way round, filtering twice by the same rules changes
    nothing, a rule-set with several keys filters like its keys applied
    one after the other, the result is never longer than the input, and
    raising a minimum age to a value other than zero can only remove
    customers. *)
Theorem segment_filters_compose :
  forall (customers : list customer) (r1 r2 : rules),
    filter_customers_by_segment (filter_customers_by_segment customers r1) r2
    = filter_customers_by_segment (filter_customers_by_segment customers r2) r1
    /\ filter_customers_by_segment (filter_customers_by_segment customers r1) r1
       = filter_customers_by_segment customers r1
    /\ (forall a b l t,
          filter_customers_by_segment customers (mkRules a b l t)
          = filter_customers_by_segment
              (filter_customers_by_segment
                 (filter_customers_by_segment
                    (filter_customers_by_segment customers
                       (mkRules a None None None))
                    (mkRules None b None None))
                 (mkRules None None l None))
              (mkRules None None None t))
    /\ List.length (filter_customers_by_segment customers r1)
       <= List.length customers
    /\ (forall a a',
          a' <> 0%Z -> (a <= a')%Z ->
          subseq (filter_customers_by_segment customers (only_min_age a'))
                 (filter_customers_by_segment customers (only_min_age a))).
Proof.
  intros customers r1 r2. rewrite !filter_customers_by_segment_filter.
  split; [|split; [|split; [|split]]].
  - rewrite !filter_filter. apply filter_ext. intros c. apply andb_comm.
  - rewrite filter_filter. apply filter_ext. intros c. apply andb_diag.
  - intros a b l t. rewrite !filter_customers_by_segment_filter, !filter_filter.
    apply filter_ext. intros c. cbv beta.
    rewrite (match_customer_rules_split c a b l t), <- !andb_assoc. reflexivity.
  - apply filter_length_le.
  - intros a a' Ha' Hle. rewrite !filter_customers_by_segment_filter.
    apply filter_implies_subseq. intros c.
    rewrite !match_only_min_age.
    apply truthy_int_spec in Ha'. rewrite Ha'.
    destruct (Py.truthy_int a); [|reflexivity].
    rewrite !Z.leb_le. lia.
Qed.

Lemma segment_filters_compose_witness :
  (40 <> 0)%Z /\ (30 <= 40)%Z
  /\ subseq (filter_customers_by_segment [Sample.user1; Sample.user2; Sample.user3]
               (only_min_age 40))
            (filter_customers_by_segment [Sample.user1; Sample.user2; Sample.user3]
               (only_min_age 30)).
Proof.
  split; [discriminate|]. split; [discriminate|].
  apply (segment_filters_compose [Sample.user1; Sample.user2; Sample.user3]
           no_rules no_rules); [discriminate|discriminate].
Defined.

(** ** The segment form and the campaign page *)

Lemma converted_field_spec {A} (convert : string -> option A) (text : string)
  (v : option A) :
  converted_field convert text = Some v
  <-> (text = EmptyString /\ v = None)
      \/ (text <> EmptyString /\ v <> None /\ convert text = v).
Proof.
  unfold converted_field. destruct text as [|ch rest]; simpl.
  - split.
    + intros [= <-]. now left.
    + intros [[_ ->] | [H _]]; [reflexivity | congruence].
  - destruct (convert (String ch rest)) as [x|]; split.
    + intros [= <-]. right. repeat split; discriminate.
    + intros [[H _] | (_ & _ & <-)]; [discriminate | reflexivity].
    + discriminate.
    + intros [[H _] | (_ & Hv & Hc)]; [discriminate | congruence].
Qed.

(** X21. [new_segment] stores a segment only for a POST with a name that
    is not blank and whose numeric fields, where not blank, convert; the
    rules stored have a key exactly for each field that is not blank once
    stripped, with the converted value, so a form with no rule field
    stores a segment that every customer matches; a numeric field that
    does not convert ends the view with an error and nothing is
    stored. *)
Theorem new_segment_builds_rules :
  forall (py_int : string -> option Z) (py_float : string -> option float)
         (req : request) (e : env) (s : state),
    let field k := Text.strip (Dict.get_default (form req) k EmptyString) in
    let result := new_segment py_int py_float req e s in
    (forall r,
        rules_of_form py_int py_float req = Some r ->
        (min_age r = None <-> field "min_age" = EmptyString)
        /\ (min_age r <> None -> min_age r = py_int (field "min_age"))
        /\ (max_age r = None <-> field "max_age" = EmptyString)
        /\ (max_age r <> None -> max_age r = py_int (field "max_age"))
        /\ rule_location r
           = (if Py.truthy_str (field "location") then Some (field "location")
              else None)
        /\ (min_total_spent r = None <-> field "min_total_spent" = EmptyString)
        /\ (min_total_spent r <> None ->
            min_total_spent r = py_float (field "min_total_spent")))
    /\ (forall r,
          method req = "POST" -> field "segment_name" <> EmptyString ->
          rules_of_form py_int py_float req = Some r ->
          load_segments (snd result)
          = load_segments s
            ++ [mkSegment (Py.str_nat (List.length (load_segments s) + 1))
                  (field "segment_name") r]
          /\ (field "min_age" = EmptyString -> field "max_age" = EmptyString ->
              field "location" = EmptyString ->
              field "min_total_spent" = EmptyString ->
              forall customers, filter_customers_by_segment customers r = customers))
    /\ (rules_of_form py_int py_float req = None ->
        snd result = s
        /\ (method req = "POST" -> field "segment_name" <> EmptyString ->
            fst result = None))
    /\ (method req <> "POST" \/ field "segment_name" = EmptyString ->
        snd result = s).
Proof.
  intros py_int py_float req e s. cbv zeta.
  set (fa := Text.strip (Dict.get_default (form req) "min_age" EmptyString)).
  set (fb := Text.strip (Dict.get_default (form req) "max_age" EmptyString)).
  set (fl := Text.strip (Dict.get_default (form req) "location" EmptyString)).
  set (ft := Text.strip (Dict.get_default (form req) "min_total_spent" EmptyString)).
  set (fn := Text.strip (Dict.get_default (form req) "segment_name" EmptyString)).
  assert (Hrules : forall r,
            rules_of_form py_int py_float req = Some r ->
            converted_field py_int fa = Some (min_age r)
            /\ converted_field py_int fb = Some (max_age r)
            /\ rule_location r = (if Py.truthy_str fl then Some fl else None)
            /\ converted_field py_float ft = Some (min_total_spent r)).
  { intros r. unfold rules_of_form. fold fa fb fl ft.
    destruct (converted_field py_int fa) as [a|]; [|discriminate].
    destruct (converted_field py_int fb) as [b|]; [|discriminate].
    destruct (converted_field py_float ft) as [t|]; [|discriminate].
    intros [= <-]. simpl. repeat split. }
  split; [|split; [|split]].
  - intros r Hr. destruct (Hrules r Hr) as (Ha & Hb & Hl & Ht).
    apply converted_field_spec in Ha, Hb, Ht.
    split; [|split; [|split; [|split; [|split; [exact Hl|split]]]]].
    + destruct Ha as [[H1 H2] | (H1 & H2 & H3)]; split; intros; congruence.
    + destruct Ha as [[H1 H2] | (H1 & H2 & H3)]; intros; congruence.
    + destruct Hb as [[H1 H2] | (H1 & H2 & H3)]; split; intros; congruence.
    + destruct Hb as [[H1 H2] | (H1 & H2 & H3)]; intros; congruence.
    + destruct Ht as [[H1 H2] | (H1 & H2 & H3)]; split; intros; congruence.
    + destruct Ht as [[H1 H2] | (H1 & H2 & H3)]; intros; congruence.
  - intros r Hpost Hname Hr.
    unfold new_segment, bind, ret. rewrite Hpost. fold fn.
    apply truthy_str_spec in Hname. rewrite Hname, Hr. simpl.
    split; [reflexivity|].
    intros Ea Eb El Et customers.
    destruct (Hrules r Hr) as (Ha & Hb & Hl & Ht).
    rewrite Ea in Ha. rewrite Eb in Hb. rewrite El in Hl. rewrite Et in Ht.
    simpl in Ha, Hb, Hl, Ht. injection Ha as Ha. injection Hb as Hb.
    injection Ht as Ht.
    assert (Hr0 : r = no_rules)
      by (destruct r; simpl in *; unfold no_rules; congruence).
    rewrite Hr0, filter_customers_by_segment_filter.
    apply filter_all_true. intros c. apply match_no_rules.
  - intros Hnone. unfold new_segment, bind, ret. fold fn. rewrite Hnone.
    destruct (String.eqb_spec (method req) "POST") as [Hpost|Hget].
    + destruct (Py.truthy_str fn) eqn:Hfn; simpl.
      * split; [reflexivity | intros _ _; reflexivity].
      * split; [reflexivity|]. intros _ Hname.
        apply truthy_str_spec in Hname. congruence.
    + split; [reflexivity | congruence].
  - intros Hcase. unfold new_segment, bind, ret. fold fn.
    destruct (String.eqb_spec (method req) "POST") as [Hpost|Hget];
      [|reflexivity].
    destruct Hcase as [Hm | Hname]; [congruence|].
    rewrite Hname. reflexivity.
Qed.

Lemma new_segment_builds_rules_witness :
  rules_of_form Parsers.int_of_digits Parsers.float_of_table
    (mkRequest "POST" [("segment_name", "Adults"); ("min_age", " 30 ")] []
       "/segments/new")
  = Some (only_min_age 30)
  /\ (min_age (only_min_age 30) <> None ->
      min_age (only_min_age 30)
      = Parsers.int_of_digits
          (Text.strip
             (Dict.get_default
                (form (mkRequest "POST"
                         [("segment_name", "Adults"); ("min_age", " 30 ")] []
                         "/segments/new")) "min_age" EmptyString))).
Proof.
  split; [reflexivity|].
  exact (proj1 (proj2 (proj1 (new_segment_builds_rules Parsers.int_of_digits
                                Parsers.float_of_table
                                (mkRequest "POST"
                                   [("segment_name", "Adults"); ("min_age", " 30 ")]
                                   [] "/segments/new")
                                Sample.mixed Sample.fresh)
                         (only_min_age 30) eq_refl))).
Defined.

(** X22. The page of a campaign that does not exist is a redirect with
    an error; the page of a draft shows no metrics; and once a draft,
    for whose id the store held no event, has been sent, its page shows
    the campaign as [sent], the same customers as before, and metrics
    whose [sent] count is the number of these customers. *)
Theorem campaign_detail_after_send :
  forall (cid : string) (c : campaign) (e : env) (s : state),
    get_campaign_by_id s (Py.VStr cid) = Some c ->
    status c = "draft" ->
    (exists seg,
        campaign_detail cid s
        = (render_template "campaign_detail.html"
             (context_campaign_detail c seg
                (get_campaign_customers s (Py.VStr cid)) None), []))
    /\ (exists seg m,
          campaign_detail cid (snd (send_campaign (Py.VStr cid) e s))
          = (render_template "campaign_detail.html"
               (context_campaign_detail (set_status c "sent") seg
                  (get_campaign_customers s (Py.VStr cid)) (Some m)), [])
          /\ m = get_campaign_metrics (snd (send_campaign (Py.VStr cid) e s))
                   (Py.VStr cid)
          /\ ((forall ev, In ev (load_events s) ->
                          event_campaign_id ev <> cid) ->
              sent m = List.length (get_campaign_customers s (Py.VStr cid))
              /\ converted m <= clicked m /\ clicked m <= opened m
              /\ opened m <= sent m)).
Proof.
  intros cid c e s Hget Hst. split.
  - unfold campaign_detail. rewrite Hget, Hst. simpl. eexists. reflexivity.
  - pose proof (get_campaign_after_send (Py.VStr cid) e s Hget Hst) as Hafter.
    destruct (send_campaign_draft (Py.VStr cid) e s Hget Hst)
      as (blocks & Hn & Hcu & Hse & _ & Hev & Hblocks).
    assert (Haud : get_campaign_customers (snd (send_campaign (Py.VStr cid) e s))
                     (Py.VStr cid)
                   = get_campaign_customers s (Py.VStr cid)).
    { unfold get_campaign_customers. rewrite Hafter, Hget. simpl.
      unfold get_segment_by_id, load_segments, load_customers.
      now rewrite Hse, Hcu. }
    unfold campaign_detail. rewrite Hafter, Haud. simpl.
    eexists _, _. split; [reflexivity|]. split; [reflexivity|].
    intros Hfresh.
    destruct (metrics_count_events (snd (send_campaign (Py.VStr cid) e s))
                (Py.VStr cid)) as (B1 & B2 & B3 & B4).
    rewrite Hev, count_events_app in B1, B2, B3, B4.
    rewrite count_events_absent in B1, B2, B3, B4 by exact Hfresh.
    destruct (@funnel_blocks_counts (Py.VStr cid) _ blocks (Py.str (Py.VStr cid))
                Hblocks) as (C1 & C2 & C3 & C4).
    rewrite String.eqb_refl in C1. simpl in *.
    rewrite B1, B2, B3, B4, C1 in *. repeat split; lia.
Qed.

Lemma campaign_detail_after_send_witness :
  get_campaign_by_id Sample.with_draft (Py.VStr "1") = Some Sample.draft1
  /\ status Sample.draft1 = "draft"
  /\ exists seg,
      campaign_detail "1" Sample.with_draft
      = (render_template "campaign_detail.html"
           (context_campaign_detail Sample.draft1 seg
              (get_campaign_customers Sample.with_draft (Py.VStr "1")) None), []).
Proof.
  split; [reflexivity|]. split; [reflexivity|].
  exact (proj1 (campaign_detail_after_send "1" Sample.mixed Sample.with_draft
                  (c := Sample.draft1) eq_refl eq_refl)).
Defined.

(** ** Witnesses for the readers *)

Lemma load_customers_stops_at_first_bad_row_witness :
  convert_customer Parsers.int_of_digits Parsers.float_of_table Parsers.blank_row
  = Some (mkCustomer "9" "Blank" "blank@example.com" 0 None 0 "2024-01-01")
  /\ (row_age Parsers.blank_row = None
      \/ row_age Parsers.blank_row = Some EmptyString ->
      age (mkCustomer "9" "Blank" "blank@example.com" 0 None 0 "2024-01-01") = 0%Z).
Proof.
  split; [reflexivity|].
  exact (proj1 (proj1 (proj2 (proj2 (proj2
           (load_customers_stops_at_first_bad_row Parsers.int_of_digits
              Parsers.float_of_table))))
           Parsers.blank_row
           (mkCustomer "9" "Blank" "blank@example.com" 0 None 0 "2024-01-01")
           eq_refl)).
Defined.

Lemma load_segments_keeps_rows_with_bad_json_witness :
  nth_error [mkSegmentRow "1" "Broken" "{min_age"] 0
  = Some (mkSegmentRow "1" "Broken" "{min_age")
  /\ exists seg,
      nth_error
        (load_segments_from Parsers.no_json
           (Some [mkSegmentRow "1" "Broken" "{min_age"])) 0 = Some seg
      /\ (forall r,
            Parsers.no_json (rules_json (mkSegmentRow "1" "Broken" "{min_age"))
            = Some r -> segment_rules seg = r)
      /\ (Parsers.no_json (rules_json (mkSegmentRow "1" "Broken" "{min_age")) = None ->
          segment_rules seg = no_rules
          /\ forall customers,
               filter_customers_by_segment customers (segment_rules seg) = customers).
Proof.
  split; [reflexivity|].
  exact (proj2 (proj2 (proj2
           (load_segments_keeps_rows_with_bad_json Parsers.no_json
              [mkSegmentRow "1" "Broken" "{min_age"])))
           0 (mkSegmentRow "1" "Broken" "{min_age") eq_refl).
Defined.

(** ** More runs of the embedding *)

Module MoreTests.

Example test_load_customers_bad_row :
  map customer_id
    (load_customers_from Parsers.int_of_digits Parsers.float_of_table
       (Some Parsers.customer_rows))
  = ["1"].
Proof. reflexivity. Qed.

Example test_login_with_valid_credentials :
  reply_session
    (login (mkApp Config None)
       (mkRequest "POST" [("username", "admin"); ("password", "password")] []
          "/auth/login") [])
  = [("user_id", "admin"); ("username", "admin")].
Proof. reflexivity. Qed.

Example test_login_with_invalid_credentials :
  login (mkApp Config None)
    (mkRequest "POST" [("username", "admin"); ("password", "wrong")] []
       "/auth/login") []
  = mkReply (render_template "login.html" no_context) []
      [("Invalid username or password", "error")].
Proof. reflexivity. Qed.

Example test_unauthorized_access_dashboard_redirect :
  login_required (fun _ _ => dashboard_counters Sample.fresh)
    (mkRequest "GET" [] [] "/dashboard") []
  = inl (redirect (url_for "auth.login" [("next", "/dashboard")])).
Proof. reflexivity. Qed.

Example test_strip :
  Text.strip "  a b  " = "a b" /\ Text.strip "   " = EmptyString
  /\ Text.strip "abc" = "abc".
Proof. repeat split. Qed.

Example test_segment_lookup_last_wins :
  Dict.get (segment_lookup [mkSegment "1" "First" no_rules;
                            mkSegment "1" "Second" no_rules]) "1"
  = Some "Second".
Proof. reflexivity. Qed.

Example test_lower :
  Py.lower "ANKARA City 42!" = "ankara city 42!"
  /\ Py.lower "[\]^_`@{" = "[\]^_`@{"
  /\ match_customer_rules
       (mkCustomer "9" "N" "n@example.com" 30 (Some "Greater ANKARA Area") 0
          "2024-01-01")
       (only_location "ankara") = true
  /\ match_customer_rules Sample.user1 (only_location "ANK") = true
  /\ match_customer_rules Sample.user1 (only_location "Anka ra") = false.
Proof. repeat split. Qed.

Example test_round_half_even :
  Py.round2_float 0.125 = 0.12%float
  /\ Py.round2_float 0.375 = 0.38%float
  /\ Py.round2_float 2.675 = 2.67%float
  /\ Py.round2_float 1.005 = 1%float
  /\ Py.round2_float 0.1875 = 0.19%float
  /\ Py.round2_float 99.995 = 100%float
  /\ Py.round2_float 0.004 = 0%float
  /\ Py.round2_float (-0.125) = (-0.12)%float.
Proof. repeat split; vm_compute; reflexivity. Qed.

Example test_rates_rounded :
  Py.round2 (rate 1 3) = Py.NFloat 33.33
  /\ Py.round2 (rate 2 3) = Py.NFloat 66.67
  /\ Py.round2 (rate 1 7) = Py.NFloat 14.29
  /\ Py.round2 (rate 1 8) = Py.NFloat 12.5
  /\ Py.round2 (rate 1 800) = Py.NFloat 0.12
  /\ Py.round2 (rate 3 1600) = Py.NFloat 0.19
  /\ Py.round2 (rate 0 5) = Py.NFloat 0
  /\ Py.round2 (rate 5 0) = Py.NInt 0.
Proof. repeat split; vm_compute; reflexivity. Qed.

End MoreTests.
